(** * The compilation orchestrator of src/compiler.cc, embedded in Rocq

    The development follows src/compiler.cc function by function.  Heap
    objects that several owners point to (JSFunction, SharedFunctionInfo,
    feedback-vector cells) live in finite maps indexed by address, so that
    closures sharing a descriptor or a feedback vector really alias.  Code
    objects are values carrying their address and their kind; the one mutable
    bit the orchestrator reads from them, marked_for_deoptimization, is a set
    of addresses on the isolate.

    A DCHECK is an assertion: the embedding runs in an error monad in which a
    failed DCHECK (or a dereference of an address that holds no object) is
    [Fatal]; so is a failed CHECK, the assertion that is on in every build.
    Timers, tracing, logging, counters, handle scopes, language modes, the
    feedback metadata and coverage information are not part of the state;
    the three assertions that read them (lines 255, 311 and 350) go through
    collaborators. *)

From stdpp Require Import base option list gmap strings.

(** ** Enumerations *)

Inductive State : Type :=
  | kReadyToPrepare | kReadyToExecute | kReadyToFinalize | kSucceeded | kFailed.

Inductive Status : Type := SUCCEEDED | FAILED.

Inductive ConcurrencyMode : Type := kNotConcurrent | kConcurrent.

(** The bailout reasons compiler.cc names, and one constructor for the rest
    of the table of bailout-reason.h. *)
Inductive BailoutReason : Type :=
  | kNoReason
  | kFunctionBeingDebugged
  | kOptimizationDisabledForTest
  | kOptimizationDisabled
  | kBailedOutDueToDependencyChange
  | kOtherBailoutReason (n : nat).

Inductive CodeKind : Type := FUNCTION | OPTIMIZED_FUNCTION | BUILTIN.

Inductive OptimizationMarker : Type :=
  | kNone | kCompileOptimized | kCompileOptimizedConcurrent | kInOptimizationQueue.

Inductive FunctionKind : Type :=
  | kNormalFunction | kArrowFunction | kGeneratorFunction | kAsyncFunction
  | kAsyncGeneratorFunction.

(** The tier behind a job: the class whose NewCompilationJob built it. *)
Inductive Backend : Type := FullCodeGenerator | Interpreter | AsmJs | Pipeline.

#[global] Instance State_eq_dec : EqDecision State.
Proof. solve_decision. Defined.
#[global] Instance Status_eq_dec : EqDecision Status.
Proof. solve_decision. Defined.
#[global] Instance ConcurrencyMode_eq_dec : EqDecision ConcurrencyMode.
Proof. solve_decision. Defined.
#[global] Instance BailoutReason_eq_dec : EqDecision BailoutReason.
Proof. solve_decision. Defined.
#[global] Instance CodeKind_eq_dec : EqDecision CodeKind.
Proof. solve_decision. Defined.
#[global] Instance OptimizationMarker_eq_dec : EqDecision OptimizationMarker.
Proof. solve_decision. Defined.
#[global] Instance Backend_eq_dec : EqDecision Backend.
Proof. solve_decision. Defined.

(** BailoutId: [None] is BailoutId::None(). *)
Definition BailoutId : Type := option nat.
Definition IsNone (id : BailoutId) : bool :=
  match id with None => true | Some _ => false end.

(** ** Objects *)

(** A Code object: its address and its kind. *)
Record Code : Type := { code_id : nat; kind : CodeKind }.

#[global] Instance Code_eq_dec : EqDecision Code.
Proof. solve_decision. Defined.

(** BUILTIN_CODE(isolate, ...) for the three builtins compiler.cc names. *)
Definition CompileLazy : Code := {| code_id := 0; kind := BUILTIN |}.
Definition InterpreterEntryTrampoline : Code := {| code_id := 1; kind := BUILTIN |}.
Definition CheckOptimizationMarker : Code := {| code_id := 2; kind := BUILTIN |}.

Record DeclarationScope : Type := { asm_function : bool; asm_module : bool }.

Record FunctionLiteral : Type := {
  must_use_ignition : bool;
  function_kind : FunctionKind;
  scope : DeclarationScope;
  dont_optimize_reason : BailoutReason;
}.

Definition IsResumableFunction (k : FunctionKind) : bool :=
  match k with
  | kGeneratorFunction | kAsyncFunction | kAsyncGeneratorFunction => true
  | _ => false
  end.

Record SharedFunctionInfo : Type := {
  sfi_name : string;
  sfi_code : Code;
  sfi_has_bytecode_array : bool;
  sfi_has_asm_wasm_data : bool;
  optimization_disabled : bool;
  disable_optimization_reason : BailoutReason;
  HasBreakInfo : bool;
  script_IsScript : bool;
  is_asm_wasm_broken : bool;
  sfi_is_toplevel : bool;
}.

Record FeedbackVector : Type := {
  optimized_code : option Code;
  profiler_ticks : nat;
}.

Record JSFunction : Type := {
  shared : nat;
  fn_code : Code;
  feedback_vector_cell : nat;
  optimization_marker : OptimizationMarker;
}.

Record CompilationInfo : Type := {
  closure : option nat;
  shared_info : option nat;
  literal : option FunctionLiteral;
  code : option Code;
  has_bytecode_array : bool;
  has_asm_wasm_data : bool;
  IsOptimizing : bool;
  osr_ast_id : BailoutId;
  is_function_context_specializing : bool;
  is_frame_specializing : bool;
  is_optimizing_from_bytecode : bool;
  is_debug : bool;
  bailout_reason : BailoutReason;
  disable_future_optimization : bool;
  dependencies_HasAborted : bool;
}.

Record ParseInfo : Type := {
  is_toplevel : bool;
  pi_literal : option FunctionLiteral;
}.

Record CompilationJob : Type := {
  parse_info : ParseInfo;
  compilation_info : CompilationInfo;
  isolate_thread_id_ : nat;
  backend : Backend;
  state : State;
  executed_on_background_thread_ : bool;
}.

Record Flags : Type := {
  FLAG_opt : bool;
  FLAG_turbo_filter : string;
  FLAG_stress_fullcodegen : bool;
  FLAG_validate_asm : bool;
  FLAG_stress_validate_asm : bool;
  FLAG_ignition_osr : bool;
}.

(** The frame an OSR request comes from; compiler.cc only asks whether it is
    interpreted. *)
Record JavaScriptFrame : Type := { is_interpreted : bool }.

(** The isolate: its heap, its thread, its flags and its optimizing compile
    dispatcher.  [jobs_created] counts the jobs constructed so far; it is
    instrumentation, nothing reads it. *)
Record Isolate : Type := {
  thread_id : nat;
  current_thread : nat;
  has_pending_exception : bool;
  functions : gmap nat JSFunction;
  shared_infos : gmap nat SharedFunctionInfo;
  feedback_cells : gmap nat (option FeedbackVector);
  marked_for_deoptimization : gset nat;
  input_queue : list CompilationJob;
  input_queue_capacity : nat;
  HighMemoryPressure : bool;
  flags : Flags;
  jobs_created : nat;
}.

(** ** Field updates *)

Definition set_state (s : State) (j : CompilationJob) : CompilationJob :=
  {| parse_info := parse_info j; compilation_info := compilation_info j;
     isolate_thread_id_ := isolate_thread_id_ j; backend := backend j;
     state := s;
     executed_on_background_thread_ := executed_on_background_thread_ j |}.

Definition set_compilation_info (i : CompilationInfo) (j : CompilationJob)
  : CompilationJob :=
  {| parse_info := parse_info j; compilation_info := i;
     isolate_thread_id_ := isolate_thread_id_ j; backend := backend j;
     state := state j;
     executed_on_background_thread_ := executed_on_background_thread_ j |}.

Definition set_executed_on_background_thread_ (b : bool) (j : CompilationJob)
  : CompilationJob :=
  {| parse_info := parse_info j; compilation_info := compilation_info j;
     isolate_thread_id_ := isolate_thread_id_ j; backend := backend j;
     state := state j; executed_on_background_thread_ := b |}.

Definition set_bailout_reason (r : BailoutReason) (i : CompilationInfo)
  : CompilationInfo :=
  {| closure := closure i; shared_info := shared_info i; literal := literal i;
     code := code i; has_bytecode_array := has_bytecode_array i;
     has_asm_wasm_data := has_asm_wasm_data i; IsOptimizing := IsOptimizing i;
     osr_ast_id := osr_ast_id i;
     is_function_context_specializing := is_function_context_specializing i;
     is_frame_specializing := is_frame_specializing i;
     is_optimizing_from_bytecode := is_optimizing_from_bytecode i;
     is_debug := is_debug i; bailout_reason := r;
     disable_future_optimization := disable_future_optimization i;
     dependencies_HasAborted := dependencies_HasAborted i |}.

Definition set_disable_future_optimization (b : bool) (i : CompilationInfo)
  : CompilationInfo :=
  {| closure := closure i; shared_info := shared_info i; literal := literal i;
     code := code i; has_bytecode_array := has_bytecode_array i;
     has_asm_wasm_data := has_asm_wasm_data i; IsOptimizing := IsOptimizing i;
     osr_ast_id := osr_ast_id i;
     is_function_context_specializing := is_function_context_specializing i;
     is_frame_specializing := is_frame_specializing i;
     is_optimizing_from_bytecode := is_optimizing_from_bytecode i;
     is_debug := is_debug i; bailout_reason := bailout_reason i;
     disable_future_optimization := b;
     dependencies_HasAborted := dependencies_HasAborted i |}.

Definition set_literal (l : option FunctionLiteral) (i : CompilationInfo)
  : CompilationInfo :=
  {| closure := closure i; shared_info := shared_info i; literal := l;
     code := code i; has_bytecode_array := has_bytecode_array i;
     has_asm_wasm_data := has_asm_wasm_data i; IsOptimizing := IsOptimizing i;
     osr_ast_id := osr_ast_id i;
     is_function_context_specializing := is_function_context_specializing i;
     is_frame_specializing := is_frame_specializing i;
     is_optimizing_from_bytecode := is_optimizing_from_bytecode i;
     is_debug := is_debug i; bailout_reason := bailout_reason i;
     disable_future_optimization := disable_future_optimization i;
     dependencies_HasAborted := dependencies_HasAborted i |}.

Definition set_shared_info (s : option nat) (i : CompilationInfo)
  : CompilationInfo :=
  {| closure := closure i; shared_info := s; literal := literal i;
     code := code i; has_bytecode_array := has_bytecode_array i;
     has_asm_wasm_data := has_asm_wasm_data i; IsOptimizing := IsOptimizing i;
     osr_ast_id := osr_ast_id i;
     is_function_context_specializing := is_function_context_specializing i;
     is_frame_specializing := is_frame_specializing i;
     is_optimizing_from_bytecode := is_optimizing_from_bytecode i;
     is_debug := is_debug i; bailout_reason := bailout_reason i;
     disable_future_optimization := disable_future_optimization i;
     dependencies_HasAborted := dependencies_HasAborted i |}.

Definition SetOptimizingForOsr (id : BailoutId) (i : CompilationInfo)
  : CompilationInfo :=
  {| closure := closure i; shared_info := shared_info i; literal := literal i;
     code := code i; has_bytecode_array := has_bytecode_array i;
     has_asm_wasm_data := has_asm_wasm_data i; IsOptimizing := IsOptimizing i;
     osr_ast_id := id;
     is_function_context_specializing := is_function_context_specializing i;
     is_frame_specializing := is_frame_specializing i;
     is_optimizing_from_bytecode := is_optimizing_from_bytecode i;
     is_debug := is_debug i; bailout_reason := bailout_reason i;
     disable_future_optimization := disable_future_optimization i;
     dependencies_HasAborted := dependencies_HasAborted i |}.

Definition MarkAsOptimizeFromBytecode (i : CompilationInfo) : CompilationInfo :=
  {| closure := closure i; shared_info := shared_info i; literal := literal i;
     code := code i; has_bytecode_array := has_bytecode_array i;
     has_asm_wasm_data := has_asm_wasm_data i; IsOptimizing := IsOptimizing i;
     osr_ast_id := osr_ast_id i;
     is_function_context_specializing := is_function_context_specializing i;
     is_frame_specializing := is_frame_specializing i;
     is_optimizing_from_bytecode := true;
     is_debug := is_debug i; bailout_reason := bailout_reason i;
     disable_future_optimization := disable_future_optimization i;
     dependencies_HasAborted := dependencies_HasAborted i |}.

Definition set_functions (m : gmap nat JSFunction) (iso : Isolate) : Isolate :=
  {| thread_id := thread_id iso; current_thread := current_thread iso;
     has_pending_exception := has_pending_exception iso; functions := m;
     shared_infos := shared_infos iso; feedback_cells := feedback_cells iso;
     marked_for_deoptimization := marked_for_deoptimization iso;
     input_queue := input_queue iso;
     input_queue_capacity := input_queue_capacity iso;
     HighMemoryPressure := HighMemoryPressure iso; flags := flags iso;
     jobs_created := jobs_created iso |}.

Definition set_shared_infos (m : gmap nat SharedFunctionInfo) (iso : Isolate)
  : Isolate :=
  {| thread_id := thread_id iso; current_thread := current_thread iso;
     has_pending_exception := has_pending_exception iso;
     functions := functions iso; shared_infos := m;
     feedback_cells := feedback_cells iso;
     marked_for_deoptimization := marked_for_deoptimization iso;
     input_queue := input_queue iso;
     input_queue_capacity := input_queue_capacity iso;
     HighMemoryPressure := HighMemoryPressure iso; flags := flags iso;
     jobs_created := jobs_created iso |}.

Definition set_feedback_cells (m : gmap nat (option FeedbackVector))
  (iso : Isolate) : Isolate :=
  {| thread_id := thread_id iso; current_thread := current_thread iso;
     has_pending_exception := has_pending_exception iso;
     functions := functions iso; shared_infos := shared_infos iso;
     feedback_cells := m;
     marked_for_deoptimization := marked_for_deoptimization iso;
     input_queue := input_queue iso;
     input_queue_capacity := input_queue_capacity iso;
     HighMemoryPressure := HighMemoryPressure iso; flags := flags iso;
     jobs_created := jobs_created iso |}.

Definition set_has_pending_exception (b : bool) (iso : Isolate) : Isolate :=
  {| thread_id := thread_id iso; current_thread := current_thread iso;
     has_pending_exception := b;
     functions := functions iso; shared_infos := shared_infos iso;
     feedback_cells := feedback_cells iso;
     marked_for_deoptimization := marked_for_deoptimization iso;
     input_queue := input_queue iso;
     input_queue_capacity := input_queue_capacity iso;
     HighMemoryPressure := HighMemoryPressure iso; flags := flags iso;
     jobs_created := jobs_created iso |}.

Definition set_input_queue (q : list CompilationJob) (iso : Isolate) : Isolate :=
  {| thread_id := thread_id iso; current_thread := current_thread iso;
     has_pending_exception := has_pending_exception iso;
     functions := functions iso; shared_infos := shared_infos iso;
     feedback_cells := feedback_cells iso;
     marked_for_deoptimization := marked_for_deoptimization iso;
     input_queue := q;
     input_queue_capacity := input_queue_capacity iso;
     HighMemoryPressure := HighMemoryPressure iso; flags := flags iso;
     jobs_created := jobs_created iso |}.

Definition set_jobs_created (n : nat) (iso : Isolate) : Isolate :=
  {| thread_id := thread_id iso; current_thread := current_thread iso;
     has_pending_exception := has_pending_exception iso;
     functions := functions iso; shared_infos := shared_infos iso;
     feedback_cells := feedback_cells iso;
     marked_for_deoptimization := marked_for_deoptimization iso;
     input_queue := input_queue iso;
     input_queue_capacity := input_queue_capacity iso;
     HighMemoryPressure := HighMemoryPressure iso; flags := flags iso;
     jobs_created := n |}.

(** ** The monad: isolate state, and Fatal for a failed assertion *)

Inductive outcome (A : Type) : Type :=
  | Ret (a : A)
  | Fatal.
Arguments Ret {A} a.
Arguments Fatal {A}.

Definition M (A : Type) : Type := Isolate -> outcome (A * Isolate).

Definition ret {A} (a : A) : M A := fun iso => Ret (a, iso).

Definition bind {A B} (m : M A) (k : A -> M B) : M B :=
  fun iso => match m iso with
             | Ret (a, iso') => k a iso'
             | Fatal => Fatal
             end.

Definition get_isolate : M Isolate := fun iso => Ret (iso, iso).
Definition modify (f : Isolate -> Isolate) : M unit := fun iso => Ret (tt, f iso).
Definition DCHECK (b : bool) : M unit := fun iso => if b then Ret (tt, iso) else Fatal.
Definition CHECK (b : bool) : M unit := DCHECK b.
Definition crash {A} : M A := fun _ => Fatal.

Notation "'let*' x ':=' m 'in' k" := (bind m (fun x => k))
  (at level 10, x pattern, m at level 100, k at level 200).
Notation "m ';;;' k" := (bind m (fun _ => k))
  (at level 100, k at level 200, right associativity).

(** ** Heap access *)

(** Dereferencing an address: Fatal when no object lives there. *)
Definition deref {A} (sel : Isolate -> gmap nat A) (addr : nat) : M A :=
  fun iso => match sel iso !! addr with
             | Some x => Ret (x, iso)
             | None => Fatal
             end.

Definition get_function (f : nat) : M JSFunction := deref functions f.
Definition get_shared (s : nat) : M SharedFunctionInfo := deref shared_infos s.

Definition update_function (f : nat) (upd : JSFunction -> JSFunction) : M unit :=
  let* fn := get_function f in
  modify (fun iso => set_functions (<[f := upd fn]> (functions iso)) iso).

Definition update_shared (s : nat) (upd : SharedFunctionInfo -> SharedFunctionInfo)
  : M unit :=
  let* sh := get_shared s in
  modify (fun iso => set_shared_infos (<[s := upd sh]> (shared_infos iso)) iso).

(** function->feedback_vector(): the vector held by the function's cell;
    Fatal when the cell holds none. *)
Definition feedback_vector (f : nat) : M FeedbackVector :=
  let* fn := get_function f in
  let* cell := deref feedback_cells (feedback_vector_cell fn) in
  match cell with
  | Some v => ret v
  | None => crash
  end.

Definition update_feedback_vector (f : nat) (upd : FeedbackVector -> FeedbackVector)
  : M unit :=
  let* fn := get_function f in
  let* v := feedback_vector f in
  modify (fun iso =>
    set_feedback_cells (<[feedback_vector_cell fn := Some (upd v)]> (feedback_cells iso)) iso).

(** JSFunction::ReplaceCode and SharedFunctionInfo::ReplaceCode store the
    code pointer. *)
Definition JSFunction_ReplaceCode (f : nat) (c : Code) : M unit :=
  update_function f (fun fn =>
    {| shared := shared fn; fn_code := c;
       feedback_vector_cell := feedback_vector_cell fn;
       optimization_marker := optimization_marker fn |}).

Definition set_optimization_marker (m : OptimizationMarker) (fn : JSFunction)
  : JSFunction :=
  {| shared := shared fn; fn_code := fn_code fn;
     feedback_vector_cell := feedback_vector_cell fn;
     optimization_marker := m |}.

Definition HasOptimizationMarker (fn : JSFunction) : bool :=
  negb (bool_decide (optimization_marker fn = kNone)).
Definition IsInOptimizationQueue (fn : JSFunction) : bool :=
  bool_decide (optimization_marker fn = kInOptimizationQueue).
Definition SetOptimizationMarker (f : nat) (m : OptimizationMarker) : M unit :=
  update_function f (set_optimization_marker m).
Definition ClearOptimizationMarker (f : nat) : M unit :=
  update_function f (set_optimization_marker kNone).

(** Modelled from the spec: JSFunction::IsOptimized is declared outside
    compiler.cc; the spec's "closure already runs optimized code" is read
    with the test compiler.cc itself uses for an optimized-tier artifact,
    kind() == Code::OPTIMIZED_FUNCTION. *)
Definition IsOptimized (fn : JSFunction) : bool :=
  bool_decide (kind (fn_code fn) = OPTIMIZED_FUNCTION).

(** Modelled from the spec: is_compiled is declared outside compiler.cc; "has
    a compiled baseline representation" is read as: the code is not the
    CompileLazy builtin, the stub compiler.cc compares against when it logs
    a compilation. *)
Definition sfi_is_compiled (sh : SharedFunctionInfo) : bool :=
  negb (bool_decide (sfi_code sh = CompileLazy)).
Definition fn_is_compiled (fn : JSFunction) : bool :=
  negb (bool_decide (fn_code fn = CompileLazy)).

(** SharedFunctionInfo::DisableOptimization(reason), as its readers in
    compiler.cc see it: the flag and the reason. *)
Definition DisableOptimization (r : BailoutReason) (sh : SharedFunctionInfo)
  : SharedFunctionInfo :=
  {| sfi_name := sfi_name sh; sfi_code := sfi_code sh;
     sfi_has_bytecode_array := sfi_has_bytecode_array sh;
     sfi_has_asm_wasm_data := sfi_has_asm_wasm_data sh;
     optimization_disabled := true; disable_optimization_reason := r;
     HasBreakInfo := HasBreakInfo sh; script_IsScript := script_IsScript sh;
     is_asm_wasm_broken := is_asm_wasm_broken sh;
     sfi_is_toplevel := sfi_is_toplevel sh |}.

Definition code_marked_for_deoptimization (iso : Isolate) (c : Code) : bool :=
  bool_decide (code_id c ∈ marked_for_deoptimization iso).

(** The optimizing compile dispatcher, at its interface: a bounded input
    queue. *)
Definition IsQueueAvailable (iso : Isolate) : bool :=
  bool_decide (length (input_queue iso) < input_queue_capacity iso).
Definition QueueForOptimization (job : CompilationJob) : M unit :=
  modify (fun iso => set_input_queue (input_queue iso ++ [job]) iso).

(** ** External collaborators

    The tier back ends behind PrepareJobImpl / ExecuteJobImpl /
    FinalizeJobImpl, the parser and analyzer, and the name filter.  A back
    end reads the isolate and the CompilationInfo and writes its outputs back
    to the CompilationInfo: the code it produced, the specialization it
    chose, a bailout reason, the state of the dependency set.  The target of
    the compile (closure, descriptor, OSR entry) is not its to change. *)
Record BackendOutput : Type := {
  out_code : option Code;
  out_has_bytecode_array : bool;
  out_has_asm_wasm_data : bool;
  out_is_function_context_specializing : bool;
  out_is_frame_specializing : bool;
  out_bailout_reason : BailoutReason;
  out_disable_future_optimization : bool;
  out_dependencies_HasAborted : bool;
}.

Definition record_output (o : BackendOutput) (i : CompilationInfo)
  : CompilationInfo :=
  {| closure := closure i; shared_info := shared_info i; literal := literal i;
     code := out_code o; has_bytecode_array := out_has_bytecode_array o;
     has_asm_wasm_data := out_has_asm_wasm_data o;
     IsOptimizing := IsOptimizing i; osr_ast_id := osr_ast_id i;
     is_function_context_specializing := out_is_function_context_specializing o;
     is_frame_specializing := out_is_frame_specializing o;
     is_optimizing_from_bytecode := is_optimizing_from_bytecode i;
     is_debug := is_debug i; bailout_reason := out_bailout_reason o;
     disable_future_optimization := out_disable_future_optimization o;
     dependencies_HasAborted := out_dependencies_HasAborted o |}.

(** The outputs as the CompilationInfo holds them now: what a back end that
    changes nothing writes back. *)
Definition current_output (i : CompilationInfo) : BackendOutput :=
  {| out_code := code i; out_has_bytecode_array := has_bytecode_array i;
     out_has_asm_wasm_data := has_asm_wasm_data i;
     out_is_function_context_specializing := is_function_context_specializing i;
     out_is_frame_specializing := is_frame_specializing i;
     out_bailout_reason := bailout_reason i;
     out_disable_future_optimization := disable_future_optimization i;
     out_dependencies_HasAborted := dependencies_HasAborted i |}.

Record Collaborators : Type := {
  PrepareJobImpl :
    Backend -> Isolate -> ParseInfo -> CompilationInfo -> Status * BackendOutput;
  ExecuteJobImpl :
    Backend -> Isolate -> ParseInfo -> CompilationInfo -> Status * BackendOutput;
  FinalizeJobImpl :
    Backend -> Isolate -> ParseInfo -> CompilationInfo -> Status * BackendOutput;
  can_execute_on_background_thread : Backend -> bool;
  PassesFilter : SharedFunctionInfo -> string -> bool;
  (* parsing::ParseAny: the parsed ParseInfo, or a failure that may leave an
     exception pending *)
  ParseAny : Isolate -> ParseInfo -> option nat -> option ParseInfo * bool;
  Rewriter_Rewrite : ParseInfo -> bool;
  Renumber : ParseInfo -> bool;
  (* code()->is_interpreter_trampoline_builtin() and
     code()->checks_optimization_marker() *)
  is_interpreter_trampoline_builtin : Code -> bool;
  checks_optimization_marker : Code -> bool;
  (* shared_info()->language_mode() == literal()->language_mode(), for the
     descriptor at the given address (line 311) *)
  same_language_mode : Isolate -> nat -> FunctionLiteral -> bool;
  (* shared_info()->feedback_metadata()->SpecDiffersFrom(
     literal()->feedback_vector_spec()), for the metadata lines 245-252 leave
     on the descriptor at the given address (line 255) *)
  SpecDiffersFrom : Isolate -> nat -> FunctionLiteral -> bool;
  (* compilation_info->has_coverage_info() and
     compilation_info->is_block_coverage_enabled() (lines 349-350) *)
  has_coverage_info : CompilationInfo -> bool;
  is_block_coverage_enabled : CompilationInfo -> bool;
}.

Section Compiler.

Variable ext : Collaborators.

(** ** Implementation of CompilationJob (compiler.cc lines 75-152) *)

(** Modelled from the spec: CompilationJob::UpdateState lives in compiler.h.
    Section 4.2: each phase moves the job to its successor state, or to
    Failed. *)
Definition UpdateState (status : Status) (next_state : State)
  (job : CompilationJob) : Status * CompilationJob :=
  match status with
  | SUCCEEDED => (status, set_state next_state job)
  | FAILED => (status, set_state kFailed job)
  end.

(** Modelled from the spec: CompilationInfo::RetryOptimization lives in
    compilation-info.h.  Section 4.2: it records the reason on the
    CompilationInfo and leaves the descriptor eligible for a later attempt. *)
Definition CompilationInfo_RetryOptimization (reason : BailoutReason)
  (info : CompilationInfo) : CompilationInfo :=
  set_bailout_reason reason info.

(** Modelled from the spec: CompilationInfo::AbortOptimization lives in
    compilation-info.h.  Section 4.2: it records the reason on the
    CompilationInfo and additionally marks the FunctionDescriptor so that the
    function is not attempted again at this tier. *)
Definition CompilationInfo_AbortOptimization (reason : BailoutReason)
  (info : CompilationInfo) : M CompilationInfo :=
  match shared_info info with
  | Some s => update_shared s (DisableOptimization reason)
  | None => ret tt
  end ;;;
  ret (set_disable_future_optimization true (set_bailout_reason reason info)).

Definition PrepareJob (job : CompilationJob) : M (Status * CompilationJob) :=
  let* iso := get_isolate in
  DCHECK (bool_decide (current_thread iso = thread_id iso)) ;;;
  (* Delegate to the underlying implementation. *)
  DCHECK (bool_decide (state job = kReadyToPrepare)) ;;;
  let '(status, out) :=
    PrepareJobImpl ext (backend job) iso (parse_info job) (compilation_info job) in
  ret (UpdateState status kReadyToExecute
         (set_compilation_info (record_output out (compilation_info job)) job)).

Definition ExecuteJob (job : CompilationJob) : M (Status * CompilationJob) :=
  let* iso := get_isolate in
  let* job :=
    if can_execute_on_background_thread ext (backend job) then
      ret (set_executed_on_background_thread_
             (negb (bool_decide (current_thread iso = isolate_thread_id_ job))) job)
    else
      DCHECK (bool_decide (current_thread iso = isolate_thread_id_ job)) ;;;
      ret job in
  (* Delegate to the underlying implementation. *)
  DCHECK (bool_decide (state job = kReadyToExecute)) ;;;
  let '(status, out) :=
    ExecuteJobImpl ext (backend job) iso (parse_info job) (compilation_info job) in
  ret (UpdateState status kReadyToFinalize
         (set_compilation_info (record_output out (compilation_info job)) job)).

Definition FinalizeJob (job : CompilationJob) : M (Status * CompilationJob) :=
  let* iso := get_isolate in
  DCHECK (bool_decide (current_thread iso = thread_id iso)) ;;;
  DCHECK (negb (dependencies_HasAborted (compilation_info job))) ;;;
  (* Delegate to the underlying implementation. *)
  DCHECK (bool_decide (state job = kReadyToFinalize)) ;;;
  let '(status, out) :=
    FinalizeJobImpl ext (backend job) iso (parse_info job) (compilation_info job) in
  ret (UpdateState status kSucceeded
         (set_compilation_info (record_output out (compilation_info job)) job)).

Definition RetryOptimization (reason : BailoutReason) (job : CompilationJob)
  : M (Status * CompilationJob) :=
  DCHECK (IsOptimizing (compilation_info job)) ;;;
  let info := CompilationInfo_RetryOptimization reason (compilation_info job) in
  ret (FAILED, set_state kFailed (set_compilation_info info job)).

Definition AbortOptimization (reason : BailoutReason) (job : CompilationJob)
  : M (Status * CompilationJob) :=
  DCHECK (IsOptimizing (compilation_info job)) ;;;
  let* info := CompilationInfo_AbortOptimization reason (compilation_info job) in
  ret (FAILED, set_state kFailed (set_compilation_info info job)).

(** ** Local helpers of the compilation pipeline (compiler.cc lines 202-1045) *)

Definition set_sfi_code (c : Code) (sh : SharedFunctionInfo) : SharedFunctionInfo :=
  {| sfi_name := sfi_name sh; sfi_code := c;
     sfi_has_bytecode_array := sfi_has_bytecode_array sh;
     sfi_has_asm_wasm_data := sfi_has_asm_wasm_data sh;
     optimization_disabled := optimization_disabled sh;
     disable_optimization_reason := disable_optimization_reason sh;
     HasBreakInfo := HasBreakInfo sh; script_IsScript := script_IsScript sh;
     is_asm_wasm_broken := is_asm_wasm_broken sh;
     sfi_is_toplevel := sfi_is_toplevel sh |}.

Definition set_sfi_has_bytecode_array (b : bool) (sh : SharedFunctionInfo)
  : SharedFunctionInfo :=
  {| sfi_name := sfi_name sh; sfi_code := sfi_code sh;
     sfi_has_bytecode_array := b;
     sfi_has_asm_wasm_data := sfi_has_asm_wasm_data sh;
     optimization_disabled := optimization_disabled sh;
     disable_optimization_reason := disable_optimization_reason sh;
     HasBreakInfo := HasBreakInfo sh; script_IsScript := script_IsScript sh;
     is_asm_wasm_broken := is_asm_wasm_broken sh;
     sfi_is_toplevel := sfi_is_toplevel sh |}.

Definition set_sfi_has_asm_wasm_data (b : bool) (sh : SharedFunctionInfo)
  : SharedFunctionInfo :=
  {| sfi_name := sfi_name sh; sfi_code := sfi_code sh;
     sfi_has_bytecode_array := sfi_has_bytecode_array sh;
     sfi_has_asm_wasm_data := b;
     optimization_disabled := optimization_disabled sh;
     disable_optimization_reason := disable_optimization_reason sh;
     HasBreakInfo := HasBreakInfo sh; script_IsScript := script_IsScript sh;
     is_asm_wasm_broken := is_asm_wasm_broken sh;
     sfi_is_toplevel := sfi_is_toplevel sh |}.

(** A job as its constructor leaves it (lines 75-84): the given initial
    state, the isolate's thread, not yet executed.  The count of constructed
    jobs goes up by one. *)
Definition NewCompilationJob (b : Backend) (pi : ParseInfo)
  (info : CompilationInfo) (initial_state : State) : M CompilationJob :=
  let* iso := get_isolate in
  modify (fun iso => set_jobs_created (S (jobs_created iso)) iso) ;;;
  ret {| parse_info := pi; compilation_info := info;
         isolate_thread_id_ := thread_id iso; backend := b;
         state := initial_state; executed_on_background_thread_ := false |}.

Definition ShouldUseFullCodegen (lit : FunctionLiteral) : M bool :=
  (* Code which can't be supported by the old pipeline should use Ignition. *)
  if must_use_ignition lit then ret false else
  DCHECK (negb (IsResumableFunction (function_kind lit))) ;;;
  (* Use full-codegen for asm.js functions. *)
  if asm_function (scope lit) then ret true else
  (* If stressing full-codegen then use it for all functions it can support. *)
  let* iso := get_isolate in
  ret (FLAG_stress_fullcodegen (flags iso)).

Definition UseAsmWasm (sc : DeclarationScope) (shared_info : option nat)
  (is_debug : bool) : M bool :=
  let* iso := get_isolate in
  (* Check whether asm.js validation is enabled. *)
  if negb (FLAG_validate_asm (flags iso)) then ret false else
  let* broken :=
    match shared_info with
    | Some s => let* sh := get_shared s in ret (is_asm_wasm_broken sh)
    | None => ret false
    end in
  if broken then ret false else
  (* Compiling for debugging is not supported, fall back. *)
  if is_debug then ret false else
  (* In stress mode we want to run the validator on everything. *)
  if FLAG_stress_validate_asm (flags iso) then ret true else
  (* In general, we respect the "use asm" directive. *)
  ret (asm_module sc).

Definition GetUnoptimizedCompilationJob (pi : ParseInfo) (info : CompilationInfo)
  : M CompilationJob :=
  match literal info with
  | None => crash
  | Some lit =>
      let* full := ShouldUseFullCodegen lit in
      if full then NewCompilationJob FullCodeGenerator pi info kReadyToPrepare
      else NewCompilationJob Interpreter pi info kReadyToPrepare
  end.

(** EnsureFeedbackMetadata (lines 236-257).  The metadata it creates when
    the descriptor has none or is not compiled is not part of the state; the
    CHECK that the metadata fits the literal is always on. *)
Definition EnsureFeedbackMetadata (info : CompilationInfo) : M unit :=
  DCHECK (bool_decide (is_Some (shared_info info))) ;;;
  match shared_info info, literal info with
  | Some s, Some lit =>
      let* sh := get_shared s in
      (* It's very important that recompiles do not alter the structure of the
         type feedback vector. Verify that the structure fits the function
         literal. *)
      let* iso := get_isolate in
      CHECK (negb (SpecDiffersFrom ext iso s lit))
  | _, _ => crash
  end.

Definition InstallUnoptimizedCode (info : CompilationInfo) : M unit :=
  match shared_info info, literal info with
  | Some s, Some lit =>
      let* iso := get_isolate in
      DCHECK (same_language_mode ext iso s lit)
  | _, _ => crash
  end ;;;
  (* Ensure feedback metadata is installed. *)
  EnsureFeedbackMetadata info ;;;
  match shared_info info, code info with
  | Some s, Some c =>
      (if is_debug info && has_bytecode_array info
       then update_shared s (set_sfi_has_bytecode_array false)
       else ret tt) ;;;
      update_shared s (set_sfi_code c) ;;;
      (if has_bytecode_array info then
         let* sh := get_shared s in
         DCHECK (negb (sfi_has_bytecode_array sh)) ;;;
         DCHECK (negb (has_asm_wasm_data info)) ;;;
         update_shared s (set_sfi_has_bytecode_array true)
       else if has_asm_wasm_data info then
         update_shared s (set_sfi_has_asm_wasm_data true)
       else ret tt) ;;;
      (* Install coverage info on the shared function info. *)
      if has_coverage_info ext info
      then DCHECK (is_block_coverage_enabled ext info)
      else ret tt
  | _, _ => crash
  end.

Definition SetSharedFunctionFlagsFromLiteral (lit : FunctionLiteral) (s : nat)
  : M unit :=
  let* sh := get_shared s in
  if bool_decide (dont_optimize_reason lit = kNoReason) then ret tt
  else update_shared s (DisableOptimization (dont_optimize_reason lit)).

(** Modelled from the spec: the factory's NewSharedFunctionInfoForLiteral is
    outside compiler.cc.  Section 3: a descriptor is created once per function
    literal; a fresh one has no baseline code, so its code is the CompileLazy
    builtin and optimization is not disabled. *)
Definition NewSharedFunctionInfoForLiteral (lit : FunctionLiteral) : M nat :=
  let* iso := get_isolate in
  let s := fresh (dom (shared_infos iso)) in
  modify (fun iso => set_shared_infos (<[s :=
    {| sfi_name := EmptyString; sfi_code := CompileLazy;
       sfi_has_bytecode_array := false; sfi_has_asm_wasm_data := false;
       optimization_disabled := false; disable_optimization_reason := kNoReason;
       HasBreakInfo := false; script_IsScript := true;
       is_asm_wasm_broken := false; sfi_is_toplevel := false |}]>
    (shared_infos iso)) iso) ;;;
  ret s.

Definition set_sfi_is_toplevel (b : bool) (sh : SharedFunctionInfo)
  : SharedFunctionInfo :=
  {| sfi_name := sfi_name sh; sfi_code := sfi_code sh;
     sfi_has_bytecode_array := sfi_has_bytecode_array sh;
     sfi_has_asm_wasm_data := sfi_has_asm_wasm_data sh;
     optimization_disabled := optimization_disabled sh;
     disable_optimization_reason := disable_optimization_reason sh;
     HasBreakInfo := HasBreakInfo sh; script_IsScript := script_IsScript sh;
     is_asm_wasm_broken := is_asm_wasm_broken sh;
     sfi_is_toplevel := b |}.

Definition FinalizeUnoptimizedCompilationJob (job : CompilationJob)
  : M (Status * CompilationJob) :=
  let info := compilation_info job in
  match literal info with
  | None => crash
  | Some lit =>
      let* info :=
        if is_toplevel (parse_info job) then
          match shared_info info with
          | Some _ => ret info
          | None =>
              let* s := NewSharedFunctionInfoForLiteral lit in
              update_shared s (set_sfi_is_toplevel true) ;;;
              ret (set_shared_info (Some s) info)
          end
        else ret info in
      match shared_info info with
      | None => crash
      | Some s =>
          SetSharedFunctionFlagsFromLiteral lit s ;;;
          let* (status, job) := FinalizeJob (set_compilation_info info job) in
          match status with
          | SUCCEEDED =>
              InstallUnoptimizedCode (compilation_info job) ;;;
              ret (status, job)
          | FAILED => ret (status, job)
          end
      end
  end.

Definition RunUnoptimizedCompilationJob (job : CompilationJob)
  : M (bool * CompilationJob) :=
  let* (st1, job) := PrepareJob job in
  if negb (bool_decide (st1 = SUCCEEDED)) then ret (false, job) else
  let* (st2, job) := ExecuteJob job in
  if negb (bool_decide (st2 = SUCCEEDED)) then ret (false, job) else
  let* (st3, job) := FinalizeUnoptimizedCompilationJob job in
  ret (bool_decide (st3 = SUCCEEDED), job).

(** GenerateUnoptimizedCode returns, next to its boolean, the job that ran
    last: in C++ a local that dies at return, while the CompilationInfo it
    worked on is the caller's and carries the result. *)
Definition GenerateUnoptimizedCode (pi : ParseInfo) (info : CompilationInfo)
  : M (bool * CompilationJob) :=
  match literal info with
  | None => crash
  | Some lit =>
      let* use_asm := UseAsmWasm (scope lit) (shared_info info) (is_debug info) in
      let* asm :=
        if use_asm then
          let* job := NewCompilationJob AsmJs pi info kReadyToPrepare in
          let* (ok, job) := RunUnoptimizedCompilationJob job in
          ret (Some (ok, job))
        else ret None in
      match asm with
      | Some (true, job) => ret (true, job)
      | Some (false, job) =>
          (* asm.js validation failed, fall through to standard unoptimized
             compile. *)
          let* job := GetUnoptimizedCompilationJob pi (compilation_info job) in
          RunUnoptimizedCompilationJob job
      | None =>
          let* job := GetUnoptimizedCompilationJob pi info in
          RunUnoptimizedCompilationJob job
      end
  end.

(** ** The optimized code cache (lines 583-641) *)

(** Modelled from the spec: FeedbackVector::ClearOptimizedCode and
    FeedbackVector::SetOptimizedCode live in feedback-vector.h.  Section 3:
    the slot holds one optimized-code reference and a profiler-tick counter
    that is reset whenever new code is attached; section 4.4: Clear drops the
    slot and resets the profiler-tick counter. *)
Definition ClearOptimizedCode (v : FeedbackVector) : FeedbackVector :=
  {| optimized_code := None; profiler_ticks := 0 |}.
Definition SetOptimizedCode (c : Code) (v : FeedbackVector) : FeedbackVector :=
  {| optimized_code := Some c; profiler_ticks := 0 |}.
Definition set_profiler_ticks (n : nat) (v : FeedbackVector) : FeedbackVector :=
  {| optimized_code := optimized_code v; profiler_ticks := n |}.

(** Modelled from the spec: FeedbackVector::
    EvictOptimizedCodeMarkedForDeoptimization lives in feedback-vector.cc.
    Section 4.4: a cached entry that has since been marked for deoptimization
    is evicted. *)
Definition EvictOptimizedCodeMarkedForDeoptimization (f : nat) : M unit :=
  let* iso := get_isolate in
  let* v := feedback_vector f in
  match optimized_code v with
  | Some c =>
      if code_marked_for_deoptimization iso c
      then update_feedback_vector f ClearOptimizedCode
      else ret tt
  | None => ret tt
  end.

Definition GetCodeFromOptimizedCodeCache (function : nat) (osr_ast_id : BailoutId)
  : M (option Code) :=
  let* fn := get_function function in
  if IsNone osr_ast_id then
    let* cell := deref feedback_cells (feedback_vector_cell fn) in
    match cell with
    | Some _ =>
        EvictOptimizedCodeMarkedForDeoptimization function ;;;
        let* v := feedback_vector function in
        match optimized_code v with
        | Some c =>
            (* Caching of optimized code enabled and optimized code found. *)
            let* iso := get_isolate in
            DCHECK (negb (code_marked_for_deoptimization iso c)) ;;;
            let* sh := get_shared (shared fn) in
            DCHECK (sfi_is_compiled sh) ;;;
            ret (Some c)
        | None => ret None
        end
    | None => ret None
    end
  else ret None.

Definition ClearOptimizedCodeCache (info : CompilationInfo) : M unit :=
  if IsNone (osr_ast_id info) then
    match closure info with
    | None => crash
    | Some function => update_feedback_vector function ClearOptimizedCode
    end
  else ret tt.

Definition InsertCodeIntoOptimizedCodeCache (info : CompilationInfo) : M unit :=
  match code info with
  | None => crash
  | Some c =>
      if negb (bool_decide (kind c = OPTIMIZED_FUNCTION)) then ret tt (* Nothing to do. *)
      else
      (* Function context specialization folds-in the function context,
         so no sharing can occur. *)
      if is_function_context_specializing info then
        (* Native context specialized code is not shared, so make sure the
           optimized code cache is clear. *)
        ClearOptimizedCodeCache info
      else
      (* Frame specialization implies function context specialization. *)
      DCHECK (negb (is_frame_specializing info)) ;;;
      (* Cache optimized context-specific code. *)
      match closure info with
      | None => crash
      | Some function =>
          let* fn := get_function function in
          if IsNone (osr_ast_id info)
          then update_feedback_vector function (SetOptimizedCode c)
          else ret tt
      end
  end.

(** ** Parsing and analysis (lines 1050-1068) *)

Definition set_parse_info (pi : ParseInfo) (j : CompilationJob) : CompilationJob :=
  {| parse_info := pi; compilation_info := compilation_info j;
     isolate_thread_id_ := isolate_thread_id_ j; backend := backend j;
     state := state j;
     executed_on_background_thread_ := executed_on_background_thread_ j |}.

Definition Compiler_Analyze (pi : ParseInfo) : M bool :=
  DCHECK (bool_decide (is_Some (pi_literal pi))) ;;;
  if negb (Rewriter_Rewrite ext pi) then ret false else
  if negb (Renumber ext pi) then ret false else
  ret true.

Definition Compiler_ParseAndAnalyze (pi : ParseInfo) (shared_info : option nat)
  : M (bool * ParseInfo) :=
  let* iso := get_isolate in
  let '(parsed, thrown) := ParseAny ext iso pi shared_info in
  modify (fun iso =>
    set_has_pending_exception (has_pending_exception iso || thrown) iso) ;;;
  match parsed with
  | None => ret (false, pi)
  | Some pi' =>
      let* ok := Compiler_Analyze pi' in
      ret (ok, pi')
  end.

(** ** The optimizing pipeline (lines 643-919) *)

(** CompilationJob::RecordOptimizedCompilationStats (lines 170-193): its
    assertion; the rest is tracing. *)
Definition RecordOptimizedCompilationStats (job : CompilationJob) : M unit :=
  DCHECK (IsOptimizing (compilation_info job)).

(** The parse step GetOptimizedCodeNow and GetOptimizedCodeLater share:
    parsing is not required when optimizing from existing bytecode.  [None]
    is the early "return false". *)
Definition parse_for_optimization (job : CompilationJob)
  : M (option CompilationJob) :=
  let info := compilation_info job in
  if negb (is_optimizing_from_bytecode info) then
    let* (ok, pi) := Compiler_ParseAndAnalyze (parse_info job) (shared_info info) in
    if negb ok then ret None
    else
      let info := set_literal (pi_literal pi) info in
      EnsureFeedbackMetadata info ;;;
      ret (Some (set_compilation_info info (set_parse_info pi job)))
  else ret (Some job).

Definition GetOptimizedCodeNow (job : CompilationJob) : M (bool * CompilationJob) :=
  let* parsed := parse_for_optimization job in
  match parsed with
  | None => ret (false, job)
  | Some job =>
      let* (st1, job) := PrepareJob job in
      if negb (bool_decide (st1 = SUCCEEDED)) then ret (false, job) else
      let* (st2, job) := ExecuteJob job in
      if negb (bool_decide (st2 = SUCCEEDED)) then ret (false, job) else
      let* (st3, job) := FinalizeJob job in
      if negb (bool_decide (st3 = SUCCEEDED)) then ret (false, job) else
      (* Success! *)
      RecordOptimizedCompilationStats job ;;;
      let* iso := get_isolate in
      DCHECK (negb (has_pending_exception iso)) ;;;
      InsertCodeIntoOptimizedCodeCache (compilation_info job) ;;;
      ret (true, job)
  end.

Definition GetOptimizedCodeLater (job : CompilationJob) : M (bool * CompilationJob) :=
  let* iso := get_isolate in
  if negb (IsQueueAvailable iso) then ret (false, job) else
  if HighMemoryPressure iso then ret (false, job) else
  let* parsed := parse_for_optimization job in
  match parsed with
  | None => ret (false, job)
  | Some job =>
      let* (st1, job) := PrepareJob job in
      if negb (bool_decide (st1 = SUCCEEDED)) then ret (false, job) else
      QueueForOptimization job ;;;
      ret (true, job)
  end.

(** Modelled from the spec: compiler::Pipeline::NewCompilationJob is outside
    compiler.cc.  Section 3: the job owns one CompilationInfo carrying the
    target descriptor and closure, no specialization, no OSR target, an empty
    bailout reason and a dependency set that has not aborted; its initial
    state is ReadyToPrepare. *)
Definition Pipeline_NewCompilationJob (function : nat) (has_script : bool)
  : M CompilationJob :=
  let* fn := get_function function in
  NewCompilationJob Pipeline
    {| is_toplevel := false; pi_literal := None |}
    {| closure := Some function; shared_info := Some (shared fn);
       literal := None; code := None; has_bytecode_array := false;
       has_asm_wasm_data := false; IsOptimizing := true; osr_ast_id := None;
       is_function_context_specializing := false;
       is_frame_specializing := false; is_optimizing_from_bytecode := false;
       is_debug := false; bailout_reason := kNoReason;
       disable_future_optimization := false;
       dependencies_HasAborted := false |}
    kReadyToPrepare.

Definition implb_ (a b : bool) : bool := negb a || b.

Definition clear_pending_exception (iso : Isolate) : Isolate :=
  set_has_pending_exception false iso.

(** GetOptimizedCode returns, next to the MaybeHandle<Code>, the job its
    unique_ptr destroys at return: [None] when no job was constructed or when
    the job was released to the dispatcher. *)
Definition GetOptimizedCode (function : nat) (mode : ConcurrencyMode)
  (osr_id : BailoutId) (osr_frame : option JavaScriptFrame)
  : M (option Code * option CompilationJob) :=
  let* fn := get_function function in
  let* iso := get_isolate in
  let ignition_osr :=
    match osr_frame with Some fr => is_interpreted fr | None => false end in
  DCHECK (implb_ ignition_osr (negb (IsNone osr_id))) ;;;
  DCHECK (implb_ ignition_osr (FLAG_ignition_osr (flags iso))) ;;;
  (* Make sure we clear the optimization marker on the function so that we
     don't try to re-optimize. *)
  (if HasOptimizationMarker fn then ClearOptimizationMarker function else ret tt) ;;;
  let* cached := GetCodeFromOptimizedCodeCache function osr_id in
  match cached with
  | Some cached_code => ret (Some cached_code, None)
  | None =>
      (* Reset profiler ticks, function is no longer considered hot. *)
      let* sh := get_shared (shared fn) in
      DCHECK (sfi_is_compiled sh) ;;;
      update_feedback_vector function (set_profiler_ticks 0) ;;;
      let* iso := get_isolate in
      DCHECK (negb (has_pending_exception iso)) ;;;
      let has_script := script_IsScript sh in
      DCHECK (implb_ (negb has_script) (sfi_has_bytecode_array sh)) ;;;
      let* job := Pipeline_NewCompilationJob function has_script in
      let info := SetOptimizingForOsr osr_id (compilation_info job) in
      let job := set_compilation_info info job in
      let* info_sh :=
        match shared_info info with
        | Some s => get_shared s
        | None => crash
        end in
      (* Do not use TurboFan if we need to be able to set break points. *)
      if HasBreakInfo info_sh then
        let* info := CompilationInfo_AbortOptimization kFunctionBeingDebugged info in
        ret (None, Some (set_compilation_info info job))
      else
      (* Do not use TurboFan when %NeverOptimizeFunction was applied. *)
      if optimization_disabled sh &&
         bool_decide (disable_optimization_reason sh = kOptimizationDisabledForTest)
      then
        let* info :=
          CompilationInfo_AbortOptimization kOptimizationDisabledForTest info in
        ret (None, Some (set_compilation_info info job))
      else
      (* Do not use TurboFan if optimization is disabled or function doesn't
         pass turbo_filter. *)
      if negb (FLAG_opt (flags iso)) ||
         negb (PassesFilter ext sh (FLAG_turbo_filter (flags iso)))
      then
        let* info := CompilationInfo_AbortOptimization kOptimizationDisabled info in
        ret (None, Some (set_compilation_info info job))
      else
      (* TurboFan can optimize directly from existing bytecode. *)
      let info :=
        if sfi_has_bytecode_array sh then MarkAsOptimizeFromBytecode info else info in
      let job := set_compilation_info info job in
      let is_osr := negb (IsNone (osr_ast_id info)) in
      DCHECK (implb_ (is_osr && ignition_osr) (is_optimizing_from_bytecode info)) ;;;
      DCHECK (implb_ (is_osr && negb ignition_osr)
                (negb (is_optimizing_from_bytecode info))) ;;;
      let* attempt :=
        match mode with
        | kConcurrent =>
            let* (ok, job) := GetOptimizedCodeLater job in
            if ok then
              (* The background recompile job owns this now.  Set the
                 optimization marker and return a code object which checks
                 it. *)
              SetOptimizationMarker function kInOptimizationQueue ;;;
              let* fn := get_function function in
              if is_interpreter_trampoline_builtin ext (fn_code fn)
              then ret (inl (Some InterpreterEntryTrampoline, None))
              else ret (inl (Some CheckOptimizationMarker, None))
            else ret (inr job)
        | kNotConcurrent =>
            let* (ok, job) := GetOptimizedCodeNow job in
            if ok then ret (inl (code (compilation_info job), Some job))
            else ret (inr job)
        end in
      match attempt with
      | inl result => ret result
      | inr job =>
          let* iso := get_isolate in
          (if has_pending_exception iso
           then modify clear_pending_exception else ret tt) ;;;
          ret (None, Some job)
      end
  end.

Definition FinalizeOptimizedCompilationJob (job : CompilationJob)
  : M (Status * CompilationJob) :=
  let info := compilation_info job in
  match closure info, shared_info info with
  | Some function, Some s =>
      (* Reset profiler ticks, function is no longer considered hot. *)
      update_feedback_vector function (set_profiler_ticks 0) ;;;
      let* sh := get_shared s in
      DCHECK (negb (HasBreakInfo sh)) ;;;
      let* finished :=
        if bool_decide (state job = kReadyToFinalize) then
          if optimization_disabled sh then
            let* (_, job) := RetryOptimization kOptimizationDisabled job in
            ret (inr job)
          else if dependencies_HasAborted info then
            let* (_, job) :=
              RetryOptimization kBailedOutDueToDependencyChange job in
            ret (inr job)
          else
            let* (status, job) := FinalizeJob job in
            if bool_decide (status = SUCCEEDED) then
              RecordOptimizedCompilationStats job ;;;
              InsertCodeIntoOptimizedCodeCache (compilation_info job) ;;;
              match code (compilation_info job) with
              | Some c =>
                  JSFunction_ReplaceCode function c ;;;
                  ret (inl job)
              | None => crash
              end
            else ret (inr job)
        else ret (inr job) in
      match finished with
      | inl job => ret (SUCCEEDED, job)
      | inr job =>
          DCHECK (bool_decide (state job = kFailed)) ;;;
          let* sh := get_shared s in
          JSFunction_ReplaceCode function (sfi_code sh) ;;;
          (* Clear the InOptimizationQueue marker, if it exists. *)
          let* fn := get_function function in
          (if IsInOptimizationQueue fn
           then ClearOptimizationMarker function else ret tt) ;;;
          ret (FAILED, job)
      end
  | _, _ => crash
  end.

(** ** Implementation of Compiler (lines 1047-1710) *)

Definition Compiler_CompileOptimized (function : nat) (mode : ConcurrencyMode)
  : M bool :=
  let* fn := get_function function in
  if IsOptimized fn then ret true else
  (* Start a compilation. *)
  let* (result, _) := GetOptimizedCode function mode None None in
  let* c :=
    match result with
    | Some c => ret c
    | None =>
        (* Optimization failed, get unoptimized code.  Unoptimized code must
           exist already if we are optimizing. *)
        let* iso := get_isolate in
        DCHECK (negb (has_pending_exception iso)) ;;;
        let* sh := get_shared (shared fn) in
        DCHECK (sfi_is_compiled sh) ;;;
        ret (sfi_code sh)
    end in
  (* Install code on closure. *)
  JSFunction_ReplaceCode function c ;;;
  (* Check postconditions on success. *)
  let* iso := get_isolate in
  DCHECK (negb (has_pending_exception iso)) ;;;
  let* fn := get_function function in
  let* sh := get_shared (shared fn) in
  DCHECK (sfi_is_compiled sh) ;;;
  DCHECK (fn_is_compiled fn) ;;;
  DCHECK (implb_ (HasOptimizationMarker fn) (IsInOptimizationQueue fn)) ;;;
  DCHECK (implb_ (HasOptimizationMarker fn)
            (checks_optimization_marker ext (fn_code fn))) ;;;
  DCHECK (implb_ (IsInOptimizationQueue fn) (bool_decide (mode = kConcurrent))) ;;;
  ret true.

Definition Compiler_GetOptimizedCodeForOSR (function : nat)
  (osr_ast_id : BailoutId) (osr_frame : option JavaScriptFrame)
  : M (option Code * option CompilationJob) :=
  DCHECK (negb (IsNone osr_ast_id)) ;;;
  DCHECK (bool_decide (is_Some osr_frame)) ;;;
  GetOptimizedCode function kNotConcurrent osr_ast_id osr_frame.

Definition Compiler_FinalizeCompilationJob (raw_job : CompilationJob)
  : M (bool * CompilationJob) :=
  if IsOptimizing (compilation_info raw_job) then
    let* (status, job) := FinalizeOptimizedCompilationJob raw_job in
    ret (bool_decide (status = SUCCEEDED), job)
  else
    let* (status, job) := FinalizeUnoptimizedCompilationJob raw_job in
    ret (bool_decide (status = SUCCEEDED), job).

(** The bookkeeping ExecuteJob does before it delegates (lines 110-119): a
    job that may run in the background notes whether it does. *)
Definition execute_bookkeeping (iso : Isolate) (job : CompilationJob)
  : CompilationJob :=
  if can_execute_on_background_thread ext (backend job)
  then set_executed_on_background_thread_
         (negb (bool_decide (current_thread iso = isolate_thread_id_ job))) job
  else job.

End Compiler.

(** ** Observations *)

(** The optimized-code slot a closure looks at: the slot of the feedback
    vector in its cell; [None] when there is no vector or the slot is empty. *)
Definition optimized_code_slot (iso : Isolate) (function : nat) : option Code :=
  match functions iso !! function with
  | Some fn =>
      match feedback_cells iso !! feedback_vector_cell fn with
      | Some (Some v) => optimized_code v
      | _ => None
      end
  | None => None
  end.

(** The whole optimized code cache: the slot of every feedback vector. *)
Definition optimized_code_cache (iso : Isolate) : gmap nat (option (option Code)) :=
  (fun cell : option FeedbackVector => optimized_code <$> cell) <$> feedback_cells iso.

Definition same_cache (iso iso' : Isolate) : Prop :=
  optimized_code_cache iso' = optimized_code_cache iso.

(** What a lookup can still return from the vector of [cell]: the code in
    its slot, unless that code has been marked for deoptimization. *)
Definition live_entry (iso : Isolate) (cell : nat) : option Code :=
  match optimized_code_cache iso !! cell with
  | Some (Some (Some c)) =>
      if code_marked_for_deoptimization iso c then None else Some c
  | _ => None
  end.

(** The tier the rules of ShouldUseFullCodegen pick, read off a job that
    GetUnoptimizedCompilationJob returned. *)
Definition picked_by_rules (iso : Isolate) (lit : FunctionLiteral) (b : Backend)
  : Prop :=
  (must_use_ignition lit = true /\ b = Interpreter) \/
  (must_use_ignition lit = false /\ asm_function (scope lit) = true /\
   b = FullCodeGenerator) \/
  (must_use_ignition lit = false /\ asm_function (scope lit) = false /\
   FLAG_stress_fullcodegen (flags iso) = true /\ b = FullCodeGenerator) \/
  (must_use_ignition lit = false /\ asm_function (scope lit) = false /\
   FLAG_stress_fullcodegen (flags iso) = false /\ b = Interpreter).

(** Two CompilationInfos for the same compile: same closure, descriptor, OSR
    target and tier. *)
Definition same_target (i i' : CompilationInfo) : Prop :=
  closure i' = closure i /\ shared_info i' = shared_info i /\
  osr_ast_id i' = osr_ast_id i /\ IsOptimizing i' = IsOptimizing i.

(** What a closure is apart from its optimization marker. *)
Definition closure_body (fn : JSFunction) : nat * Code * nat :=
  (shared fn, fn_code fn, feedback_vector_cell fn).

(** Two isolates with the same closures, markers apart, and the same
    baseline code on every descriptor. *)
Definition same_code_installed (iso iso' : Isolate) : Prop :=
  (forall g, closure_body <$> functions iso' !! g = closure_body <$> functions iso !! g) /\
  (forall s, sfi_code <$> shared_infos iso' !! s = sfi_code <$> shared_infos iso !! s).

(** Two isolates that agree on one component. *)
Definition same_on {B} (proj : Isolate -> B) (iso iso' : Isolate) : Prop :=
  proj iso' = proj iso.

(** The isolate after the slot of the vector [v] in cell [cell] was dropped. *)
Definition evicted (iso : Isolate) (cell : nat) (v : FeedbackVector) : Isolate :=
  set_feedback_cells (<[cell := Some (ClearOptimizedCode v)]> (feedback_cells iso)) iso.

(** The isolate after GetOptimizedCode has cleared the optimization marker of
    closure [f], and after a lookup that missed on the vector [v] of [cell]
    (an entry still in the slot was marked for deoptimization and is
    evicted). *)
Definition marker_cleared (f : nat) (fn : JSFunction) (iso : Isolate) : Isolate :=
  if HasOptimizationMarker fn
  then set_functions (<[f := set_optimization_marker kNone fn]> (functions iso)) iso
  else iso.




(** The job GetOptimizedCode constructs for closure [f] of descriptor [sh],
    before any phase has run. *)
Definition constructed_job (iso : Isolate) (f : nat) (fn : JSFunction)
  (osr : BailoutId) : CompilationJob :=
  {| parse_info := {| is_toplevel := false; pi_literal := None |};
     compilation_info :=
       {| closure := Some f; shared_info := Some (shared fn);
          literal := None; code := None; has_bytecode_array := false;
          has_asm_wasm_data := false; IsOptimizing := true; osr_ast_id := osr;
          is_function_context_specializing := false;
          is_frame_specializing := false; is_optimizing_from_bytecode := false;
          is_debug := false; bailout_reason := kNoReason;
          disable_future_optimization := false;
          dependencies_HasAborted := false |};
     isolate_thread_id_ := thread_id iso; backend := Pipeline;
     state := kReadyToPrepare; executed_on_background_thread_ := false |}.

(** The same job as GetOptimizedCode hands it to GetOptimizedCodeNow or
    GetOptimizedCodeLater: marked as optimizing from bytecode when the
    descriptor has bytecode. *)
Definition job_to_run (iso : Isolate) (f : nat) (fn : JSFunction)
  (osr : BailoutId) (sh : SharedFunctionInfo) : CompilationJob :=
  let job := constructed_job iso f fn osr in
  set_compilation_info
    (if sfi_has_bytecode_array sh
     then MarkAsOptimizeFromBytecode (compilation_info job)
     else compilation_info job) job.




(** [preserves R m]: whenever [m] returns, the isolate it leaves is related
    by [R] to the one it started from. *)
Definition preserves {A} (R : Isolate -> Isolate -> Prop) (m : M A) : Prop :=
  forall iso, match m iso with
              | Ret (_, iso') => R iso iso'
              | Fatal => True
              end.

(** ** A concrete isolate

    Two closures (addresses 1 and 2) share descriptor 1; closure 1 uses
    feedback cell 1, closure 2 uses feedback cell 2.  Closure 3 shares both
    the descriptor and cell 1.  The back ends always succeed; the optimizing
    one produces an OPTIMIZED_FUNCTION code object at address 7. *)
Module Demo.

Definition baseline_code : Code := {| code_id := 5; kind := FUNCTION |}.
Definition turbofan_code : Code := {| code_id := 7; kind := OPTIMIZED_FUNCTION |}.

Definition plain_literal : FunctionLiteral :=
  {| must_use_ignition := false; function_kind := kNormalFunction;
     scope := {| asm_function := false; asm_module := false |};
     dont_optimize_reason := kNoReason |}.

Definition succeed (b : Backend) (iso : Isolate) (pi : ParseInfo)
  (info : CompilationInfo) : Status * BackendOutput :=
  (SUCCEEDED, current_output info).

Definition emitted (c : Code) (info : CompilationInfo) : BackendOutput :=
  {| out_code := Some c; out_has_bytecode_array := has_bytecode_array info;
     out_has_asm_wasm_data := has_asm_wasm_data info;
     out_is_function_context_specializing := is_function_context_specializing info;
     out_is_frame_specializing := is_frame_specializing info;
     out_bailout_reason := bailout_reason info;
     out_disable_future_optimization := disable_future_optimization info;
     out_dependencies_HasAborted := dependencies_HasAborted info |}.

Definition emit (b : Backend) (iso : Isolate) (pi : ParseInfo)
  (info : CompilationInfo) : Status * BackendOutput :=
  match b with
  | Pipeline => (SUCCEEDED, emitted turbofan_code info)
  | AsmJs => (FAILED, current_output info)
  | _ => (SUCCEEDED, emitted baseline_code info)
  end.

Definition ext : Collaborators :=
  {| PrepareJobImpl := succeed;
     ExecuteJobImpl := succeed;
     FinalizeJobImpl := emit;
     can_execute_on_background_thread := fun b => bool_decide (b = Pipeline);
     PassesFilter := fun _ _ => true;
     ParseAny := fun _ pi _ =>
       (Some {| is_toplevel := is_toplevel pi; pi_literal := Some plain_literal |},
        false);
     Rewriter_Rewrite := fun _ => true;
     Renumber := fun _ => true;
     is_interpreter_trampoline_builtin :=
       fun c => bool_decide (c = InterpreterEntryTrampoline);
     checks_optimization_marker :=
       fun c => bool_decide (kind c = BUILTIN);
     same_language_mode := fun _ _ _ => true;
     SpecDiffersFrom := fun _ _ _ => false;
     has_coverage_info := fun _ => false;
     is_block_coverage_enabled := fun _ => false |}.

Definition descriptor : SharedFunctionInfo :=
  {| sfi_name := "f"; sfi_code := baseline_code;
     sfi_has_bytecode_array := false; sfi_has_asm_wasm_data := false;
     optimization_disabled := false; disable_optimization_reason := kNoReason;
     HasBreakInfo := false; script_IsScript := true;
     is_asm_wasm_broken := false; sfi_is_toplevel := false |}.

Definition closure_on (cell : nat) : JSFunction :=
  {| shared := 1; fn_code := baseline_code; feedback_vector_cell := cell;
     optimization_marker := kNone |}.

Definition empty_vector : FeedbackVector :=
  {| optimized_code := None; profiler_ticks := 3 |}.

Definition default_flags : Flags :=
  {| FLAG_opt := true; FLAG_turbo_filter := "*";
     FLAG_stress_fullcodegen := false; FLAG_validate_asm := true;
     FLAG_stress_validate_asm := false; FLAG_ignition_osr := true |}.

Definition stale_code : Code := {| code_id := 9; kind := OPTIMIZED_FUNCTION |}.

Definition cached_vector (c : Code) : FeedbackVector :=
  {| optimized_code := Some c; profiler_ticks := 3 |}.

Definition isolate_with (sh : SharedFunctionInfo)
  (cells : gmap nat (option FeedbackVector)) (marked : gset nat)
  (capacity : nat) (pressure : bool) (fl : Flags) : Isolate :=
  {| thread_id := 0; current_thread := 0; has_pending_exception := false;
     functions := {[ 1 := closure_on 1; 2 := closure_on 2; 3 := closure_on 1 ]};
     shared_infos := {[ 1 := sh ]};
     feedback_cells := cells;
     marked_for_deoptimization := marked;
     input_queue := [];
     input_queue_capacity := capacity;
     HighMemoryPressure := pressure;
     flags := fl;
     jobs_created := 0 |}.

Definition empty_cells : gmap nat (option FeedbackVector) :=
  {[ 1 := Some empty_vector; 2 := Some empty_vector ]}.

Definition iso : Isolate :=
  isolate_with descriptor empty_cells ∅ 4 false default_flags.

(** Cell 1 caches [stale_code], which has been marked for deoptimization. *)
Definition iso_stale : Isolate :=
  isolate_with descriptor
    {[ 1 := Some (cached_vector stale_code); 2 := Some empty_vector ]} {[ 9 ]}
    4 false default_flags.

(** Cell 1 caches [stale_code], not marked. *)
Definition iso_cached : Isolate :=
  isolate_with descriptor
    {[ 1 := Some (cached_vector stale_code); 2 := Some empty_vector ]} ∅
    4 false default_flags.

(** The dispatcher's queue is full; the heap is under memory pressure. *)
Definition iso_queue_full : Isolate :=
  isolate_with descriptor empty_cells ∅ 0 false default_flags.
Definition iso_memory_pressure : Isolate :=
  isolate_with descriptor empty_cells ∅ 4 true default_flags.

Definition never_optimize : SharedFunctionInfo :=
  DisableOptimization kOptimizationDisabledForTest descriptor.
Definition no_opt_flags : Flags :=
  {| FLAG_opt := false; FLAG_turbo_filter := "*";
     FLAG_stress_fullcodegen := false; FLAG_validate_asm := true;
     FLAG_stress_validate_asm := false; FLAG_ignition_osr := true |}.
Definition iso_never_optimize : Isolate :=
  isolate_with never_optimize empty_cells ∅ 4 false default_flags.
Definition iso_no_opt : Isolate :=
  isolate_with descriptor empty_cells ∅ 4 false no_opt_flags.

(** The descriptor has no baseline code yet. *)
Definition uncompiled : SharedFunctionInfo := set_sfi_code CompileLazy descriptor.
Definition iso_uncompiled : Isolate :=
  isolate_with uncompiled empty_cells ∅ 4 false default_flags.

Definition optimizing_info : CompilationInfo :=
  {| closure := Some 1; shared_info := Some 1; literal := None; code := None;
     has_bytecode_array := false; has_asm_wasm_data := false;
     IsOptimizing := true; osr_ast_id := None;
     is_function_context_specializing := false;
     is_frame_specializing := false; is_optimizing_from_bytecode := false;
     is_debug := false; bailout_reason := kNoReason;
     disable_future_optimization := false;
     dependencies_HasAborted := false |}.

(** The same compile, context-specialized, with [turbofan_code] produced and
    the given OSR target. *)
Definition specialized_info (osr : BailoutId) : CompilationInfo :=
  {| closure := Some 1; shared_info := Some 1; literal := None;
     code := Some turbofan_code;
     has_bytecode_array := false; has_asm_wasm_data := false;
     IsOptimizing := true; osr_ast_id := osr;
     is_function_context_specializing := true;
     is_frame_specializing := false; is_optimizing_from_bytecode := false;
     is_debug := false; bailout_reason := kNoReason;
     disable_future_optimization := false;
     dependencies_HasAborted := false |}.

Definition aborted_info : CompilationInfo :=
  {| closure := Some 1; shared_info := Some 1; literal := None; code := None;
     has_bytecode_array := false; has_asm_wasm_data := false;
     IsOptimizing := true; osr_ast_id := None;
     is_function_context_specializing := false;
     is_frame_specializing := false; is_optimizing_from_bytecode := false;
     is_debug := false; bailout_reason := kNoReason;
     disable_future_optimization := false;
     dependencies_HasAborted := true |}.

(** A job back from the background thread whose dependency set has aborted
    in the meantime. *)
Definition aborted_job : CompilationJob :=
  {| parse_info := {| is_toplevel := false; pi_literal := None |};
     compilation_info := aborted_info;
     isolate_thread_id_ := 0; backend := Pipeline; state := kReadyToFinalize;
     executed_on_background_thread_ := true |}.

(** A literal inside an asm module; the module's own validation is not
    attempted for it. *)
Definition asm_literal : FunctionLiteral :=
  {| must_use_ignition := false; function_kind := kNormalFunction;
     scope := {| asm_function := true; asm_module := false |};
     dont_optimize_reason := kNoReason |}.

(** The function that opens an asm module: validation is attempted for it. *)
Definition asm_module_literal : FunctionLiteral :=
  {| must_use_ignition := false; function_kind := kNormalFunction;
     scope := {| asm_function := false; asm_module := true |};
     dont_optimize_reason := kNoReason |}.

Definition baseline_info (lit : FunctionLiteral) : CompilationInfo :=
  {| closure := None; shared_info := Some 1; literal := Some lit; code := None;
     has_bytecode_array := false; has_asm_wasm_data := false;
     IsOptimizing := false; osr_ast_id := None;
     is_function_context_specializing := false;
     is_frame_specializing := false; is_optimizing_from_bytecode := false;
     is_debug := false; bailout_reason := kNoReason;
     disable_future_optimization := false;
     dependencies_HasAborted := false |}.

Definition function_parse_info (lit : FunctionLiteral) : ParseInfo :=
  {| is_toplevel := false; pi_literal := Some lit |}.

Definition interpreted_frame : JavaScriptFrame := {| is_interpreted := false |}.

Definition job_in (s : State) : CompilationJob :=
  {| parse_info := {| is_toplevel := false; pi_literal := None |};
     compilation_info := optimizing_info;
     isolate_thread_id_ := 0; backend := Pipeline; state := s;
     executed_on_background_thread_ := false |}.

End Demo.

(** ** More observations *)

(** The descriptor [sh] after InstallUnoptimizedCode has installed the
    result [c] of the compile described by [info] on it. *)
Definition installed (info : CompilationInfo) (c : Code) (sh : SharedFunctionInfo)
  : SharedFunctionInfo :=
  {| sfi_name := sfi_name sh; sfi_code := c;
     sfi_has_bytecode_array := has_bytecode_array info || sfi_has_bytecode_array sh;
     sfi_has_asm_wasm_data :=
       (negb (has_bytecode_array info) && has_asm_wasm_data info)
       || sfi_has_asm_wasm_data sh;
     optimization_disabled := optimization_disabled sh;
     disable_optimization_reason := disable_optimization_reason sh;
     HasBreakInfo := HasBreakInfo sh; script_IsScript := script_IsScript sh;
     is_asm_wasm_broken := is_asm_wasm_broken sh;
     sfi_is_toplevel := sfi_is_toplevel sh |}.

(** Two isolates in which every descriptor of the first is still there with
    the same baseline code. *)
Definition same_baseline (iso iso' : Isolate) : Prop :=
  forall s sh, shared_infos iso !! s = Some sh ->
    exists sh', shared_infos iso' !! s = Some sh' /\
      sfi_code sh' = sfi_code sh /\
      sfi_has_bytecode_array sh' = sfi_has_bytecode_array sh /\
      sfi_has_asm_wasm_data sh' = sfi_has_asm_wasm_data sh.

(** The descriptor [sh] after SetSharedFunctionFlagsFromLiteral. *)
Definition flags_from_literal (lit : FunctionLiteral) (sh : SharedFunctionInfo)
  : SharedFunctionInfo :=
  if bool_decide (dont_optimize_reason lit = kNoReason) then sh
  else DisableOptimization (dont_optimize_reason lit) sh.

(** The descriptor FinalizeUnoptimizedCompilationJob allocates for a
    top-level literal that has none. *)
Definition fresh_toplevel_descriptor : SharedFunctionInfo :=
  {| sfi_name := EmptyString; sfi_code := CompileLazy;
     sfi_has_bytecode_array := false; sfi_has_asm_wasm_data := false;
     optimization_disabled := false; disable_optimization_reason := kNoReason;
     HasBreakInfo := false; script_IsScript := true;
     is_asm_wasm_broken := false; sfi_is_toplevel := true |}.

(** Two isolates that differ at most in their descriptors. *)
Definition only_descriptors_differ (iso iso' : Isolate) : Prop :=
  iso' = set_shared_infos (shared_infos iso') iso.

(** Two isolates that differ at most in the pending-exception flag. *)
Definition only_pending_differs (iso iso' : Isolate) : Prop :=
  iso' = set_has_pending_exception (has_pending_exception iso') iso.

(** ** A concrete setting in which compiles fail

    The isolates of [Demo], with back ends whose finalize phase reports
    FAILED whatever the tier. *)
Module DemoFailure.

Definition refuse (b : Backend) (iso : Isolate) (pi : ParseInfo)
  (info : CompilationInfo) : Status * BackendOutput :=
  (FAILED, current_output info).

Definition ext : Collaborators :=
  {| PrepareJobImpl := Demo.succeed;
     ExecuteJobImpl := Demo.succeed;
     FinalizeJobImpl := refuse;
     can_execute_on_background_thread := fun b => bool_decide (b = Pipeline);
     PassesFilter := fun _ _ => true;
     ParseAny := fun _ pi _ =>
       (Some {| is_toplevel := is_toplevel pi;
                pi_literal := Some Demo.plain_literal |}, false);
     Rewriter_Rewrite := fun _ => true;
     Renumber := fun _ => true;
     is_interpreter_trampoline_builtin :=
       fun c => bool_decide (c = InterpreterEntryTrampoline);
     checks_optimization_marker :=
       fun c => bool_decide (kind c = BUILTIN);
     same_language_mode := fun _ _ _ => true;
     SpecDiffersFrom := fun _ _ _ => false;
     has_coverage_info := fun _ => false;
     is_block_coverage_enabled := fun _ => false |}.

(** A literal the parser has marked as not worth optimizing. *)
Definition reasoned_literal : FunctionLiteral :=
  {| must_use_ignition := false; function_kind := kNormalFunction;
     scope := {| asm_function := false; asm_module := false |};
     dont_optimize_reason := kOptimizationDisabledForTest |}.

(** A baseline job whose first two phases are done. *)
Definition baseline_job (lit : FunctionLiteral) : CompilationJob :=
  {| parse_info := Demo.function_parse_info lit;
     compilation_info := Demo.baseline_info lit;
     isolate_thread_id_ := 0; backend := Interpreter;
     state := kReadyToFinalize;
     executed_on_background_thread_ := false |}.

(** The descriptor already has bytecode; a compile produced bytecode again,
    for the debugger or not. *)
Definition with_bytecode : SharedFunctionInfo :=
  set_sfi_has_bytecode_array true Demo.descriptor.
Definition iso_with_bytecode : Isolate :=
  Demo.isolate_with with_bytecode Demo.empty_cells ∅ 4 false Demo.default_flags.
Definition bytecode_info (debug : bool) : CompilationInfo :=
  {| closure := None; shared_info := Some 1;
     literal := Some Demo.plain_literal; code := Some InterpreterEntryTrampoline;
     has_bytecode_array := true; has_asm_wasm_data := false;
     IsOptimizing := false; osr_ast_id := None;
     is_function_context_specializing := false;
     is_frame_specializing := false; is_optimizing_from_bytecode := false;
     is_debug := debug; bailout_reason := kNoReason;
     disable_future_optimization := false;
     dependencies_HasAborted := false |}.

End DemoFailure.

(** ** A concrete setting in which asm.js validation succeeds

    The back ends of [Demo], except that the validator accepts what it is
    given and produces asm-wasm data. *)
Module DemoAsm.

Definition asm_entry : Code := {| code_id := 11; kind := BUILTIN |}.

Definition validated (info : CompilationInfo) : BackendOutput :=
  {| out_code := Some asm_entry; out_has_bytecode_array := false;
     out_has_asm_wasm_data := true;
     out_is_function_context_specializing := is_function_context_specializing info;
     out_is_frame_specializing := is_frame_specializing info;
     out_bailout_reason := bailout_reason info;
     out_disable_future_optimization := disable_future_optimization info;
     out_dependencies_HasAborted := dependencies_HasAborted info |}.

Definition emit (b : Backend) (iso : Isolate) (pi : ParseInfo)
  (info : CompilationInfo) : Status * BackendOutput :=
  match b with
  | AsmJs => (SUCCEEDED, validated info)
  | _ => Demo.emit b iso pi info
  end.

Definition ext : Collaborators :=
  {| PrepareJobImpl := Demo.succeed;
     ExecuteJobImpl := Demo.succeed;
     FinalizeJobImpl := emit;
     can_execute_on_background_thread := fun b => bool_decide (b = Pipeline);
     PassesFilter := fun _ _ => true;
     ParseAny := fun _ pi _ =>
       (Some {| is_toplevel := is_toplevel pi;
                pi_literal := Some Demo.plain_literal |}, false);
     Rewriter_Rewrite := fun _ => true;
     Renumber := fun _ => true;
     is_interpreter_trampoline_builtin :=
       fun c => bool_decide (c = InterpreterEntryTrampoline);
     checks_optimization_marker :=
       fun c => bool_decide (kind c = BUILTIN);
     same_language_mode := fun _ _ _ => true;
     SpecDiffersFrom := fun _ _ _ => false;
     has_coverage_info := fun _ => false;
     is_block_coverage_enabled := fun _ => false |}.

(** The function that opens an asm module and is flagged as having to use
    Ignition. *)
Definition ignition_module_literal : FunctionLiteral :=
  {| must_use_ignition := true; function_kind := kNormalFunction;
     scope := {| asm_function := false; asm_module := true |};
     dont_optimize_reason := kNoReason |}.

End DemoAsm.

(** ** A concrete setting in which a request is turned away

    Cell 1 caches [Demo.stale_code], which has been marked for
    deoptimization, and the queue of the dispatcher is full. *)
Module DemoRejected.


End DemoRejected.

(** ** Entry points of Compiler and the lazy pipeline

    The collaborators of the functions below, next to the ones of
    [Collaborators]: the --always-opt flag, the two other parser entry
    points, the inner function literals the analysis marks for eager
    compilation, the script's table of descriptors, the compiler
    dispatcher, and three JSFunction and SharedFunctionInfo methods that
    compiler.cc calls and does not define.  Each is left uninterpreted. *)
Record Environment : Type := {
  FLAG_always_opt : bool;
  (* parsing::ParseFunction and parsing::ParseProgram: the parsed ParseInfo,
     or a failure; the boolean tells whether an exception was thrown *)
  ParseFunction : Isolate -> ParseInfo -> nat -> option ParseInfo * bool;
  ParseProgram : Isolate -> ParseInfo -> option ParseInfo * bool;
  (* the EagerInnerFunctionLiterals Compiler::Analyze hands back *)
  eager_inner_literals : ParseInfo -> list FunctionLiteral;
  (* Script::FindSharedFunctionInfo *)
  FindSharedFunctionInfo : Isolate -> FunctionLiteral -> option nat;
  (* CompilerDispatcher::IsEnqueued and CompilerDispatcher::FinishNow *)
  IsEnqueued : Isolate -> nat -> bool;
  FinishNow : nat -> Isolate -> bool * Isolate;
  (* JSFunction::EnsureLiterals, JSFunction::HasOptimizedCode,
     JSFunction::MarkForOptimization(ConcurrencyMode::kNotConcurrent) *)
  EnsureLiterals : nat -> Isolate -> Isolate;
  HasOptimizedCode : Isolate -> nat -> bool;
  MarkForOptimization : nat -> Isolate -> Isolate;
  (* SharedFunctionInfo::allows_lazy_compilation *)
  allows_lazy_compilation : SharedFunctionInfo -> bool;
}.

Inductive ClearExceptionFlag : Type := KEEP_EXCEPTION | CLEAR_EXCEPTION.

#[global] Instance ClearExceptionFlag_eq_dec : EqDecision ClearExceptionFlag.
Proof. solve_decision. Defined.

(** Modelled from the spec: the CompilationInfo constructor lives in
    compilation-info.cc.  Section 3: a CompilationInfo carries the target
    descriptor and closure, its specialization flags, an OSR target or none,
    and a bailout reason that is initially empty.  The one built here is for
    a baseline compile: not optimizing, no literal and no code yet. *)
Definition NewCompilationInfo (shared : option nat) (closure : option nat)
  : CompilationInfo :=
  {| closure := closure; shared_info := shared; literal := None; code := None;
     has_bytecode_array := false; has_asm_wasm_data := false;
     IsOptimizing := false; osr_ast_id := None;
     is_function_context_specializing := false;
     is_frame_specializing := false; is_optimizing_from_bytecode := false;
     is_debug := false; bailout_reason := kNoReason;
     disable_future_optimization := false;
     dependencies_HasAborted := false |}.

Definition MarkAsDebug (i : CompilationInfo) : CompilationInfo :=
  {| closure := closure i; shared_info := shared_info i; literal := literal i;
     code := code i; has_bytecode_array := has_bytecode_array i;
     has_asm_wasm_data := has_asm_wasm_data i; IsOptimizing := IsOptimizing i;
     osr_ast_id := osr_ast_id i;
     is_function_context_specializing := is_function_context_specializing i;
     is_frame_specializing := is_frame_specializing i;
     is_optimizing_from_bytecode := is_optimizing_from_bytecode i;
     is_debug := true; bailout_reason := bailout_reason i;
     disable_future_optimization := disable_future_optimization i;
     dependencies_HasAborted := dependencies_HasAborted i |}.

(** Modelled from the spec: Isolate::StackOverflow lives in isolate.cc.
    Section 7: resource exhaustion is surfaced as a language-level error on
    the owning thread; here, an exception is pending afterwards. *)
Definition Isolate_StackOverflow : M unit :=
  modify (set_has_pending_exception true).

(** if (!isolate->has_pending_exception()) isolate->StackOverflow(); *)
Definition StackOverflow_unless_pending : M unit :=
  let* iso := get_isolate in
  if negb (has_pending_exception iso) then Isolate_StackOverflow else ret tt.

Section EntryPoints.

Variable ext : Collaborators.
Variable env : Environment.

(** CompilerDispatcher::FinishNow, run in the monad. *)
Definition dispatcher_FinishNow (s : nat) : M bool :=
  fun iso => Ret (FinishNow env s iso).

(** Compiler::PrepareUnoptimizedCompilationJob (lines 1653-1662): [None] is
    the nullptr that follows a failed prepare phase. *)
Definition Compiler_PrepareUnoptimizedCompilationJob (pi : ParseInfo)
  (info : CompilationInfo) : M (option CompilationJob) :=
  let* job := GetUnoptimizedCompilationJob pi info in
  let* (st, job) := PrepareJob ext job in
  if negb (bool_decide (st = SUCCEEDED)) then ret None
  else ret (Some job).

(** Compiler::GetSharedFunctionInfo (lines 1584-1610). *)
Definition Compiler_GetSharedFunctionInfo (lit : FunctionLiteral) : M nat :=
  let* iso := get_isolate in
  (* Find any previously allocated shared function info for the given
     literal. *)
  match FindSharedFunctionInfo env iso lit with
  | Some existing =>
      (* If we found an existing shared function info, return it. *)
      let* sh := get_shared existing in
      DCHECK (negb (sfi_is_toplevel sh)) ;;;
      ret existing
  | None =>
      (* Allocate a shared function info object which will be compiled
         lazily. *)
      let* s := NewSharedFunctionInfoForLiteral lit in
      update_shared s (set_sfi_is_toplevel false) ;;;
      ret s
  end.

(** CompileUnoptimizedInnerFunctions (lines 457-502): the loop over the
    eager inner literals.  Of the outer CompilationInfo the loop reads
    is_debug; the serialization flag and the shared AST value factory are
    not part of the state. *)
Fixpoint CompileUnoptimizedInnerFunctions (literals : list FunctionLiteral)
  (outer_info : CompilationInfo) : M bool :=
  match literals with
  | [] => ret true
  | lit :: rest =>
      let* s := Compiler_GetSharedFunctionInfo lit in
      let* sh := get_shared s in
      if sfi_is_compiled sh then CompileUnoptimizedInnerFunctions rest outer_info
      else
        (* Generate unoptimized code now. *)
        let pi := {| is_toplevel := false; pi_literal := Some lit |} in
        let info := set_literal (Some lit) (NewCompilationInfo (Some s) None) in
        let info := if is_debug outer_info then MarkAsDebug info else info in
        let* (ok, _) := GenerateUnoptimizedCode ext pi info in
        if negb ok then
          StackOverflow_unless_pending ;;;
          ret false
        else CompileUnoptimizedInnerFunctions rest outer_info
  end.

(** InnerFunctionShouldUseFullCodegen (lines 504-511). *)
Fixpoint InnerFunctionShouldUseFullCodegen (literals : list FunctionLiteral)
  : M bool :=
  match literals with
  | [] => ret false
  | lit :: rest =>
      let* full := ShouldUseFullCodegen lit in
      if full then ret true else InnerFunctionShouldUseFullCodegen rest
  end.

(** CompileUnoptimizedCode (lines 513-549).  It returns, next to its
    boolean, the caller's CompilationInfo as the compile leaves it.  The
    internalization and the allocation of scope infos that the full-codegen
    test guards are not part of the state; the test itself runs, assertions
    included. *)
Definition CompileUnoptimizedCode (pi : ParseInfo) (info : CompilationInfo)
  : M (bool * CompilationInfo) :=
  let* analyzed := Compiler_Analyze ext pi in
  if negb analyzed then
    StackOverflow_unless_pending ;;;
    ret (false, info)
  else
  let inner_literals := eager_inner_literals env pi in
  match literal info with
  | None => crash
  | Some lit =>
      let* full := ShouldUseFullCodegen lit in
      (if full then ret true
       else InnerFunctionShouldUseFullCodegen inner_literals) ;;;
      let* (generated, job) := GenerateUnoptimizedCode ext pi info in
      let info := compilation_info job in
      let* ok :=
        if generated then CompileUnoptimizedInnerFunctions inner_literals info
        else ret false in
      if negb ok then
        StackOverflow_unless_pending ;;;
        ret (false, info)
      else ret (true, info)
  end.

(** CompileUnoptimizedFunction (lines 551-581): [None] is the empty
    MaybeHandle. *)
Definition CompileUnoptimizedFunction (pi : ParseInfo) (info : CompilationInfo)
  (shared_info : nat) : M (option Code * CompilationInfo) :=
  let* iso := get_isolate in
  (* Parse and update ParseInfo with the results. *)
  let '(parsed, thrown) := ParseFunction env iso pi shared_info in
  modify (fun iso =>
    set_has_pending_exception (has_pending_exception iso || thrown) iso) ;;;
  match parsed with
  | None => ret (None, info)
  | Some pi =>
      let info := set_literal (pi_literal pi) info in
      (* Compile either unoptimized code or bytecode for the interpreter. *)
      let* (ok, info) := CompileUnoptimizedCode pi info in
      if negb ok then ret (None, info)
      else ret (code info, info)
  end.

(** GetLazyCode (lines 921-993).  The ParseInfo built from the descriptor
    has no literal before the parser runs.  ASSIGN_RETURN_ON_EXCEPTION
    (isolate.h) returns the empty handle when the call it wraps returned
    one; an assertion of its own is not modelled. *)
Definition GetLazyCode (function : nat) : M (option Code) :=
  let* iso := get_isolate in
  DCHECK (negb (has_pending_exception iso)) ;;;
  let* fn := get_function function in
  DCHECK (negb (fn_is_compiled fn)) ;;;
  let* sh := get_shared (shared fn) in
  if sfi_is_compiled sh then
    (* Function has already been compiled. *)
    let* cached := GetCodeFromOptimizedCodeCache function None in
    match cached with
    | Some cached_code => ret (Some cached_code)
    | None =>
        let* fn := get_function function in
        let* sh := get_shared (shared fn) in
        ret (Some (sfi_code sh))
    end
  else
    (* Function doesn't have any baseline compiled code, compile now. *)
    DCHECK (negb (sfi_has_bytecode_array sh)) ;;;
    let pi := {| is_toplevel := sfi_is_toplevel sh; pi_literal := None |} in
    let info := NewCompilationInfo (Some (shared fn)) (Some function) in
    let* (compiled, info) := CompileUnoptimizedFunction pi info (shared fn) in
    match compiled with
    | None => ret None
    | Some result =>
        let* info_sh :=
          match shared_info info with
          | Some s => get_shared s
          | None => crash
          end in
        if FLAG_always_opt env && negb (sfi_has_asm_wasm_data info_sh) then
          (* Getting optimized code assumes that we have literals. *)
          modify (EnsureLiterals env function) ;;;
          let* (opt, _) := GetOptimizedCode ext function kNotConcurrent None None in
          match opt with
          | Some opt_code => ret (Some opt_code)
          | None => ret (Some result)
          end
        else ret (Some result)
    end.

(** CompileToplevel (lines 995-1043): [None] is the null handle. *)
Definition CompileToplevel (pi : ParseInfo) (info : CompilationInfo)
  : M (option nat) :=
  let* parsed :=
    match pi_literal pi with
    | Some _ => ret (Some pi)
    | None =>
        let* iso := get_isolate in
        let '(parsed, thrown) := ParseProgram env iso pi in
        modify (fun iso =>
          set_has_pending_exception (has_pending_exception iso || thrown) iso) ;;;
        ret parsed
    end in
  match parsed with
  | None => ret None
  | Some pi =>
      let info := set_literal (pi_literal pi) info in
      (* Compile the code. *)
      let* (ok, info) := CompileUnoptimizedCode pi info in
      if negb ok then ret None
      else ret (shared_info info)
  end.

(** Compiler::Compile (lines 1070-1105). *)
Definition Compiler_Compile (function : nat) (flag : ClearExceptionFlag)
  : M bool :=
  let* fn := get_function function in
  if fn_is_compiled fn then ret true else
  let* iso := get_isolate in
  let* code :=
    if IsEnqueued env iso (shared fn) then
      let* finished := dispatcher_FinishNow (shared fn) in
      if negb finished then
        (if bool_decide (flag = CLEAR_EXCEPTION)
         then modify clear_pending_exception else ret tt) ;;;
        ret None
      else
        let* sh := get_shared (shared fn) in
        ret (Some (sfi_code sh))
    else
      (* Start a compilation. *)
      let* lazy := GetLazyCode function in
      match lazy with
      | None =>
          (if bool_decide (flag = CLEAR_EXCEPTION)
           then modify clear_pending_exception else ret tt) ;;;
          ret None
      | Some c => ret (Some c)
      end in
  match code with
  | None => ret false
  | Some c =>
      (* Install code on closure. *)
      JSFunction_ReplaceCode function c ;;;
      modify (EnsureLiterals env function) ;;;
      (* Postconditions on success. *)
      let* iso := get_isolate in
      DCHECK (negb (has_pending_exception iso)) ;;;
      let* fn := get_function function in
      let* sh := get_shared (shared fn) in
      DCHECK (sfi_is_compiled sh) ;;;
      DCHECK (fn_is_compiled fn) ;;;
      ret true
  end.

(** Compiler::EnsureBytecode (lines 1209-1227). *)
Definition Compiler_EnsureBytecode (pi : ParseInfo) (info : CompilationInfo)
  : M bool :=
  match shared_info info with
  | None => crash
  | Some s =>
      let* sh := get_shared s in
      let* ok :=
        if negb (sfi_is_compiled sh) then
          DCHECK (negb (is_toplevel pi)) ;;;
          let* iso := get_isolate in
          if IsEnqueued env iso s then dispatcher_FinishNow s
          else
            let* (compiled, _) := CompileUnoptimizedFunction pi info s in
            ret (bool_decide (is_Some compiled))
        else ret true in
      if negb ok then ret false else
      let* sh := get_shared s in
      DCHECK (sfi_is_compiled sh) ;;;
      if sfi_has_asm_wasm_data sh then ret false
      else ret (sfi_has_bytecode_array sh)
  end.

(** Compiler::PostInstantiation (lines 1678-1708). *)
Definition Compiler_PostInstantiation (function : nat) : M unit :=
  let* fn := get_function function in
  let s := shared fn in
  let* sh := get_shared s in
  (if FLAG_always_opt env && allows_lazy_compilation env sh &&
      negb (optimization_disabled sh) && negb (sfi_has_asm_wasm_data sh) &&
      sfi_is_compiled sh
   then
     modify (EnsureLiterals env function) ;;;
     let* fn := get_function function in
     if negb (IsOptimized fn) then
       (* Only mark for optimization if we don't already have optimized
          code. *)
       let* iso := get_isolate in
       if negb (HasOptimizedCode env iso function)
       then modify (MarkForOptimization env function)
       else ret tt
     else ret tt
   else ret tt) ;;;
  let* sh := get_shared s in
  if sfi_is_compiled sh then
    modify (EnsureLiterals env function) ;;;
    let* v := feedback_vector function in
    match optimized_code v with
    | Some c =>
        (* Caching of optimized code enabled and optimized code found. *)
        let* iso := get_isolate in
        DCHECK (negb (code_marked_for_deoptimization iso c)) ;;;
        let* fn := get_function function in
        let* fn_sh := get_shared (shared fn) in
        DCHECK (sfi_is_compiled fn_sh) ;;;
        JSFunction_ReplaceCode function c
    | None => ret tt
    end
  else ret tt.

End EntryPoints.

(** A closure after JSFunction::ReplaceCode. *)
Definition with_code (c : Code) (fn : JSFunction) : JSFunction :=
  {| shared := shared fn; fn_code := c;
     feedback_vector_cell := feedback_vector_cell fn;
     optimization_marker := optimization_marker fn |}.

(** Two isolates with the same closures, the same feedback vectors and the
    same dispatcher queue. *)
Definition closures_untouched (iso iso' : Isolate) : Prop :=
  functions iso' = functions iso /\
  feedback_cells iso' = feedback_cells iso /\
  input_queue iso' = input_queue iso.

(** ** A concrete environment

    No --always-opt; the parser delivers the plain literal; no function has
    eager inner functions; the script's table knows descriptor 1 for every
    literal; the compiler dispatcher is idle; EnsureLiterals finds the
    literals in place.  Closure 4 is a new closure of descriptor 1 on cell 1
    that still has the CompileLazy builtin as its code. *)
Module DemoEntry.

Definition parsed (pi : ParseInfo) : option ParseInfo * bool :=
  (Some {| is_toplevel := is_toplevel pi; pi_literal := Some Demo.plain_literal |},
   false).

Definition env : Environment :=
  {| FLAG_always_opt := false;
     ParseFunction := fun _ pi _ => parsed pi;
     ParseProgram := fun _ pi => parsed pi;
     eager_inner_literals := fun _ => [];
     FindSharedFunctionInfo := fun _ _ => Some 1;
     IsEnqueued := fun _ _ => false;
     FinishNow := fun _ iso => (true, iso);
     EnsureLiterals := fun _ iso => iso;
     HasOptimizedCode := fun _ _ => false;
     MarkForOptimization := fun _ iso => iso;
     allows_lazy_compilation := fun _ => true |}.

Definition lazy_closure : JSFunction :=
  {| shared := 1; fn_code := CompileLazy; feedback_vector_cell := 1;
     optimization_marker := kNone |}.

Definition with_lazy_closure (iso : Isolate) : Isolate :=
  set_functions (<[4 := lazy_closure]> (functions iso)) iso.

End DemoEntry.

(** * Properties *)

Section JobStateMachine.

Variable ext : Collaborators.

Ltac run_monad :=
  unfold bind, ret, DCHECK, get_isolate, modify, crash; simpl.

Lemma UpdateState_state status next job :
  state (UpdateState status next job).2 =
  match status with SUCCEEDED => next | FAILED => kFailed end.
Proof. by destruct status. Qed.

Lemma UpdateState_status status next job :
  (UpdateState status next job).1 = status.
Proof. by destruct status. Qed.

Lemma UpdateState_eta status next job :
  UpdateState status next job = (status, (UpdateState status next job).2).
Proof. by destruct status. Qed.

Lemma UpdateState_info status next job :
  compilation_info (UpdateState status next job).2 = compilation_info job.
Proof. by destruct status. Qed.

Lemma PrepareJob_run iso job :
  current_thread iso = thread_id iso ->
  state job = kReadyToPrepare ->
  PrepareJob ext job iso =
  Ret (UpdateState
         (PrepareJobImpl ext (backend job) iso (parse_info job) (compilation_info job)).1
         kReadyToExecute
         (set_compilation_info
            (record_output
               (PrepareJobImpl ext (backend job) iso (parse_info job)
                  (compilation_info job)).2
               (compilation_info job))
            job), iso).
Proof.
  intros Hthread Hstate. unfold PrepareJob. run_monad.
  rewrite !bool_decide_eq_true_2 by done.
  by destruct (PrepareJobImpl _ _ _ _ _).
Qed.

Lemma PrepareJob_wrong_state iso job :
  state job <> kReadyToPrepare -> PrepareJob ext job iso = Fatal.
Proof.
  intros Hstate. unfold PrepareJob. run_monad.
  case_bool_decide; [|done]. by rewrite bool_decide_eq_false_2.
Qed.

Lemma ExecuteJob_run iso job :
  (can_execute_on_background_thread ext (backend job) = false ->
   current_thread iso = isolate_thread_id_ job) ->
  state job = kReadyToExecute ->
  PrepareJob ext job iso = Fatal /\
  ExecuteJob ext job iso =
  Ret (UpdateState
         (ExecuteJobImpl ext (backend job) iso (parse_info job) (compilation_info job)).1
         kReadyToFinalize
         (set_compilation_info
            (record_output
               (ExecuteJobImpl ext (backend job) iso (parse_info job)
                  (compilation_info job)).2
               (compilation_info job))
            (execute_bookkeeping ext iso job)), iso).
Proof.
  intros Hthread Hstate. split.
  { apply PrepareJob_wrong_state. by rewrite Hstate. }
  unfold ExecuteJob, execute_bookkeeping. run_monad.
  destruct (can_execute_on_background_thread ext (backend job)) eqn:Hbg; simpl.
  - rewrite bool_decide_eq_true_2 by done.
    by destruct (ExecuteJobImpl _ _ _ _ _).
  - rewrite !bool_decide_eq_true_2 by auto.
    by destruct (ExecuteJobImpl _ _ _ _ _).
Qed.

Lemma ExecuteJob_wrong_state iso job :
  state job <> kReadyToExecute -> ExecuteJob ext job iso = Fatal.
Proof.
  intros Hstate. unfold ExecuteJob. run_monad.
  destruct (can_execute_on_background_thread ext (backend job)); simpl.
  - by rewrite bool_decide_eq_false_2.
  - case_bool_decide; [|done]. by rewrite bool_decide_eq_false_2.
Qed.

Lemma FinalizeJob_run iso job :
  current_thread iso = thread_id iso ->
  dependencies_HasAborted (compilation_info job) = false ->
  state job = kReadyToFinalize ->
  FinalizeJob ext job iso =
  Ret (UpdateState
         (FinalizeJobImpl ext (backend job) iso (parse_info job) (compilation_info job)).1
         kSucceeded
         (set_compilation_info
            (record_output
               (FinalizeJobImpl ext (backend job) iso (parse_info job)
                  (compilation_info job)).2
               (compilation_info job))
            job), iso).
Proof.
  intros Hthread Hdeps Hstate. unfold FinalizeJob. run_monad.
  rewrite Hdeps. simpl. rewrite !bool_decide_eq_true_2 by done.
  by destruct (FinalizeJobImpl _ _ _ _ _).
Qed.

Lemma FinalizeJob_wrong_state iso job :
  state job <> kReadyToFinalize -> FinalizeJob ext job iso = Fatal.
Proof.
  intros Hstate. unfold FinalizeJob. run_monad.
  case_bool_decide; [|done].
  destruct (dependencies_HasAborted (compilation_info job)); [done|simpl].
  by rewrite bool_decide_eq_false_2.
Qed.

Lemma RetryOptimization_run reason iso job :
  IsOptimizing (compilation_info job) = true ->
  RetryOptimization reason job iso =
  Ret ((FAILED,
        set_state kFailed
          (set_compilation_info
             (set_bailout_reason reason (compilation_info job)) job)), iso).
Proof. intros Hopt. unfold RetryOptimization. run_monad. by rewrite Hopt. Qed.

Lemma AbortOptimization_run reason iso job :
  IsOptimizing (compilation_info job) = true ->
  match shared_info (compilation_info job) with
  | Some s => is_Some (shared_infos iso !! s)
  | None => True
  end ->
  exists iso',
    AbortOptimization reason job iso =
    Ret ((FAILED,
          set_state kFailed
            (set_compilation_info
               (set_disable_future_optimization true
                  (set_bailout_reason reason (compilation_info job))) job)), iso').
Proof.
  intros Hopt Hsh. unfold AbortOptimization, CompilationInfo_AbortOptimization.
  run_monad. rewrite Hopt.
  destruct (shared_info (compilation_info job)) as [s|]; [|by eexists].
  destruct Hsh as [sh Hsh].
  unfold update_shared, get_shared, deref. run_monad. rewrite Hsh. by eexists.
Qed.

(** C9.  The phases of a CompilationJob are linear and single-shot.  Called
    in its required state (and within the other assertions of the phase: the
    isolate's thread, for Finalize a dependency set that has not aborted),
    PrepareJob moves kReadyToPrepare to kReadyToExecute or kFailed, ExecuteJob
    moves kReadyToExecute to kReadyToFinalize or kFailed, FinalizeJob moves
    kReadyToFinalize to kSucceeded or kFailed, the success state being taken
    exactly when the back end reports SUCCEEDED; the isolate is left as it
    was.  A phase called in any other state is Fatal, so is the same phase
    called again on the job it returned.  On an optimizing job
    RetryOptimization and AbortOptimization return FAILED, force the state to
    kFailed and leave the given reason in bailout_reason. *)
Theorem job_phases_linear_single_shot
  (iso : Isolate) (job : CompilationJob) (reason : BailoutReason) :
  (* Prepare *)
  (current_thread iso = thread_id iso -> state job = kReadyToPrepare ->
   exists status job',
     PrepareJob ext job iso = Ret ((status, job'), iso) /\
     status = (PrepareJobImpl ext (backend job) iso (parse_info job)
                 (compilation_info job)).1 /\
     state job' = match status with
                  | SUCCEEDED => kReadyToExecute
                  | FAILED => kFailed
                  end /\
     PrepareJob ext job' iso = Fatal) /\
  (state job <> kReadyToPrepare -> PrepareJob ext job iso = Fatal) /\
  (* Execute *)
  ((can_execute_on_background_thread ext (backend job) = false ->
    current_thread iso = isolate_thread_id_ job) ->
   state job = kReadyToExecute ->
   exists status job',
     ExecuteJob ext job iso = Ret ((status, job'), iso) /\
     status = (ExecuteJobImpl ext (backend job) iso (parse_info job)
                 (compilation_info job)).1 /\
     state job' = match status with
                  | SUCCEEDED => kReadyToFinalize
                  | FAILED => kFailed
                  end /\
     ExecuteJob ext job' iso = Fatal) /\
  (state job <> kReadyToExecute -> ExecuteJob ext job iso = Fatal) /\
  (* Finalize *)
  (current_thread iso = thread_id iso ->
   dependencies_HasAborted (compilation_info job) = false ->
   state job = kReadyToFinalize ->
   exists status job',
     FinalizeJob ext job iso = Ret ((status, job'), iso) /\
     status = (FinalizeJobImpl ext (backend job) iso (parse_info job)
                 (compilation_info job)).1 /\
     state job' = match status with
                  | SUCCEEDED => kSucceeded
                  | FAILED => kFailed
                  end /\
     FinalizeJob ext job' iso = Fatal) /\
  (state job <> kReadyToFinalize -> FinalizeJob ext job iso = Fatal) /\
  (* RetryOptimization, AbortOptimization *)
  (IsOptimizing (compilation_info job) = true ->
   exists job',
     RetryOptimization reason job iso = Ret ((FAILED, job'), iso) /\
     state job' = kFailed /\
     bailout_reason (compilation_info job') = reason) /\
  (IsOptimizing (compilation_info job) = true ->
   match shared_info (compilation_info job) with
   | Some s => is_Some (shared_infos iso !! s)
   | None => True
   end ->
   exists job' iso',
     AbortOptimization reason job iso = Ret ((FAILED, job'), iso') /\
     state job' = kFailed /\
     bailout_reason (compilation_info job') = reason).
Proof.
  repeat split.
  - intros Hthread Hstate. do 2 eexists.
    rewrite (PrepareJob_run _ _ Hthread Hstate), UpdateState_eta.
    split; [reflexivity|]. rewrite UpdateState_state. split; [done|]. split; [done|].
    apply PrepareJob_wrong_state. rewrite UpdateState_state.
    by destruct (PrepareJobImpl _ _ _ _ _).1.
  - apply PrepareJob_wrong_state.
  - intros Hthread Hstate. do 2 eexists.
    destruct (ExecuteJob_run _ _ Hthread Hstate) as [_ ->]. rewrite UpdateState_eta.
    split; [reflexivity|]. rewrite UpdateState_state. split; [done|]. split; [done|].
    apply ExecuteJob_wrong_state. rewrite UpdateState_state.
    by destruct (ExecuteJobImpl _ _ _ _ _).1.
  - apply ExecuteJob_wrong_state.
  - intros Hthread Hdeps Hstate. do 2 eexists.
    rewrite (FinalizeJob_run _ _ Hthread Hdeps Hstate), UpdateState_eta.
    split; [reflexivity|]. rewrite UpdateState_state. split; [done|]. split; [done|].
    apply FinalizeJob_wrong_state. rewrite UpdateState_state.
    by destruct (FinalizeJobImpl _ _ _ _ _).1.
  - apply FinalizeJob_wrong_state.
  - intros Hopt. eexists. by rewrite (RetryOptimization_run _ _ _ Hopt).
  - intros Hopt Hsh.
    destruct (AbortOptimization_run reason _ _ Hopt Hsh) as [iso' ->].
    by do 2 eexists.
Qed.

End JobStateMachine.

(** The phases at work on the concrete isolate: a fresh optimizing job is
    prepared, a prepared one executed, an executed one finalized, and a job
    is retried and aborted. *)
Lemma job_phases_linear_single_shot_witness :
  (exists status job',
     PrepareJob Demo.ext (Demo.job_in kReadyToPrepare) Demo.iso =
       Ret ((status, job'), Demo.iso) /\
     status = SUCCEEDED /\
     state job' = kReadyToExecute /\
     PrepareJob Demo.ext job' Demo.iso = Fatal) /\
  (exists status job',
     ExecuteJob Demo.ext (Demo.job_in kReadyToExecute) Demo.iso =
       Ret ((status, job'), Demo.iso) /\
     status = SUCCEEDED /\
     state job' = kReadyToFinalize /\
     ExecuteJob Demo.ext job' Demo.iso = Fatal) /\
  (exists status job',
     FinalizeJob Demo.ext (Demo.job_in kReadyToFinalize) Demo.iso =
       Ret ((status, job'), Demo.iso) /\
     status = SUCCEEDED /\
     state job' = kSucceeded /\
     FinalizeJob Demo.ext job' Demo.iso = Fatal) /\
  (exists job',
     RetryOptimization kOptimizationDisabled (Demo.job_in kReadyToFinalize) Demo.iso =
       Ret ((FAILED, job'), Demo.iso) /\
     state job' = kFailed /\
     bailout_reason (compilation_info job') = kOptimizationDisabled) /\
  (exists job' iso',
     AbortOptimization kFunctionBeingDebugged (Demo.job_in kReadyToPrepare) Demo.iso =
       Ret ((FAILED, job'), iso') /\
     state job' = kFailed /\
     bailout_reason (compilation_info job') = kFunctionBeingDebugged).
Proof.
  pose proof (job_phases_linear_single_shot Demo.ext Demo.iso
                (Demo.job_in kReadyToPrepare) kFunctionBeingDebugged)
    as (HP & _ & _ & _ & _ & _ & _ & HA).
  pose proof (job_phases_linear_single_shot Demo.ext Demo.iso
                (Demo.job_in kReadyToExecute) kNoReason)
    as (_ & _ & HE & _).
  pose proof (job_phases_linear_single_shot Demo.ext Demo.iso
                (Demo.job_in kReadyToFinalize) kOptimizationDisabled)
    as (_ & _ & _ & _ & HF & _ & HR & _).
  split.
  { destruct (HP eq_refl eq_refl) as (st & j & H1 & H2 & H3 & H4).
    simpl in H2. subst st. by exists SUCCEEDED, j. }
  split.
  { destruct (HE (fun _ => eq_refl) eq_refl) as (st & j & H1 & H2 & H3 & H4).
    simpl in H2. subst st. by exists SUCCEEDED, j. }
  split.
  { destruct (HF eq_refl eq_refl eq_refl) as (st & j & H1 & H2 & H3 & H4).
    simpl in H2. subst st. by exists SUCCEEDED, j. }
  split; [exact (HR eq_refl)|].
  apply (HA eq_refl). simpl. by eexists.
Defined.

(** ** Running the heap accessors *)

Section Heap.

Lemma get_function_run iso f fn :
  functions iso !! f = Some fn -> get_function f iso = Ret (fn, iso).
Proof. intros H. unfold get_function, deref. by rewrite H. Qed.

Lemma get_shared_run iso s sh :
  shared_infos iso !! s = Some sh -> get_shared s iso = Ret (sh, iso).
Proof. intros H. unfold get_shared, deref. by rewrite H. Qed.

Lemma feedback_vector_run iso f fn v :
  functions iso !! f = Some fn ->
  feedback_cells iso !! feedback_vector_cell fn = Some (Some v) ->
  feedback_vector f iso = Ret (v, iso).
Proof.
  intros Hf Hc. unfold feedback_vector, bind.
  rewrite (get_function_run _ _ _ Hf). unfold deref. by rewrite Hc.
Qed.

Lemma update_feedback_vector_run iso f fn v upd :
  functions iso !! f = Some fn ->
  feedback_cells iso !! feedback_vector_cell fn = Some (Some v) ->
  update_feedback_vector f upd iso =
  Ret (tt, set_feedback_cells
             (<[feedback_vector_cell fn := Some (upd v)]> (feedback_cells iso)) iso).
Proof.
  intros Hf Hc. unfold update_feedback_vector, bind.
  rewrite (get_function_run _ _ _ Hf), (feedback_vector_run _ _ _ _ Hf Hc).
  done.
Qed.

Lemma update_function_run iso f fn upd :
  functions iso !! f = Some fn ->
  update_function f upd iso =
  Ret (tt, set_functions (<[f := upd fn]> (functions iso)) iso).
Proof.
  intros Hf. unfold update_function, bind. by rewrite (get_function_run _ _ _ Hf).
Qed.


End Heap.

(** ** Frame reasoning: what a computation leaves alone *)

#[global] Instance same_on_preorder {B} (proj : Isolate -> B) : PreOrder (same_on proj).
Proof.
  split; [by intros iso|].
  intros a b c Hab Hbc. unfold same_on in *. congruence.
Qed.

#[global] Instance same_cache_preorder : PreOrder same_cache.
Proof.
  split; [by intros iso|].
  intros a b c Hab Hbc. unfold same_cache in *. congruence.
Qed.

Section Frame.

Context (R : Isolate -> Isolate -> Prop) `{!PreOrder R}.

Lemma preserves_ret {A} (a : A) : preserves R (ret a).
Proof. intros iso. simpl. reflexivity. Qed.

Lemma preserves_crash {A} : preserves R (@crash A).
Proof. by intros iso. Qed.

Lemma preserves_DCHECK b : preserves R (DCHECK b).
Proof. intros iso. unfold DCHECK. destruct b; [reflexivity|done]. Qed.

Lemma preserves_get_isolate : preserves R get_isolate.
Proof. intros iso. simpl. reflexivity. Qed.

Lemma preserves_deref {A} (sel : Isolate -> gmap nat A) addr :
  preserves R (deref sel addr).
Proof. intros iso. unfold deref. destruct (sel iso !! addr); [reflexivity|done]. Qed.

Lemma preserves_modify f :
  (forall iso, R iso (f iso)) -> preserves R (modify f).
Proof. intros H iso. apply H. Qed.

Lemma preserves_bind {A B} (m : M A) (k : A -> M B) :
  preserves R m -> (forall a, preserves R (k a)) -> preserves R (bind m k).
Proof.
  intros Hm Hk iso. unfold bind. specialize (Hm iso).
  destruct (m iso) as [[a iso1]|]; [|done].
  specialize (Hk a iso1). destruct (k a iso1) as [[b iso2]|]; [|done].
  by transitivity iso1.
Qed.

Lemma preserves_get_function f : preserves R (get_function f).
Proof. apply preserves_deref. Qed.

Lemma preserves_get_shared s : preserves R (get_shared s).
Proof. apply preserves_deref. Qed.

Lemma preserves_feedback_vector f : preserves R (feedback_vector f).
Proof.
  unfold feedback_vector. apply preserves_bind; [apply preserves_get_function|].
  intros fn. apply preserves_bind; [apply preserves_deref|].
  intros [v|]; [apply preserves_ret|apply preserves_crash].
Qed.

Lemma preserves_update_function f upd :
  (forall iso m, R iso (set_functions m iso)) ->
  preserves R (update_function f upd).
Proof.
  intros H. unfold update_function.
  apply preserves_bind; [apply preserves_get_function|].
  intros fn. apply preserves_modify. intros iso. apply H.
Qed.

Lemma preserves_update_shared s upd :
  (forall iso m, R iso (set_shared_infos m iso)) ->
  preserves R (update_shared s upd).
Proof.
  intros H. unfold update_shared.
  apply preserves_bind; [apply preserves_get_shared|].
  intros sh. apply preserves_modify. intros iso. apply H.
Qed.

Lemma preserves_update_feedback_vector f upd :
  (forall iso m, R iso (set_feedback_cells m iso)) ->
  preserves R (update_feedback_vector f upd).
Proof.
  intros H. unfold update_feedback_vector.
  apply preserves_bind; [apply preserves_get_function|].
  intros fn. apply preserves_bind; [apply preserves_feedback_vector|].
  intros v. apply preserves_modify. intros iso. apply H.
Qed.

End Frame.

(** Rewriting a vector without touching its slot leaves the cache as it is. *)
Lemma same_cache_update_feedback_vector f upd :
  (forall v, optimized_code (upd v) = optimized_code v) ->
  preserves same_cache (update_feedback_vector f upd).
Proof.
  intros Hupd iso. unfold update_feedback_vector, bind.
  destruct (get_function f iso) as [[fn iso1]|] eqn:Hfn; [|done].
  unfold get_function, deref in Hfn.
  destruct (functions iso !! f) eqn:Hf; [|done]. inversion Hfn; subst.
  destruct (feedback_vector f iso1) as [[v iso2]|] eqn:Hv; [|done].
  unfold feedback_vector, bind, get_function, deref in Hv. rewrite Hf in Hv.
  destruct (feedback_cells iso1 !! feedback_vector_cell fn) as [[v'|]|] eqn:Hc;
    [|done..].
  inversion Hv; subst. unfold modify, same_cache, optimized_code_cache. simpl.
  rewrite fmap_insert. apply insert_id. rewrite lookup_fmap, Hc. simpl.
  by rewrite Hupd.
Qed.

(** ** The optimized code cache *)

Section OptimizedCodeCache.

Lemma optimized_code_slot_evicted iso f fn v :
  functions iso !! f = Some fn ->
  optimized_code_slot (evicted iso (feedback_vector_cell fn) v) f = None.
Proof.
  intros Hf. unfold optimized_code_slot, evicted. simpl.
  by rewrite Hf, lookup_insert_eq.
Qed.

Lemma Evict_marked iso f fn v c :
  functions iso !! f = Some fn ->
  feedback_cells iso !! feedback_vector_cell fn = Some (Some v) ->
  optimized_code v = Some c ->
  code_marked_for_deoptimization iso c = true ->
  EvictOptimizedCodeMarkedForDeoptimization f iso =
  Ret (tt, evicted iso (feedback_vector_cell fn) v).
Proof.
  intros Hf Hc Hv Hm. unfold EvictOptimizedCodeMarkedForDeoptimization, bind, get_isolate.
  rewrite (feedback_vector_run _ _ _ _ Hf Hc), Hv, Hm.
  by rewrite (update_feedback_vector_run _ _ _ _ _ Hf Hc).
Qed.

Lemma Evict_unmarked iso f fn v :
  functions iso !! f = Some fn ->
  feedback_cells iso !! feedback_vector_cell fn = Some (Some v) ->
  match optimized_code v with
  | Some c => code_marked_for_deoptimization iso c = false
  | None => True
  end ->
  EvictOptimizedCodeMarkedForDeoptimization f iso = Ret (tt, iso).
Proof.
  intros Hf Hc Hv. unfold EvictOptimizedCodeMarkedForDeoptimization, bind, get_isolate.
  rewrite (feedback_vector_run _ _ _ _ Hf Hc).
  destruct (optimized_code v); [by rewrite Hv|done].
Qed.

Lemma lookup_osr iso f fn id :
  functions iso !! f = Some fn ->
  GetCodeFromOptimizedCodeCache f (Some id) iso = Ret (None, iso).
Proof.
  intros Hf. unfold GetCodeFromOptimizedCodeCache, bind.
  by rewrite (get_function_run _ _ _ Hf).
Qed.

Lemma lookup_marked iso f fn v c :
  functions iso !! f = Some fn ->
  feedback_cells iso !! feedback_vector_cell fn = Some (Some v) ->
  optimized_code v = Some c ->
  code_marked_for_deoptimization iso c = true ->
  GetCodeFromOptimizedCodeCache f None iso =
  Ret (None, evicted iso (feedback_vector_cell fn) v).
Proof.
  intros Hf Hc Hv Hm. unfold GetCodeFromOptimizedCodeCache, bind. simpl.
  rewrite (get_function_run _ _ _ Hf). unfold deref at 1. rewrite Hc.
  rewrite (Evict_marked _ _ _ _ _ Hf Hc Hv Hm).
  rewrite (feedback_vector_run _ f fn (ClearOptimizedCode v)); [done|done|].
  unfold evicted. simpl. by rewrite lookup_insert_eq.
Qed.

Lemma lookup_empty_slot iso f fn v :
  functions iso !! f = Some fn ->
  feedback_cells iso !! feedback_vector_cell fn = Some (Some v) ->
  optimized_code v = None ->
  GetCodeFromOptimizedCodeCache f None iso = Ret (None, iso).
Proof.
  intros Hf Hc Hv. unfold GetCodeFromOptimizedCodeCache, bind. simpl.
  rewrite (get_function_run _ _ _ Hf). unfold deref at 1. rewrite Hc.
  rewrite (Evict_unmarked _ _ _ _ Hf Hc) by by rewrite Hv.
  by rewrite (feedback_vector_run _ _ _ _ Hf Hc), Hv.
Qed.

Lemma lookup_hit iso f fn v c sh :
  functions iso !! f = Some fn ->
  feedback_cells iso !! feedback_vector_cell fn = Some (Some v) ->
  optimized_code v = Some c ->
  code_marked_for_deoptimization iso c = false ->
  shared_infos iso !! shared fn = Some sh ->
  sfi_is_compiled sh = true ->
  GetCodeFromOptimizedCodeCache f None iso = Ret (Some c, iso).
Proof.
  intros Hf Hc Hv Hm Hs Hcomp. unfold GetCodeFromOptimizedCodeCache, bind. simpl.
  rewrite (get_function_run _ _ _ Hf). unfold deref at 1. rewrite Hc.
  rewrite (Evict_unmarked _ _ _ _ Hf Hc) by by rewrite Hv.
  rewrite (feedback_vector_run _ _ _ _ Hf Hc), Hv.
  unfold get_isolate, DCHECK. rewrite Hm. simpl.
  by rewrite (get_shared_run _ _ _ Hs), Hcomp.
Qed.

(** Whatever the lookup returns was not marked for deoptimization when it
    was returned: the assertion on line 599 stands between the slot and the
    caller. *)
Lemma lookup_result_not_marked iso f osr c iso' :
  GetCodeFromOptimizedCodeCache f osr iso = Ret (Some c, iso') ->
  code_marked_for_deoptimization iso' c = false.
Proof.
  unfold GetCodeFromOptimizedCodeCache, bind.
  destruct (get_function f iso) as [[fn iso1]|]; [|done].
  destruct (IsNone osr); [|by inversion 1].
  destruct (deref feedback_cells _ iso1) as [[[v0|] iso2]|]; [|by inversion 1|done].
  destruct (EvictOptimizedCodeMarkedForDeoptimization f iso2) as [[[] iso3]|]; [|done].
  destruct (feedback_vector f iso3) as [[v iso4]|]; [|done].
  destruct (optimized_code v) as [c'|]; [|by inversion 1].
  unfold get_isolate, DCHECK.
  destruct (code_marked_for_deoptimization iso4 c') eqn:Hm; [done|]. simpl.
  destruct (get_shared (shared fn) iso4) as [[sh iso5]|] eqn:Hsh; [|done].
  unfold get_shared, deref in Hsh.
  destruct (shared_infos iso4 !! shared fn); [|done]. inversion Hsh; subst.
  destruct (sfi_is_compiled sh); [|done]. unfold ret. by inversion 1; subst.
Qed.

(** C6, as the code has it.  An entry whose code has been marked for
    deoptimization is evicted by a lookup with no OSR target, which reports
    a miss and leaves the closure's slot empty; a lookup with an OSR target
    reports a miss without touching the slot; and no lookup, with or without
    an OSR target, returns code that is marked for deoptimization. *)
Theorem lookup_evicts_deoptimized_entry
  (iso : Isolate) (function : nat) (fn : JSFunction) (v : FeedbackVector)
  (c : Code) :
  functions iso !! function = Some fn ->
  feedback_cells iso !! feedback_vector_cell fn = Some (Some v) ->
  optimized_code v = Some c ->
  code_marked_for_deoptimization iso c = true ->
  (exists iso',
     GetCodeFromOptimizedCodeCache function None iso = Ret (None, iso') /\
     optimized_code_slot iso' function = None) /\
  (forall id,
     GetCodeFromOptimizedCodeCache function (Some id) iso = Ret (None, iso)) /\
  (forall osr c' iso',
     GetCodeFromOptimizedCodeCache function osr iso = Ret (Some c', iso') ->
     code_marked_for_deoptimization iso' c' = false).
Proof.
  intros Hf Hc Hv Hm. split; [|split].
  - eexists. split; [by apply (lookup_marked _ _ _ _ _ Hf Hc Hv Hm)|].
    by apply optimized_code_slot_evicted.
  - intros id. by apply (lookup_osr _ _ fn).
  - intros osr c' iso'. apply lookup_result_not_marked.
Qed.

(** On the concrete isolate whose cell 1 caches marked code: the lookup for
    closure 1 evicts it. *)
Lemma lookup_evicts_deoptimized_entry_witness :
  exists iso',
    GetCodeFromOptimizedCodeCache 1 None Demo.iso_stale = Ret (None, iso') /\
    optimized_code_slot iso' 1 = None.
Proof.
  apply (lookup_evicts_deoptimized_entry Demo.iso_stale 1 (Demo.closure_on 1)
           (Demo.cached_vector Demo.stale_code) Demo.stale_code);
    reflexivity.
Defined.

(** C6 as stated fails for a lookup with an OSR target: the guard on line
    590 skips the feedback vector, so the marked entry stays in the slot. *)
Lemma lookup_with_osr_target_keeps_entry :
  ~ (forall iso function osr fn v c,
       functions iso !! function = Some fn ->
       feedback_cells iso !! feedback_vector_cell fn = Some (Some v) ->
       optimized_code v = Some c ->
       code_marked_for_deoptimization iso c = true ->
       exists iso',
         GetCodeFromOptimizedCodeCache function osr iso = Ret (None, iso') /\
         optimized_code_slot iso' function = None).
Proof.
  intros H.
  destruct (H Demo.iso_stale 1 (Some 4) (Demo.closure_on 1)
              (Demo.cached_vector Demo.stale_code) Demo.stale_code
              eq_refl eq_refl eq_refl eq_refl) as (iso' & Hrun & Hslot).
  rewrite (lookup_osr Demo.iso_stale 1 (Demo.closure_on 1) 4 eq_refl) in Hrun.
  inversion Hrun; subst iso'. vm_compute in Hslot. discriminate.
Qed.

Lemma bind_run {A B} (m : M A) (k : A -> M B) iso a iso' :
  m iso = Ret (a, iso') -> bind m k iso = k a iso'.
Proof. intros H. unfold bind. by rewrite H. Qed.


Lemma bind_fatal {A B} (m : M A) (k : A -> M B) iso :
  m iso = Fatal -> bind m k iso = Fatal.
Proof. intros H. unfold bind. by rewrite H. Qed.

Lemma ClearOptimizedCodeCache_run iso info f fn v :
  closure info = Some f ->
  functions iso !! f = Some fn ->
  feedback_cells iso !! feedback_vector_cell fn = Some (Some v) ->
  ClearOptimizedCodeCache info iso =
  Ret (tt, if IsNone (osr_ast_id info)
           then evicted iso (feedback_vector_cell fn) v else iso).
Proof.
  intros Hcl Hf Hc. unfold ClearOptimizedCodeCache. rewrite Hcl.
  destruct (IsNone (osr_ast_id info)); [|done].
  by rewrite (update_feedback_vector_run _ _ _ _ _ Hf Hc).
Qed.

(** With an OSR target the insertion never changes the isolate. *)
Lemma Insert_osr_unchanged info id :
  osr_ast_id info = Some id ->
  preserves eq (InsertCodeIntoOptimizedCodeCache info).
Proof.
  intros Hosr iso. unfold InsertCodeIntoOptimizedCodeCache, ClearOptimizedCodeCache.
  rewrite Hosr. simpl.
  destruct (code info) as [c|]; [|done].
  destruct (negb (bool_decide (kind c = OPTIMIZED_FUNCTION))); [done|].
  destruct (is_function_context_specializing info).
  { by destruct (closure info). }
  unfold bind, DCHECK. destruct (negb (is_frame_specializing info)); [|done].
  destruct (closure info) as [f|]; [|done].
  unfold get_function, deref. by destruct (functions iso !! f).
Qed.

(** C3, as the code has it.  Inserting code that is not an optimized-tier
    artifact changes nothing.  For optimized-tier code of a
    context-specialized compile nothing is inserted either: when the compile
    has no OSR target the slot of the closure's feedback vector is cleared,
    and when it has one the isolate is left exactly as it was.  A
    frame-specialized compile that is not context-specialized is ruled out
    by the assertion on line 630. *)
Theorem insert_is_noop_or_clears
  (iso : Isolate) (info : CompilationInfo) (c : Code) :
  code info = Some c ->
  (kind c <> OPTIMIZED_FUNCTION ->
   InsertCodeIntoOptimizedCodeCache info iso = Ret (tt, iso)) /\
  (kind c = OPTIMIZED_FUNCTION ->
   is_function_context_specializing info = true ->
   forall function fn v,
     closure info = Some function ->
     functions iso !! function = Some fn ->
     feedback_cells iso !! feedback_vector_cell fn = Some (Some v) ->
     (osr_ast_id info = None ->
      exists iso',
        InsertCodeIntoOptimizedCodeCache info iso = Ret (tt, iso') /\
        iso' = evicted iso (feedback_vector_cell fn) v /\
        optimized_code_slot iso' function = None) /\
     (osr_ast_id info <> None ->
      InsertCodeIntoOptimizedCodeCache info iso = Ret (tt, iso))) /\
  (kind c = OPTIMIZED_FUNCTION ->
   is_function_context_specializing info = false ->
   is_frame_specializing info = true ->
   InsertCodeIntoOptimizedCodeCache info iso = Fatal).
Proof.
  intros Hcode. unfold InsertCodeIntoOptimizedCodeCache. rewrite Hcode.
  split; [|split].
  - intros Hkind. by rewrite bool_decide_eq_false_2.
  - intros Hkind Hspec function fn v Hcl Hf Hc.
    rewrite bool_decide_eq_true_2 by done. simpl. rewrite Hspec.
    rewrite (ClearOptimizedCodeCache_run _ _ _ _ _ Hcl Hf Hc). split.
    + intros ->. simpl. eexists. split; [done|]. split; [done|].
      by apply optimized_code_slot_evicted.
    + intros Hosr. by destruct (osr_ast_id info).
  - intros Hkind Hspec Hframe.
    rewrite bool_decide_eq_true_2 by done. simpl. rewrite Hspec.
    unfold bind, DCHECK. by rewrite Hframe.
Qed.

(** A context-specialized compile without OSR target, on the isolate whose
    cell 1 caches code: the slot is cleared. *)
Lemma insert_is_noop_or_clears_witness :
  exists iso',
    InsertCodeIntoOptimizedCodeCache (Demo.specialized_info None) Demo.iso_cached =
      Ret (tt, iso') /\
    iso' = evicted Demo.iso_cached 1 (Demo.cached_vector Demo.stale_code) /\
    optimized_code_slot iso' 1 = None.
Proof.
  pose proof (insert_is_noop_or_clears Demo.iso_cached (Demo.specialized_info None)
                Demo.turbofan_code eq_refl) as (_ & H & _).
  exact (proj1 (H eq_refl eq_refl 1 (Demo.closure_on 1)
                  (Demo.cached_vector Demo.stale_code) eq_refl eq_refl eq_refl)
           eq_refl).
Defined.

(** C3 as stated fails for a context-specialized OSR compile: the guard on
    line 610 keeps ClearOptimizedCodeCache from touching the vector, so the
    existing entry survives. *)
Lemma specialized_osr_insert_keeps_entry :
  ~ (forall iso info c function fn v,
       code info = Some c ->
       kind c = OPTIMIZED_FUNCTION ->
       is_function_context_specializing info = true ->
       closure info = Some function ->
       functions iso !! function = Some fn ->
       feedback_cells iso !! feedback_vector_cell fn = Some (Some v) ->
       exists iso',
         InsertCodeIntoOptimizedCodeCache info iso = Ret (tt, iso') /\
         optimized_code_slot iso' function = None).
Proof.
  intros H.
  destruct (H Demo.iso_cached (Demo.specialized_info (Some 4)) Demo.turbofan_code
              1 (Demo.closure_on 1) (Demo.cached_vector Demo.stale_code)
              eq_refl eq_refl eq_refl eq_refl eq_refl eq_refl)
    as (iso' & Hrun & Hslot).
  vm_compute in Hrun. inversion Hrun; subst iso'.
  vm_compute in Hslot. discriminate.
Qed.

End OptimizedCodeCache.

(** ** Finalizing a background job *)

Section FinalizeBackgroundJob.

Variable ext : Collaborators.

Lemma same_cache_set_functions m iso : same_cache iso (set_functions m iso).
Proof. done. Qed.

Lemma same_cache_ticks iso cell v n :
  feedback_cells iso !! cell = Some (Some v) ->
  same_cache iso
    (set_feedback_cells (<[cell := Some (set_profiler_ticks n v)]> (feedback_cells iso)) iso).
Proof.
  intros Hc. unfold same_cache, optimized_code_cache. simpl.
  rewrite fmap_insert. apply insert_id. by rewrite lookup_fmap, Hc.
Qed.

(** C1.  A job that reaches FinalizeOptimizedCompilationJob in state
    kReadyToFinalize while its descriptor has optimization disabled, or its
    dependency set has aborted, is retried: RetryOptimization puts it in
    state kFailed with the reason of the failed check, the result is FAILED
    (Compiler::FinalizeCompilationJob reports false), the optimized code
    cache is what it was, and the closure runs the descriptor's code
    again, its kInOptimizationQueue marker cleared. *)
Theorem finalize_retries_when_disabled_or_aborted
  (iso : Isolate) (job : CompilationJob) (function s : nat)
  (fn : JSFunction) (v : FeedbackVector) (sh : SharedFunctionInfo) :
  let info := compilation_info job in
  let reason := if optimization_disabled sh then kOptimizationDisabled
                else kBailedOutDueToDependencyChange in
  closure info = Some function ->
  shared_info info = Some s ->
  functions iso !! function = Some fn ->
  feedback_cells iso !! feedback_vector_cell fn = Some (Some v) ->
  shared_infos iso !! s = Some sh ->
  HasBreakInfo sh = false ->
  IsOptimizing info = true ->
  state job = kReadyToFinalize ->
  optimization_disabled sh = true \/ dependencies_HasAborted info = true ->
  exists job' iso',
    FinalizeOptimizedCompilationJob ext job iso = Ret ((FAILED, job'), iso') /\
    Compiler_FinalizeCompilationJob ext job iso = Ret ((false, job'), iso') /\
    RetryOptimization reason job iso = Ret ((FAILED, job'), iso) /\
    state job' = kFailed /\
    bailout_reason (compilation_info job') = reason /\
    same_cache iso iso' /\
    shared_infos iso' = shared_infos iso /\
    input_queue iso' = input_queue iso /\
    functions iso' !! function =
      Some {| shared := shared fn; fn_code := sfi_code sh;
              feedback_vector_cell := feedback_vector_cell fn;
              optimization_marker :=
                if IsInOptimizationQueue fn then kNone else optimization_marker fn |}.
Proof.
  intros info reason Hcl Hsi Hf Hc Hs Hbreak Hopt Hstate Hwhy.
  set (job' := set_state kFailed
                 (set_compilation_info (set_bailout_reason reason info) job)).
  set (iso1 := set_feedback_cells
                 (<[feedback_vector_cell fn := Some (set_profiler_ticks 0 v)]>
                    (feedback_cells iso)) iso).
  assert (Hretry : forall i, RetryOptimization reason job i = Ret ((FAILED, job'), i)).
  { intros i. by rewrite (RetryOptimization_run _ _ _ Hopt). }
  assert (Hfin : exists iso',
    FinalizeOptimizedCompilationJob ext job iso = Ret ((FAILED, job'), iso') /\
    same_cache iso iso' /\ shared_infos iso' = shared_infos iso /\
    input_queue iso' = input_queue iso /\
    functions iso' !! function =
      Some {| shared := shared fn; fn_code := sfi_code sh;
              feedback_vector_cell := feedback_vector_cell fn;
              optimization_marker :=
                if IsInOptimizationQueue fn then kNone else optimization_marker fn |}).
  { unfold FinalizeOptimizedCompilationJob. fold info. rewrite Hcl, Hsi.
    rewrite (bind_run _ _ _ _ _ (update_feedback_vector_run _ _ _ _ _ Hf Hc)).
    fold iso1.
    rewrite (bind_run _ _ iso1 sh iso1) by by apply get_shared_run.
    unfold DCHECK at 1. rewrite Hbreak. simpl. unfold bind at 1.
    rewrite Hstate, bool_decide_eq_true_2 by done.
    assert (Hbranch :
      (if optimization_disabled sh
       then bind (RetryOptimization kOptimizationDisabled job)
              (fun '(_, job0) => ret (inr job0))
       else if dependencies_HasAborted info
            then bind (RetryOptimization kBailedOutDueToDependencyChange job)
                   (fun '(_, job0) => ret (inr job0))
            else
              bind (FinalizeJob ext job)
                (fun '(status, job0) =>
                   if bool_decide (status = SUCCEEDED)
                   then bind (RecordOptimizedCompilationStats job0) (fun _ =>
                        bind (InsertCodeIntoOptimizedCodeCache (compilation_info job0))
                          (fun _ =>
                             match code (compilation_info job0) with
                             | Some c =>
                                 bind (JSFunction_ReplaceCode function c)
                                   (fun _ => ret (inl job0))
                             | None => crash
                             end))
                   else ret (inr job0))) iso1
      = Ret (@inr CompilationJob CompilationJob job', iso1)).
    { subst reason. destruct (optimization_disabled sh).
      - by rewrite (bind_run _ _ _ _ _ (Hretry iso1)).
      - destruct Hwhy as [|Hdeps]; [done|]. rewrite Hdeps.
        by rewrite (bind_run _ _ _ _ _ (Hretry iso1)). }
    rewrite (bind_run _ _ _ _ _ Hbranch). simpl.
    unfold DCHECK at 1. simpl. unfold bind at 1.
    rewrite (bind_run _ _ iso1 sh iso1) by by apply get_shared_run.
    unfold JSFunction_ReplaceCode.
    assert (Hf1 : functions iso1 !! function = Some fn) by done.
    rewrite (bind_run _ _ _ _ _ (update_function_run _ _ _ _ Hf1)).
    set (fn1 := {| shared := shared fn; fn_code := sfi_code sh;
                   feedback_vector_cell := feedback_vector_cell fn;
                   optimization_marker := optimization_marker fn |}).
    set (iso2 := set_functions (<[function := fn1]> (functions iso1)) iso1).
    assert (Hf2 : functions iso2 !! function = Some fn1)
      by (subst iso2; simpl; apply lookup_insert_eq).
    rewrite (bind_run _ _ iso2 fn1 iso2) by by apply get_function_run.
    unfold IsInOptimizationQueue. simpl.
    destruct (bool_decide (optimization_marker fn = kInOptimizationQueue)).
    - unfold ClearOptimizationMarker.
      rewrite (bind_run _ _ _ _ _ (update_function_run _ _ _ _ Hf2)).
      eexists. split; [reflexivity|]. simpl.
      split; [by apply (same_cache_ticks iso _ v 0)|].
      split; [done|]. split; [done|]. by rewrite lookup_insert_eq.
    - unfold ret, bind. eexists. split; [reflexivity|]. simpl.
      split; [by apply (same_cache_ticks iso _ v 0)|].
      split; [done|]. split; [done|]. by rewrite lookup_insert_eq. }
  destruct Hfin as (iso' & Hrun & Hcache & Hshared & Hqueue & Hfn).
  exists job', iso'. split; [done|]. split.
  { unfold Compiler_FinalizeCompilationJob. fold info. rewrite Hopt.
    by rewrite (bind_run _ _ _ _ _ Hrun). }
  split; [apply Hretry|]. done.
Qed.

End FinalizeBackgroundJob.

(** The job of closure 1 comes back with its dependency set aborted: it is
    retried and closure 1 keeps the baseline code. *)
Lemma finalize_retries_when_disabled_or_aborted_witness :
  exists job' iso',
    FinalizeOptimizedCompilationJob Demo.ext Demo.aborted_job Demo.iso =
      Ret ((FAILED, job'), iso') /\
    Compiler_FinalizeCompilationJob Demo.ext Demo.aborted_job Demo.iso =
      Ret ((false, job'), iso') /\
    RetryOptimization kBailedOutDueToDependencyChange Demo.aborted_job Demo.iso =
      Ret ((FAILED, job'), Demo.iso) /\
    state job' = kFailed /\
    bailout_reason (compilation_info job') = kBailedOutDueToDependencyChange /\
    same_cache Demo.iso iso' /\
    shared_infos iso' = shared_infos Demo.iso /\
    input_queue iso' = input_queue Demo.iso /\
    functions iso' !! 1 = Some (Demo.closure_on 1).
Proof.
  exact (finalize_retries_when_disabled_or_aborted Demo.ext Demo.iso
           Demo.aborted_job 1 1 (Demo.closure_on 1) Demo.empty_vector
           Demo.descriptor eq_refl eq_refl eq_refl eq_refl eq_refl eq_refl
           eq_refl eq_refl (or_intror eq_refl)).
Defined.

(** ** Inverting the phases *)

Section PhaseInversion.

Variable ext : Collaborators.

Lemma UpdateState_backend status next job :
  backend (UpdateState status next job).2 = backend job.
Proof. by destruct status. Qed.

Lemma UpdateState_parse_info status next job :
  parse_info (UpdateState status next job).2 = parse_info job.
Proof. by destruct status. Qed.

Lemma same_target_record_output o info : same_target info (record_output o info).
Proof. done. Qed.

Lemma PrepareJob_inv iso job r iso' :
  PrepareJob ext job iso = Ret (r, iso') ->
  iso' = iso /\ current_thread iso = thread_id iso /\
  state job = kReadyToPrepare /\
  backend r.2 = backend job /\
  same_target (compilation_info job) (compilation_info r.2) /\
  literal (compilation_info r.2) = literal (compilation_info job) /\
  state r.2 = match r.1 with SUCCEEDED => kReadyToExecute | FAILED => kFailed end.
Proof.
  unfold PrepareJob, bind, get_isolate, DCHECK.
  case_bool_decide as Hthread; [|done]. case_bool_decide as Hstate; [|done].
  destruct (PrepareJobImpl _ _ _ _ _) as [status out]. unfold ret.
  intros [= <- <-].
  rewrite UpdateState_backend, UpdateState_info, UpdateState_state, UpdateState_status.
  done.
Qed.

Lemma ExecuteJob_inv iso job r iso' :
  ExecuteJob ext job iso = Ret (r, iso') ->
  iso' = iso /\ state job = kReadyToExecute /\
  backend r.2 = backend job /\
  same_target (compilation_info job) (compilation_info r.2) /\
  literal (compilation_info r.2) = literal (compilation_info job) /\
  state r.2 = match r.1 with SUCCEEDED => kReadyToFinalize | FAILED => kFailed end.
Proof.
  unfold ExecuteJob, bind, get_isolate, DCHECK, ret.
  destruct (can_execute_on_background_thread ext (backend job)).
  - simpl. case_bool_decide as Hstate; [|done].
    destruct (ExecuteJobImpl _ _ _ _ _) as [status out].
    intros [= <- <-].
    rewrite UpdateState_backend, UpdateState_info, UpdateState_state, UpdateState_status.
    done.
  - case_bool_decide as Hthread; [|done]. case_bool_decide as Hstate; [|done].
    destruct (ExecuteJobImpl _ _ _ _ _) as [status out].
    intros [= <- <-].
    rewrite UpdateState_backend, UpdateState_info, UpdateState_state, UpdateState_status.
    done.
Qed.

Lemma FinalizeJob_inv iso job r iso' :
  FinalizeJob ext job iso = Ret (r, iso') ->
  iso' = iso /\ current_thread iso = thread_id iso /\
  dependencies_HasAborted (compilation_info job) = false /\
  state job = kReadyToFinalize /\
  backend r.2 = backend job /\
  same_target (compilation_info job) (compilation_info r.2) /\
  literal (compilation_info r.2) = literal (compilation_info job) /\
  state r.2 = match r.1 with SUCCEEDED => kSucceeded | FAILED => kFailed end.
Proof.
  unfold FinalizeJob, bind, get_isolate, DCHECK, ret.
  case_bool_decide as Hthread; [|done].
  destruct (dependencies_HasAborted (compilation_info job)); [done|]. simpl.
  case_bool_decide as Hstate; [|done].
  destruct (FinalizeJobImpl _ _ _ _ _) as [status out].
  intros [= <- <-].
  rewrite UpdateState_backend, UpdateState_info, UpdateState_state, UpdateState_status.
  done.
Qed.

End PhaseInversion.

(** One step of a frame proof; [write] shows that a write respects the
    relation. *)
Ltac frame_step write :=
  match goal with
  | |- preserves _ (ret _) => apply preserves_ret; exact _
  | |- preserves _ crash => apply preserves_crash
  | |- preserves _ (DCHECK _) => apply preserves_DCHECK; exact _
  | |- preserves _ get_isolate => apply preserves_get_isolate; exact _
  | |- preserves _ (get_function _) => apply preserves_get_function; exact _
  | |- preserves _ (get_shared _) => apply preserves_get_shared; exact _
  | |- preserves _ (feedback_vector _) => apply preserves_feedback_vector; exact _
  | |- preserves _ (deref _ _) => apply preserves_deref; exact _
  | |- preserves _ (update_function _ _) =>
      apply preserves_update_function; [exact _ | intros; write]
  | |- preserves _ (update_shared _ _) =>
      apply preserves_update_shared; [exact _ | intros; write]
  | |- preserves _ (update_feedback_vector _ _) =>
      apply preserves_update_feedback_vector; [exact _ | intros; write]
  | |- preserves _ (modify _) => apply preserves_modify; intros; write
  | |- preserves _ (bind _ _) => apply preserves_bind; [exact _ | | intros ?]
  | |- preserves _ (match ?x with _ => _ end) => destruct x
  | |- preserves _ _ => solve [auto]
  end.

(** ** What the pipeline leaves alone

    [R] is any preorder on isolates that each kind of write respects; a
    lemma below depends on the hypotheses for the writes its function makes,
    and on no other. *)

Section FrameCompiler.

Variable ext : Collaborators.
Context (R : Isolate -> Isolate -> Prop) `{!PreOrder R}.

Hypothesis R_functions : forall iso m, R iso (set_functions m iso).
Hypothesis R_shared_infos : forall iso m, R iso (set_shared_infos m iso).
Hypothesis R_feedback_cells : forall iso m, R iso (set_feedback_cells m iso).
Hypothesis R_pending : forall iso b, R iso (set_has_pending_exception b iso).
Hypothesis R_queue : forall iso q, R iso (set_input_queue q iso).
Hypothesis R_created : forall iso n, R iso (set_jobs_created n iso).

Ltac frame :=
  repeat frame_step
    ltac:(first [ apply R_functions | apply R_shared_infos | apply R_feedback_cells
                | apply R_pending | apply R_queue | apply R_created ]).

Lemma frame_PrepareJob job : preserves R (PrepareJob ext job).
Proof. unfold PrepareJob. frame. Qed.

Lemma frame_ExecuteJob job : preserves R (ExecuteJob ext job).
Proof. unfold ExecuteJob. frame. Qed.

Lemma frame_FinalizeJob job : preserves R (FinalizeJob ext job).
Proof. unfold FinalizeJob. frame. Qed.

Lemma frame_RetryOptimization reason job : preserves R (RetryOptimization reason job).
Proof. unfold RetryOptimization. frame. Qed.

Lemma frame_CompilationInfo_AbortOptimization reason info :
  preserves R (CompilationInfo_AbortOptimization reason info).
Proof. unfold CompilationInfo_AbortOptimization. frame. Qed.

Lemma frame_NewCompilationJob b pi info st :
  preserves R (NewCompilationJob b pi info st).
Proof. unfold NewCompilationJob. frame. Qed.

Lemma frame_ShouldUseFullCodegen lit : preserves R (ShouldUseFullCodegen lit).
Proof. unfold ShouldUseFullCodegen. frame. Qed.

Lemma frame_UseAsmWasm sc si dbg : preserves R (UseAsmWasm sc si dbg).
Proof. unfold UseAsmWasm. frame. Qed.

Lemma frame_GetUnoptimizedCompilationJob pi info :
  preserves R (GetUnoptimizedCompilationJob pi info).
Proof.
  pose proof frame_ShouldUseFullCodegen. pose proof frame_NewCompilationJob.
  unfold GetUnoptimizedCompilationJob. frame.
Qed.

Lemma frame_EnsureFeedbackMetadata info :
  preserves R (EnsureFeedbackMetadata ext info).
Proof. unfold EnsureFeedbackMetadata, CHECK. frame. Qed.

Lemma frame_InstallUnoptimizedCode info :
  preserves R (InstallUnoptimizedCode ext info).
Proof.
  pose proof frame_EnsureFeedbackMetadata.
  unfold InstallUnoptimizedCode. frame.
Qed.

Lemma frame_SetSharedFunctionFlagsFromLiteral lit s :
  preserves R (SetSharedFunctionFlagsFromLiteral lit s).
Proof. unfold SetSharedFunctionFlagsFromLiteral. frame. Qed.

Lemma frame_NewSharedFunctionInfoForLiteral lit :
  preserves R (NewSharedFunctionInfoForLiteral lit).
Proof. unfold NewSharedFunctionInfoForLiteral. frame. Qed.

Lemma frame_FinalizeUnoptimizedCompilationJob job :
  preserves R (FinalizeUnoptimizedCompilationJob ext job).
Proof.
  pose proof frame_NewSharedFunctionInfoForLiteral.
  pose proof frame_SetSharedFunctionFlagsFromLiteral.
  pose proof frame_FinalizeJob. pose proof frame_InstallUnoptimizedCode.
  unfold FinalizeUnoptimizedCompilationJob. frame.
Qed.

Lemma frame_RunUnoptimizedCompilationJob job :
  preserves R (RunUnoptimizedCompilationJob ext job).
Proof.
  pose proof frame_PrepareJob. pose proof frame_ExecuteJob.
  pose proof frame_FinalizeUnoptimizedCompilationJob.
  unfold RunUnoptimizedCompilationJob. frame.
Qed.

Lemma frame_GenerateUnoptimizedCode pi info :
  preserves R (GenerateUnoptimizedCode ext pi info).
Proof.
  pose proof frame_UseAsmWasm. pose proof frame_NewCompilationJob.
  pose proof frame_RunUnoptimizedCompilationJob.
  pose proof frame_GetUnoptimizedCompilationJob.
  unfold GenerateUnoptimizedCode. frame.
Qed.

Lemma frame_EvictOptimizedCodeMarkedForDeoptimization f :
  preserves R (EvictOptimizedCodeMarkedForDeoptimization f).
Proof. unfold EvictOptimizedCodeMarkedForDeoptimization. frame. Qed.

Lemma frame_GetCodeFromOptimizedCodeCache f osr :
  preserves R (GetCodeFromOptimizedCodeCache f osr).
Proof.
  pose proof frame_EvictOptimizedCodeMarkedForDeoptimization.
  unfold GetCodeFromOptimizedCodeCache. frame.
Qed.

Lemma frame_ClearOptimizedCodeCache info : preserves R (ClearOptimizedCodeCache info).
Proof. unfold ClearOptimizedCodeCache. frame. Qed.

Lemma frame_InsertCodeIntoOptimizedCodeCache info :
  preserves R (InsertCodeIntoOptimizedCodeCache info).
Proof.
  pose proof frame_ClearOptimizedCodeCache.
  unfold InsertCodeIntoOptimizedCodeCache. frame.
Qed.

Lemma frame_Compiler_ParseAndAnalyze pi si :
  preserves R (Compiler_ParseAndAnalyze ext pi si).
Proof. unfold Compiler_ParseAndAnalyze, Compiler_Analyze. frame. Qed.

Lemma frame_parse_for_optimization job :
  preserves R (parse_for_optimization ext job).
Proof.
  pose proof frame_Compiler_ParseAndAnalyze.
  pose proof frame_EnsureFeedbackMetadata.
  unfold parse_for_optimization. frame.
Qed.

Lemma frame_GetOptimizedCodeNow job : preserves R (GetOptimizedCodeNow ext job).
Proof.
  pose proof frame_parse_for_optimization. pose proof frame_PrepareJob.
  pose proof frame_ExecuteJob. pose proof frame_FinalizeJob.
  pose proof frame_InsertCodeIntoOptimizedCodeCache.
  unfold GetOptimizedCodeNow, RecordOptimizedCompilationStats. frame.
Qed.

Lemma frame_GetOptimizedCodeLater job : preserves R (GetOptimizedCodeLater ext job).
Proof.
  pose proof frame_parse_for_optimization. pose proof frame_PrepareJob.
  unfold GetOptimizedCodeLater, QueueForOptimization. frame.
Qed.

Lemma frame_Pipeline_NewCompilationJob f has_script :
  preserves R (Pipeline_NewCompilationJob f has_script).
Proof.
  pose proof frame_NewCompilationJob.
  unfold Pipeline_NewCompilationJob. frame.
Qed.

Lemma frame_GetOptimizedCode f mode osr frame :
  preserves R (GetOptimizedCode ext f mode osr frame).
Proof.
  pose proof frame_GetCodeFromOptimizedCodeCache.
  pose proof frame_Pipeline_NewCompilationJob.
  pose proof frame_CompilationInfo_AbortOptimization.
  pose proof frame_GetOptimizedCodeNow. pose proof frame_GetOptimizedCodeLater.
  unfold GetOptimizedCode, ClearOptimizationMarker, SetOptimizationMarker,
    clear_pending_exception.
  frame.
Qed.

Lemma frame_FinalizeOptimizedCompilationJob job :
  preserves R (FinalizeOptimizedCompilationJob ext job).
Proof.
  pose proof frame_RetryOptimization. pose proof frame_FinalizeJob.
  pose proof frame_InsertCodeIntoOptimizedCodeCache.
  unfold FinalizeOptimizedCompilationJob, RecordOptimizedCompilationStats,
    JSFunction_ReplaceCode, ClearOptimizationMarker.
  frame.
Qed.

Lemma frame_Compiler_CompileOptimized f mode :
  preserves R (Compiler_CompileOptimized ext f mode).
Proof.
  pose proof frame_GetOptimizedCode.
  unfold Compiler_CompileOptimized, JSFunction_ReplaceCode. frame.
Qed.

End FrameCompiler.

(** ** Choosing the unoptimized tier *)

Section UnoptimizedTier.

Variable ext : Collaborators.

Ltac bind_inv H :=
  match type of H with
  | bind ?m ?k ?iso = Ret _ =>
      let E := fresh "E" in
      unfold bind at 1 in H;
      destruct (m iso) as [[? ?]|] eqn:E; [|discriminate H]
  end.

Lemma NewCompilationJob_run b pi info st iso :
  NewCompilationJob b pi info st iso =
  Ret ({| parse_info := pi; compilation_info := info;
          isolate_thread_id_ := thread_id iso; backend := b; state := st;
          executed_on_background_thread_ := false |},
       set_jobs_created (S (jobs_created iso)) iso).
Proof. done. Qed.

Lemma ShouldUseFullCodegen_ignition lit iso :
  must_use_ignition lit = true -> ShouldUseFullCodegen lit iso = Ret (false, iso).
Proof. intros H. unfold ShouldUseFullCodegen. by rewrite H. Qed.

Lemma ShouldUseFullCodegen_asm lit iso :
  must_use_ignition lit = false ->
  IsResumableFunction (function_kind lit) = false ->
  asm_function (scope lit) = true ->
  ShouldUseFullCodegen lit iso = Ret (true, iso).
Proof.
  intros H1 H2 H3. unfold ShouldUseFullCodegen, bind, DCHECK.
  by rewrite H1, H2, H3.
Qed.

Lemma ShouldUseFullCodegen_stress lit iso :
  must_use_ignition lit = false ->
  IsResumableFunction (function_kind lit) = false ->
  asm_function (scope lit) = false ->
  ShouldUseFullCodegen lit iso = Ret (FLAG_stress_fullcodegen (flags iso), iso).
Proof.
  intros H1 H2 H3. unfold ShouldUseFullCodegen, bind, DCHECK.
  by rewrite H1, H2, H3.
Qed.

Lemma ShouldUseFullCodegen_inv lit iso full iso' :
  ShouldUseFullCodegen lit iso = Ret (full, iso') ->
  iso' = iso /\
  picked_by_rules iso lit (if full then FullCodeGenerator else Interpreter).
Proof.
  unfold ShouldUseFullCodegen, picked_by_rules, bind, DCHECK, get_isolate, ret.
  destruct (must_use_ignition lit); [intros [= <- <-]; naive_solver|].
  destruct (negb _); [|done].
  destruct (asm_function (scope lit)); [intros [= <- <-]; naive_solver|].
  intros [= <- <-]. split; [done|].
  destruct (FLAG_stress_fullcodegen (flags iso)); naive_solver.
Qed.

Lemma GetUnoptimizedCompilationJob_inv pi info iso job iso' :
  GetUnoptimizedCompilationJob pi info iso = Ret (job, iso') ->
  exists lit,
    literal info = Some lit /\
    picked_by_rules iso lit (backend job) /\
    compilation_info job = info /\ parse_info job = pi /\
    state job = kReadyToPrepare /\
    flags iso' = flags iso.
Proof.
  unfold GetUnoptimizedCompilationJob.
  destruct (literal info) as [lit|]; [|done]. intros H. exists lit.
  bind_inv H. apply ShouldUseFullCodegen_inv in E as [-> Hpick].
  destruct b; rewrite NewCompilationJob_run in H; injection H as <- <-; done.
Qed.

Lemma FinalizeUnoptimizedCompilationJob_backend job iso r iso' :
  FinalizeUnoptimizedCompilationJob ext job iso = Ret (r, iso') ->
  backend r.2 = backend job.
Proof.
  unfold FinalizeUnoptimizedCompilationJob.
  destruct (literal (compilation_info job)) as [lit|]; [|done]. intros H.
  bind_inv H. destruct (shared_info c) as [s|]; [|done].
  bind_inv H. bind_inv H. apply FinalizeJob_inv in E1 as (_ & _ & _ & _ & Hb & _).
  destruct p as [status job1]. simpl in *.
  destruct status.
  - bind_inv H. injection H as <- <-. done.
  - injection H as <- <-. done.
Qed.

Lemma RunUnoptimizedCompilationJob_backend job iso r iso' :
  RunUnoptimizedCompilationJob ext job iso = Ret (r, iso') ->
  backend r.2 = backend job.
Proof.
  unfold RunUnoptimizedCompilationJob. intros H.
  bind_inv H. apply PrepareJob_inv in E as (_ & _ & _ & Hb1 & _).
  destruct p as [st1 job1]. simpl in *.
  destruct (negb (bool_decide (st1 = SUCCEEDED))); [by injection H as <- <-|].
  bind_inv H. apply ExecuteJob_inv in E as (_ & _ & Hb2 & _).
  destruct p as [st2 job2]. simpl in *.
  destruct (negb (bool_decide (st2 = SUCCEEDED)));
    [injection H as <- <-; simpl; congruence|].
  bind_inv H. apply FinalizeUnoptimizedCompilationJob_backend in E.
  destruct p as [st3 job3]. simpl in *.
  injection H as <- <-. simpl. congruence.
Qed.

Lemma UseAsmWasm_inv sc si dbg iso b iso' :
  UseAsmWasm sc si dbg iso = Ret (b, iso') -> iso' = iso.
Proof.
  intros H. pose proof (frame_UseAsmWasm eq sc si dbg iso) as Hp.
  by rewrite H in Hp.
Qed.

Lemma same_flags_Run job iso r iso' :
  RunUnoptimizedCompilationJob ext job iso = Ret (r, iso') ->
  flags iso' = flags iso.
Proof.
  intros H.
  pose proof (frame_RunUnoptimizedCompilationJob ext (same_on flags)) as Hp.
  specialize (Hp ltac:(done) job iso). by rewrite H in Hp.
Qed.

Lemma FinalizeUnoptimizedCompilationJob_literal job iso r iso' :
  FinalizeUnoptimizedCompilationJob ext job iso = Ret (r, iso') ->
  literal (compilation_info r.2) = literal (compilation_info job).
Proof.
  unfold FinalizeUnoptimizedCompilationJob.
  destruct (literal (compilation_info job)) as [lit|] eqn:Hlit; [|done]. intros H.
  bind_inv H.
  assert (Hc : literal c = Some lit).
  { destruct (is_toplevel (parse_info job)); [|by injection E as <- <-].
    destruct (shared_info (compilation_info job)); [by injection E as <- <-|].
    bind_inv E. bind_inv E. by injection E as <- <-. }
  destruct (shared_info c) as [s|]; [|done].
  bind_inv H. bind_inv H.
  apply FinalizeJob_inv in E1 as (_ & _ & _ & _ & _ & _ & Hl & _).
  destruct p as [status job1]. simpl in *.
  destruct status.
  - bind_inv H. injection H as <- <-. simpl. congruence.
  - injection H as <- <-. simpl. congruence.
Qed.

Lemma RunUnoptimizedCompilationJob_literal job iso r iso' :
  RunUnoptimizedCompilationJob ext job iso = Ret (r, iso') ->
  literal (compilation_info r.2) = literal (compilation_info job).
Proof.
  unfold RunUnoptimizedCompilationJob. intros H.
  bind_inv H. apply PrepareJob_inv in E as (_ & _ & _ & _ & _ & Hl1 & _).
  destruct p as [st1 job1]. simpl in *.
  destruct (negb (bool_decide (st1 = SUCCEEDED))); [by injection H as <- <-|].
  bind_inv H. apply ExecuteJob_inv in E as (_ & _ & _ & _ & Hl2 & _).
  destruct p as [st2 job2]. simpl in *.
  destruct (negb (bool_decide (st2 = SUCCEEDED)));
    [injection H as <- <-; simpl; congruence|].
  bind_inv H. apply FinalizeUnoptimizedCompilationJob_literal in E.
  destruct p as [st3 job3]. simpl in *.
  injection H as <- <-. simpl. congruence.
Qed.

(** C2, as the code has it.  The rules are those of the job
    GetUnoptimizedCompilationJob builds: a literal that must use Ignition
    gets the bytecode interpreter; otherwise a literal whose scope is flagged
    asm_function gets full-codegen; otherwise full-codegen is used when the
    stress flag asks for it; otherwise the bytecode interpreter.  asm.js
    validation is not one of them: GenerateUnoptimizedCode tries it first,
    for every literal for which UseAsmWasm allows it, and when the validation
    job succeeds that job has compiled the function, whatever the rules
    would have picked.  GenerateUnoptimizedCode goes to the rules when
    validation is not attempted, and falls back to them, on the
    CompilationInfo the validator leaves, when the validation job fails; so
    the job it ends with is either a validation job that succeeded, and then
    validation was allowed, or the job the rules pick. *)
Theorem unoptimized_tier_rules_in_order
  (iso : Isolate) (pi : ParseInfo) (info : CompilationInfo) (lit : FunctionLiteral) :
  literal info = Some lit ->
  (must_use_ignition lit = true ->
   exists job iso',
     GetUnoptimizedCompilationJob pi info iso = Ret (job, iso') /\
     backend job = Interpreter) /\
  (must_use_ignition lit = false ->
   IsResumableFunction (function_kind lit) = false ->
   asm_function (scope lit) = true ->
   exists job iso',
     GetUnoptimizedCompilationJob pi info iso = Ret (job, iso') /\
     backend job = FullCodeGenerator) /\
  (must_use_ignition lit = false ->
   IsResumableFunction (function_kind lit) = false ->
   asm_function (scope lit) = false ->
   FLAG_stress_fullcodegen (flags iso) = true ->
   exists job iso',
     GetUnoptimizedCompilationJob pi info iso = Ret (job, iso') /\
     backend job = FullCodeGenerator) /\
  (must_use_ignition lit = false ->
   IsResumableFunction (function_kind lit) = false ->
   asm_function (scope lit) = false ->
   FLAG_stress_fullcodegen (flags iso) = false ->
   exists job iso',
     GetUnoptimizedCompilationJob pi info iso = Ret (job, iso') /\
     backend job = Interpreter) /\
  (UseAsmWasm (scope lit) (shared_info info) (is_debug info) iso = Ret (false, iso) ->
   GenerateUnoptimizedCode ext pi info iso =
   bind (GetUnoptimizedCompilationJob pi info) (RunUnoptimizedCompilationJob ext) iso) /\
  (UseAsmWasm (scope lit) (shared_info info) (is_debug info) iso = Ret (true, iso) ->
   forall job_a iso_a,
     bind (NewCompilationJob AsmJs pi info kReadyToPrepare)
       (RunUnoptimizedCompilationJob ext) iso = Ret ((false, job_a), iso_a) ->
     GenerateUnoptimizedCode ext pi info iso =
     bind (GetUnoptimizedCompilationJob pi (compilation_info job_a))
       (RunUnoptimizedCompilationJob ext) iso_a) /\
  (UseAsmWasm (scope lit) (shared_info info) (is_debug info) iso = Ret (true, iso) ->
   forall job_a iso_a,
     bind (NewCompilationJob AsmJs pi info kReadyToPrepare)
       (RunUnoptimizedCompilationJob ext) iso = Ret ((true, job_a), iso_a) ->
     GenerateUnoptimizedCode ext pi info iso = Ret ((true, job_a), iso_a) /\
     backend job_a = AsmJs) /\
  (forall ok job iso',
     GenerateUnoptimizedCode ext pi info iso = Ret ((ok, job), iso') ->
     (backend job = AsmJs /\ ok = true /\
      UseAsmWasm (scope lit) (shared_info info) (is_debug info) iso =
        Ret (true, iso)) \/
     (backend job <> AsmJs /\ picked_by_rules iso lit (backend job))).
Proof.
  intros Hlit.
  assert (Hjob : forall full,
    ShouldUseFullCodegen lit iso = Ret (full, iso) ->
    exists job iso',
      GetUnoptimizedCompilationJob pi info iso = Ret (job, iso') /\
      backend job = if full then FullCodeGenerator else Interpreter).
  { intros full Hfull. unfold GetUnoptimizedCompilationJob. rewrite Hlit.
    rewrite (bind_run _ _ _ _ _ Hfull).
    destruct full; rewrite NewCompilationJob_run; by do 2 eexists. }
  assert (Hnot_asm : forall b, picked_by_rules iso lit b -> b <> AsmJs).
  { intros b Hb ->.
    destruct Hb as [[_ ?]|[(_ & _ & ?)|[(_ & _ & _ & ?)|(_ & _ & _ & ?)]]]; done. }
  split; [|split; [|split; [|split; [|split; [|split; [|split]]]]]].
  - intros H. apply (Hjob false). by apply ShouldUseFullCodegen_ignition.
  - intros H1 H2 H3. apply (Hjob true). by apply ShouldUseFullCodegen_asm.
  - intros H1 H2 H3 H4. apply (Hjob true).
    by rewrite (ShouldUseFullCodegen_stress _ _ H1 H2 H3), H4.
  - intros H1 H2 H3 H4. apply (Hjob false).
    by rewrite (ShouldUseFullCodegen_stress _ _ H1 H2 H3), H4.
  - intros Huse. unfold GenerateUnoptimizedCode. rewrite Hlit.
    by rewrite (bind_run _ _ _ _ _ Huse).
  - intros Huse job_a iso_a Hasm. unfold GenerateUnoptimizedCode. rewrite Hlit.
    rewrite (bind_run _ _ _ _ _ Huse). simpl.
    unfold bind at 1 in Hasm. rewrite NewCompilationJob_run in Hasm.
    assert (Hinner :
      bind (NewCompilationJob AsmJs pi info kReadyToPrepare)
        (fun job => bind (RunUnoptimizedCompilationJob ext job)
                      (fun '(ok, job) => ret (Some (ok, job)))) iso
      = Ret (Some (false, job_a), iso_a)).
    { unfold bind at 1. rewrite NewCompilationJob_run.
      by rewrite (bind_run _ _ _ _ _ Hasm). }
    by rewrite (bind_run _ _ _ _ _ Hinner).
  - intros Huse job_a iso_a Hasm. unfold GenerateUnoptimizedCode. rewrite Hlit.
    rewrite (bind_run _ _ _ _ _ Huse). simpl.
    unfold bind at 1 in Hasm. rewrite NewCompilationJob_run in Hasm.
    pose proof (RunUnoptimizedCompilationJob_backend _ _ _ _ Hasm) as Hb.
    simpl in Hb. split; [|done].
    assert (Hinner :
      bind (NewCompilationJob AsmJs pi info kReadyToPrepare)
        (fun job => bind (RunUnoptimizedCompilationJob ext job)
                      (fun '(ok, job) => ret (Some (ok, job)))) iso
      = Ret (Some (true, job_a), iso_a)).
    { unfold bind at 1. rewrite NewCompilationJob_run.
      by rewrite (bind_run _ _ _ _ _ Hasm). }
    by rewrite (bind_run _ _ _ _ _ Hinner).
  - intros ok job iso' H. unfold GenerateUnoptimizedCode in H. rewrite Hlit in H.
    bind_inv H. pose proof E as Huse. apply UseAsmWasm_inv in E as ->.
    destruct b.
    + unfold bind at 1 in H.
      destruct (bind (NewCompilationJob AsmJs pi info kReadyToPrepare) _ iso)
        as [[asm iso_a]|] eqn:Hasm; [|done].
      unfold bind at 1 in Hasm. rewrite NewCompilationJob_run in Hasm.
      unfold bind at 1 in Hasm.
      destruct (RunUnoptimizedCompilationJob ext _ _)
        as [[[ok_a job_a] iso_r]|] eqn:Hrun; [|done].
      injection Hasm as <- <-.
      pose proof (RunUnoptimizedCompilationJob_backend _ _ _ _ Hrun) as Hb.
      pose proof (RunUnoptimizedCompilationJob_literal _ _ _ _ Hrun) as Hl.
      pose proof (same_flags_Run _ _ _ _ Hrun) as Hfl. simpl in Hb, Hl, Hfl.
      destruct ok_a.
      * injection H as <- <- <-. by left.
      * bind_inv H.
        apply GetUnoptimizedCompilationJob_inv in E
          as (lit' & Hlit' & Hpick & _ & _ & _ & _).
        apply RunUnoptimizedCompilationJob_backend in H. simpl in H.
        right. rewrite H. rewrite Hl, Hlit in Hlit'. injection Hlit' as <-.
        assert (picked_by_rules iso lit (backend c)) as Hp
          by (unfold picked_by_rules in *; by rewrite Hfl in Hpick).
        split; [by apply Hnot_asm|done].
    + bind_inv H. injection E as <- <-. bind_inv H.
      apply GetUnoptimizedCompilationJob_inv in E
        as (lit' & Hlit' & Hpick & _ & _ & _ & _).
      apply RunUnoptimizedCompilationJob_backend in H. simpl in H.
      right. rewrite H. rewrite Hlit in Hlit'. injection Hlit' as <-.
      split; [by apply Hnot_asm|done].
Qed.

End UnoptimizedTier.

(** On the concrete isolate: a literal of an asm module is given to
    full-codegen, and GenerateUnoptimizedCode compiles it with that job; for
    the module function itself validation is tried first, fails in the
    concrete back end, and the fallback compiles it with the interpreter;
    with a validator that accepts the module, the validation job compiles
    it. *)
Lemma unoptimized_tier_rules_in_order_witness :
  (exists job iso',
     GetUnoptimizedCompilationJob (Demo.function_parse_info Demo.asm_literal)
       (Demo.baseline_info Demo.asm_literal) Demo.iso = Ret (job, iso') /\
     backend job = FullCodeGenerator) /\
  (exists job iso',
     GenerateUnoptimizedCode Demo.ext (Demo.function_parse_info Demo.asm_literal)
       (Demo.baseline_info Demo.asm_literal) Demo.iso = Ret ((true, job), iso') /\
     picked_by_rules Demo.iso Demo.asm_literal (backend job)) /\
  (exists job iso',
     GenerateUnoptimizedCode Demo.ext
       (Demo.function_parse_info Demo.asm_module_literal)
       (Demo.baseline_info Demo.asm_module_literal) Demo.iso =
       Ret ((true, job), iso') /\
     backend job = Interpreter) /\
  (exists job iso',
     GenerateUnoptimizedCode DemoAsm.ext
       (Demo.function_parse_info Demo.asm_module_literal)
       (Demo.baseline_info Demo.asm_module_literal) Demo.iso =
       Ret ((true, job), iso') /\
     backend job = AsmJs).
Proof.
  pose proof (unoptimized_tier_rules_in_order Demo.ext Demo.iso
                (Demo.function_parse_info Demo.asm_literal)
                (Demo.baseline_info Demo.asm_literal) Demo.asm_literal eq_refl)
    as (_ & Hasm & _ & _ & _ & _ & _ & Hgen).
  split; [exact (Hasm eq_refl eq_refl eq_refl)|].
  split.
  { destruct (GenerateUnoptimizedCode Demo.ext
                (Demo.function_parse_info Demo.asm_literal)
                (Demo.baseline_info Demo.asm_literal) Demo.iso)
      as [[[ok job] iso']|] eqn:Hrun; [|by vm_compute in Hrun].
    destruct (Hgen ok job iso' eq_refl) as [(Hb & Hok & _)|[_ Hpick]].
    - vm_compute in Hrun. injection Hrun as <- <- <-. discriminate Hb.
    - exists job, iso'. split; [|done].
      vm_compute in Hrun. by injection Hrun as <- <- <-. }
  split; [vm_compute; by do 2 eexists|].
  pose proof (unoptimized_tier_rules_in_order DemoAsm.ext Demo.iso
                (Demo.function_parse_info Demo.asm_module_literal)
                (Demo.baseline_info Demo.asm_module_literal)
                Demo.asm_module_literal eq_refl)
    as (_ & _ & _ & _ & _ & _ & Hvalid & _).
  destruct (bind (NewCompilationJob AsmJs
                    (Demo.function_parse_info Demo.asm_module_literal)
                    (Demo.baseline_info Demo.asm_module_literal) kReadyToPrepare)
              (RunUnoptimizedCompilationJob DemoAsm.ext) Demo.iso)
    as [[[ok job_a] iso_a]|] eqn:Hrun; [|by vm_compute in Hrun].
  destruct ok; [|by vm_compute in Hrun].
  exists job_a, iso_a. exact (Hvalid eq_refl job_a iso_a eq_refl).
Defined.

(** C2 as stated fails for the function that opens an asm module: line 445
    tries validation before any rule is looked at.  A literal that must use
    Ignition is compiled by the validation job, not by the interpreter, when
    the validator accepts it; and a validated module is compiled by the
    validation job, not by full-codegen. *)
Lemma validated_module_is_compiled_by_the_validator :
  ~ (forall ext iso pi info lit ok job iso',
       literal info = Some lit ->
       must_use_ignition lit = true ->
       GenerateUnoptimizedCode ext pi info iso = Ret ((ok, job), iso') ->
       backend job = Interpreter) /\
  ~ (forall ext iso pi info lit job_a iso_a job iso',
       literal info = Some lit ->
       must_use_ignition lit = false ->
       bind (NewCompilationJob AsmJs pi info kReadyToPrepare)
         (RunUnoptimizedCompilationJob ext) iso = Ret ((true, job_a), iso_a) ->
       GenerateUnoptimizedCode ext pi info iso = Ret ((true, job), iso') ->
       backend job = FullCodeGenerator).
Proof.
  split.
  - intros H.
    destruct (GenerateUnoptimizedCode DemoAsm.ext
                (Demo.function_parse_info DemoAsm.ignition_module_literal)
                (Demo.baseline_info DemoAsm.ignition_module_literal) Demo.iso)
      as [[[ok job] iso']|] eqn:Hrun; [|by vm_compute in Hrun].
    pose proof (H DemoAsm.ext Demo.iso
                  (Demo.function_parse_info DemoAsm.ignition_module_literal)
                  (Demo.baseline_info DemoAsm.ignition_module_literal)
                  DemoAsm.ignition_module_literal ok job iso' eq_refl eq_refl Hrun)
      as Hb.
    vm_compute in Hrun. injection Hrun as _ <- _. discriminate Hb.
  - intros H.
    destruct (GenerateUnoptimizedCode DemoAsm.ext
                (Demo.function_parse_info Demo.asm_module_literal)
                (Demo.baseline_info Demo.asm_module_literal) Demo.iso)
      as [[[ok job] iso']|] eqn:Hrun; [|by vm_compute in Hrun].
    destruct ok; [|by vm_compute in Hrun].
    destruct (bind (NewCompilationJob AsmJs
                      (Demo.function_parse_info Demo.asm_module_literal)
                      (Demo.baseline_info Demo.asm_module_literal) kReadyToPrepare)
                (RunUnoptimizedCompilationJob DemoAsm.ext) Demo.iso)
      as [[[ok_a job_a] iso_a]|] eqn:Hasm; [|by vm_compute in Hasm].
    destruct ok_a; [|by vm_compute in Hasm].
    pose proof (H DemoAsm.ext Demo.iso
                  (Demo.function_parse_info Demo.asm_module_literal)
                  (Demo.baseline_info Demo.asm_module_literal)
                  Demo.asm_module_literal job_a iso_a job iso' eq_refl eq_refl
                  Hasm Hrun)
      as Hb.
    vm_compute in Hrun. injection Hrun as <- _. discriminate Hb.
Qed.

(** ** What an optimizing compile leaves alone *)

#[global] Instance same_code_installed_preorder : PreOrder same_code_installed.
Proof.
  split; [by intros iso|].
  intros a b c [Hab1 Hab2] [Hbc1 Hbc2]. split; intros x.
  - by rewrite Hbc1, Hab1.
  - by rewrite Hbc2, Hab2.
Qed.

Tactic Notation "bind_inv" hyp(H) "as" simple_intropattern(a) ident(i) ident(E) :=
  match type of H with
  | bind ?m ?k ?iso = Ret _ =>
      unfold bind at 1 in H;
      destruct (m iso) as [[a i]|] eqn:E; [|discriminate H]
  end.

Lemma DCHECK_inv b iso u iso' :
  DCHECK b iso = Ret (u, iso') -> b = true /\ iso' = iso.
Proof. unfold DCHECK. destruct b; [by intros [= <-]|done]. Qed.

Lemma get_function_inv f iso fn iso' :
  get_function f iso = Ret (fn, iso') -> functions iso !! f = Some fn /\ iso' = iso.
Proof.
  unfold get_function, deref. destruct (functions iso !! f); [|done].
  by intros [= <- <-].
Qed.

Lemma get_shared_inv s iso sh iso' :
  get_shared s iso = Ret (sh, iso') -> shared_infos iso !! s = Some sh /\ iso' = iso.
Proof.
  unfold get_shared, deref. destruct (shared_infos iso !! s); [|done].
  by intros [= <- <-].
Qed.

Lemma EnsureFeedbackMetadata_inv ext info iso u iso' :
  EnsureFeedbackMetadata ext info iso = Ret (u, iso') ->
  iso' = iso /\
  exists s lit sh,
    shared_info info = Some s /\ literal info = Some lit /\
    shared_infos iso !! s = Some sh /\
    SpecDiffersFrom ext iso s lit = false.
Proof.
  unfold EnsureFeedbackMetadata, CHECK. intros H.
  bind_inv H as u0 i E. apply DCHECK_inv in E as [_ ->].
  destruct (shared_info info) as [s|]; [|done].
  destruct (literal info) as [lit|]; [|done].
  bind_inv H as sh i E. apply get_shared_inv in E as [Hs ->].
  bind_inv H as i0 i E. injection E as <- <-.
  apply DCHECK_inv in H as [Hfit ->]. split; [done|].
  exists s, lit, sh. by rewrite negb_true_iff in Hfit.
Qed.

Lemma update_function_inv f upd iso u iso' :
  update_function f upd iso = Ret (u, iso') ->
  exists fn, functions iso !! f = Some fn /\
    iso' = set_functions (<[f := upd fn]> (functions iso)) iso.
Proof.
  unfold update_function. intros H. bind_inv H as fn i E.
  apply get_function_inv in E as [Hf ->]. exists fn. by injection H as <-.
Qed.

Lemma same_target_trans a b c :
  same_target a b -> same_target b c -> same_target a c.
Proof.
  intros (H1 & H2 & H3 & H4) (H5 & H6 & H7 & H8).
  repeat split; congruence.
Qed.

Lemma preserves_elim {A} R (m : M A) iso a iso' :
  preserves R m -> m iso = Ret (a, iso') -> R iso iso'.
Proof. intros Hp H. specialize (Hp iso). by rewrite H in Hp. Qed.

Lemma lookup_untouched f o iso r iso' :
  GetCodeFromOptimizedCodeCache f o iso = Ret (r, iso') ->
  functions iso' = functions iso /\ shared_infos iso' = shared_infos iso /\
  has_pending_exception iso' = has_pending_exception iso.
Proof.
  intros H. repeat split.
  - eapply (preserves_elim (same_on functions)); [|exact H].
    by apply frame_GetCodeFromOptimizedCodeCache; try exact _.
  - eapply (preserves_elim (same_on shared_infos)); [|exact H].
    by apply frame_GetCodeFromOptimizedCodeCache; try exact _.
  - eapply (preserves_elim (same_on has_pending_exception)); [|exact H].
    by apply frame_GetCodeFromOptimizedCodeCache; try exact _.
Qed.

Lemma update_feedback_vector_untouched f upd iso r iso' :
  update_feedback_vector f upd iso = Ret (r, iso') ->
  functions iso' = functions iso /\ shared_infos iso' = shared_infos iso /\
  has_pending_exception iso' = has_pending_exception iso.
Proof.
  intros H. repeat split.
  - eapply (preserves_elim (same_on functions)); [|exact H].
    by apply preserves_update_feedback_vector; try exact _.
  - eapply (preserves_elim (same_on shared_infos)); [|exact H].
    by apply preserves_update_feedback_vector; try exact _.
  - eapply (preserves_elim (same_on has_pending_exception)); [|exact H].
    by apply preserves_update_feedback_vector; try exact _.
Qed.

Lemma AbortOptimization_untouched reason info iso r iso' :
  CompilationInfo_AbortOptimization reason info iso = Ret (r, iso') ->
  functions iso' = functions iso /\
  has_pending_exception iso' = has_pending_exception iso /\
  input_queue iso' = input_queue iso /\
  r = set_disable_future_optimization true (set_bailout_reason reason info).
Proof.
  intros H. repeat split.
  - eapply (preserves_elim (same_on functions)); [|exact H].
    by apply frame_CompilationInfo_AbortOptimization; try exact _.
  - eapply (preserves_elim (same_on has_pending_exception)); [|exact H].
    by apply frame_CompilationInfo_AbortOptimization; try exact _.
  - eapply (preserves_elim (same_on input_queue)); [|exact H].
    by apply frame_CompilationInfo_AbortOptimization; try exact _.
  - unfold CompilationInfo_AbortOptimization in H.
    bind_inv H as u i E. by injection H as <- <-.
Qed.

Section CompileUntouched.

Variable ext : Collaborators.

Lemma GetOptimizedCodeLater_untouched job iso r iso' :
  GetOptimizedCodeLater ext job iso = Ret (r, iso') ->
  functions iso' = functions iso /\ shared_infos iso' = shared_infos iso.
Proof.
  intros H. split.
  - eapply (preserves_elim (same_on functions)); [|exact H].
    by apply frame_GetOptimizedCodeLater; try exact _.
  - eapply (preserves_elim (same_on shared_infos)); [|exact H].
    by apply frame_GetOptimizedCodeLater; try exact _.
Qed.

Lemma GetOptimizedCodeNow_untouched job iso r iso' :
  GetOptimizedCodeNow ext job iso = Ret (r, iso') ->
  functions iso' = functions iso /\ shared_infos iso' = shared_infos iso /\
  input_queue iso' = input_queue iso /\ jobs_created iso' = jobs_created iso.
Proof.
  intros H. repeat split.
  - eapply (preserves_elim (same_on functions)); [|exact H].
    by apply frame_GetOptimizedCodeNow; try exact _.
  - eapply (preserves_elim (same_on shared_infos)); [|exact H].
    by apply frame_GetOptimizedCodeNow; try exact _.
  - eapply (preserves_elim (same_on input_queue)); [|exact H].
    by apply frame_GetOptimizedCodeNow; try exact _.
  - eapply (preserves_elim (same_on jobs_created)); [|exact H].
    by apply frame_GetOptimizedCodeNow; try exact _.
Qed.

Lemma Insert_untouched info iso r iso' :
  InsertCodeIntoOptimizedCodeCache info iso = Ret (r, iso') ->
  functions iso' = functions iso /\ shared_infos iso' = shared_infos iso /\
  has_pending_exception iso' = has_pending_exception iso.
Proof.
  intros H. repeat split.
  - eapply (preserves_elim (same_on functions)); [|exact H].
    by apply frame_InsertCodeIntoOptimizedCodeCache; try exact _.
  - eapply (preserves_elim (same_on shared_infos)); [|exact H].
    by apply frame_InsertCodeIntoOptimizedCodeCache; try exact _.
  - eapply (preserves_elim (same_on has_pending_exception)); [|exact H].
    by apply frame_InsertCodeIntoOptimizedCodeCache; try exact _.
Qed.

End CompileUntouched.

Section OptimizingCompile.

Variable ext : Collaborators.
Variable osr : BailoutId.
Context (R : Isolate -> Isolate -> Prop) `{!PreOrder R}.

Hypothesis R_marker : forall iso f fn m,
  functions iso !! f = Some fn ->
  R iso (set_functions (<[f := set_optimization_marker m fn]> (functions iso)) iso).
Hypothesis R_lookup : forall f, preserves R (GetCodeFromOptimizedCodeCache f osr).
Hypothesis R_ticks : forall f, preserves R (update_feedback_vector f (set_profiler_ticks 0)).
Hypothesis R_abort : forall reason info,
  preserves R (CompilationInfo_AbortOptimization reason info).
Hypothesis R_insert : forall info,
  osr_ast_id info = osr -> preserves R (InsertCodeIntoOptimizedCodeCache info).
Hypothesis R_pending : forall iso b, R iso (set_has_pending_exception b iso).
Hypothesis R_queue : forall iso q, R iso (set_input_queue q iso).
Hypothesis R_created : forall iso n, R iso (set_jobs_created n iso).

Lemma Compiler_ParseAndAnalyze_post pi si iso r iso' :
  Compiler_ParseAndAnalyze ext pi si iso = Ret (r, iso') -> R iso iso'.
Proof.
  unfold Compiler_ParseAndAnalyze, bind, get_isolate, modify. simpl.
  destruct (ParseAny ext iso pi si) as [[pi'|] thrown].
  - unfold Compiler_Analyze, bind, DCHECK, ret.
    destruct (bool_decide _); [|done].
    destruct (negb (Rewriter_Rewrite ext pi')); [intros [= <- <-]; apply R_pending|].
    destruct (negb (Renumber ext pi')); intros [= <- <-]; apply R_pending.
  - intros [= <- <-]. apply R_pending.
Qed.

Lemma parse_for_optimization_post job iso r iso' :
  parse_for_optimization ext job iso = Ret (r, iso') ->
  R iso iso' /\
  match r with
  | Some job' =>
      same_target (compilation_info job) (compilation_info job') /\
      state job' = state job
  | None => True
  end.
Proof.
  unfold parse_for_optimization.
  destruct (negb (is_optimizing_from_bytecode (compilation_info job))).
  - intros H. bind_inv H as [ok pi] i E.
    apply Compiler_ParseAndAnalyze_post in E.
    destruct (negb ok); [by injection H as <- <-|].
    bind_inv H as u i1 E1. apply EnsureFeedbackMetadata_inv in E1 as [-> _].
    injection H as <- <-. done.
  - intros [= <- <-]. split; [reflexivity|done].
Qed.

Lemma GetOptimizedCodeLater_post job iso ok job' iso' :
  GetOptimizedCodeLater ext job iso = Ret ((ok, job'), iso') ->
  R iso iso' /\
  same_target (compilation_info job) (compilation_info job').
Proof.
  unfold GetOptimizedCodeLater. intros H.
  bind_inv H as i0 i E. injection E as <- <-.
  destruct (negb (IsQueueAvailable iso)); [injection H as <- <- <-; by split|].
  destruct (HighMemoryPressure iso); [injection H as <- <- <-; by split|].
  bind_inv H as parsed i1 E. apply parse_for_optimization_post in E as [HR Hp].
  destruct parsed as [job1|]; [|injection H as <- <- <-; by split].
  destruct Hp as [Ht1 _].
  bind_inv H as [st1 job2] i2 E.
  apply PrepareJob_inv in E as (-> & _ & _ & _ & Ht2 & _). simpl in *.
  pose proof (same_target_trans _ _ _ Ht1 Ht2) as Ht.
  destruct (negb (bool_decide (st1 = SUCCEEDED))); [by injection H as <- <- <-|].
  bind_inv H as u i3 E. unfold QueueForOptimization, modify in E.
  injection E as <- <-. injection H as <- <- <-.
  split; [|done]. transitivity i1; [done|]. apply R_queue.
Qed.

Lemma GetOptimizedCodeNow_post job iso ok job' iso' :
  osr_ast_id (compilation_info job) = osr ->
  GetOptimizedCodeNow ext job iso = Ret ((ok, job'), iso') ->
  R iso iso' /\
  same_target (compilation_info job) (compilation_info job') /\
  (ok = true ->
   exists i,
     has_pending_exception i = false /\
     InsertCodeIntoOptimizedCodeCache (compilation_info job') i = Ret (tt, iso')).
Proof.
  intros Hosr. unfold GetOptimizedCodeNow. intros H.
  bind_inv H as parsed i1 E. apply parse_for_optimization_post in E as [HR Hp].
  destruct parsed as [job1|];
    [|injection H as <- <- <-; split; [done|split; [done|discriminate]]].
  destruct Hp as [Ht1 _].
  bind_inv H as [st1 job2] i2 E.
  apply PrepareJob_inv in E as (-> & _ & _ & _ & Ht2 & _). simpl in *.
  pose proof (same_target_trans _ _ _ Ht1 Ht2) as Ht12.
  destruct (negb (bool_decide (st1 = SUCCEEDED)));
    [injection H as <- <- <-; split; [done|split; [done|discriminate]]|].
  bind_inv H as [st2 job3] i3 E.
  apply ExecuteJob_inv in E as (-> & _ & _ & Ht3 & _). simpl in *.
  pose proof (same_target_trans _ _ _ Ht12 Ht3) as Ht13.
  destruct (negb (bool_decide (st2 = SUCCEEDED)));
    [injection H as <- <- <-; split; [done|split; [done|discriminate]]|].
  bind_inv H as [st3 job4] i4 E.
  apply FinalizeJob_inv in E as (-> & _ & _ & _ & _ & Ht4 & _). simpl in *.
  pose proof (same_target_trans _ _ _ Ht13 Ht4) as Ht14.
  destruct (negb (bool_decide (st3 = SUCCEEDED)));
    [injection H as <- <- <-; split; [done|split; [done|discriminate]]|].
  bind_inv H as u1 i5 E. apply DCHECK_inv in E as [_ ->].
  bind_inv H as i6 i7 E. injection E as <- <-.
  bind_inv H as u2 i8 E. apply DCHECK_inv in E as [Hpend ->].
  bind_inv H as u3 i9 E. injection H as <- <- <-. destruct u3.
  split; [|split; [done|]].
  - transitivity i1; [done|].
    pose proof (R_insert (compilation_info job4)) as Hins.
    destruct Ht14 as (_ & _ & Hosr4 & _).
    specialize (Hins ltac:(congruence) i1). by rewrite E in Hins.
  - intros _. exists i1. split; [|done].
    by destruct (has_pending_exception i1).
Qed.

Lemma marker_none_eta fn :
  HasOptimizationMarker fn = false -> set_optimization_marker kNone fn = fn.
Proof.
  unfold HasOptimizationMarker. destruct fn as [sh c cell m]. simpl.
  case_bool_decide; [|done]. by subst.
Qed.

(** What GetOptimizedCode leaves behind.  Whatever it returns, the isolate
    is [R]-related to the one it started from; and when it returns no code,
    no exception is pending, the closure carries no optimization marker, and
    the descriptor passed the is_compiled assertion in an isolate [i_l] with
    the descriptors of the start. *)
Lemma GetOptimizedCode_post f mode frame iso result dj iso' :
  GetOptimizedCode ext f mode osr frame iso = Ret ((result, dj), iso') ->
  R iso iso' /\
  (result = None ->
   has_pending_exception iso' = false /\
   exists fn sh i_l,
     functions iso !! f = Some fn /\
     functions iso' !! f = Some (set_optimization_marker kNone fn) /\
     R i_l iso' /\ shared_infos i_l = shared_infos iso /\
     shared_infos i_l !! shared fn = Some sh /\ sfi_is_compiled sh = true).
Proof.
  unfold GetOptimizedCode. intros H.
  bind_inv H as fn i E. apply get_function_inv in E as [Hf ->].
  bind_inv H as i0 i E. injection E as <- <-.
  bind_inv H as u i E. apply DCHECK_inv in E as [_ ->].
  bind_inv H as u' i E. apply DCHECK_inv in E as [_ ->].
  bind_inv H as u'' i_c E.
  assert (Hc : R iso i_c /\
               functions i_c !! f = Some (set_optimization_marker kNone fn) /\
               shared_infos i_c = shared_infos iso).
  { destruct (HasOptimizationMarker fn) eqn:Hm.
    - apply update_function_inv in E as (fn' & Hf' & ->).
      rewrite Hf in Hf'. injection Hf' as <-.
      split; [by apply R_marker|]. simpl. by rewrite lookup_insert_eq.
    - unfold ret in E. injection E as <- <-. rewrite (marker_none_eta _ Hm).
      split; [reflexivity|by split]. }
  clear E. destruct Hc as (HRc & Hfc & Hsc).
  bind_inv H as cached i_l E.
  pose proof (preserves_elim _ _ _ _ _ (R_lookup f) E) as HRl.
  apply lookup_untouched in E as (Hfl & Hsl & Hpl).
  assert (HR1 : R iso i_l) by by transitivity i_c.
  destruct cached as [c|]; [by injection H as <- <- <-|].
  bind_inv H as sh i E. apply get_shared_inv in E as [Hs ->].
  bind_inv H as u1 i E. apply DCHECK_inv in E as [Hcomp ->].
  bind_inv H as u2 i_t E.
  pose proof (preserves_elim _ _ _ _ _ (R_ticks f) E) as HRt.
  apply update_feedback_vector_untouched in E as (Hft & Hst & Hpt).
  bind_inv H as i1 i E. injection E as <- <-.
  bind_inv H as u3 i E. apply DCHECK_inv in E as [Hpend ->].
  bind_inv H as u4 i E. apply DCHECK_inv in E as [_ ->].
  bind_inv H as job0 i_j E.
  unfold Pipeline_NewCompilationJob in E.
  bind_inv E as fn0 i E0. apply get_function_inv in E0 as [Hf0 ->].
  rewrite NewCompilationJob_run in E. injection E as <- <-. simpl in H.
  set (i_j := set_jobs_created (S (jobs_created i_t)) i_t) in *.
  assert (HRj : R i_l i_j) by (transitivity i_t; [done|apply R_created]).
  assert (Hfj : functions i_j !! f = Some (set_optimization_marker kNone fn)).
  { subst i_j. simpl. by rewrite Hft, Hfl. }
  assert (Hpj : has_pending_exception i_j = false).
  { subst i_j. simpl. by destruct (has_pending_exception i_t). }
  assert (Hknown : forall i,
            R i_j i -> functions i = functions i_j ->
            has_pending_exception i = false ->
            R iso i /\
            (@None Code = None ->
             has_pending_exception i = false /\
             exists fn sh i_l,
               functions iso !! f = Some fn /\
               functions i !! f = Some (set_optimization_marker kNone fn) /\
               R i_l i /\ shared_infos i_l = shared_infos iso /\
               shared_infos i_l !! shared fn = Some sh /\
               sfi_is_compiled sh = true)).
  { intros i HRi Hfi Hpi. split; [by do 2 (etransitivity; [eassumption|])|].
    intros _. split; [done|]. exists fn, sh, i_l.
    split; [done|]. split; [by rewrite Hfi|].
    split; [by transitivity i_j|]. split; [congruence|]. done. }
  bind_inv H as info_sh i E. apply get_shared_inv in E as [_ ->].
  destruct (HasBreakInfo info_sh).
  { bind_inv H as info' i E. injection H as <- <- <-.
    pose proof (preserves_elim _ _ _ _ _ (R_abort _ _) E) as HRa.
    apply AbortOptimization_untouched in E as (Hfa & Hpa & _).
    apply Hknown; [done|done|congruence]. }
  destruct (optimization_disabled sh && _).
  { bind_inv H as info' i E. injection H as <- <- <-.
    pose proof (preserves_elim _ _ _ _ _ (R_abort _ _) E) as HRa.
    apply AbortOptimization_untouched in E as (Hfa & Hpa & _).
    apply Hknown; [done|done|congruence]. }
  destruct (negb (FLAG_opt (flags i_t)) || _).
  { bind_inv H as info' i E. injection H as <- <- <-.
    pose proof (preserves_elim _ _ _ _ _ (R_abort _ _) E) as HRa.
    apply AbortOptimization_untouched in E as (Hfa & Hpa & _).
    apply Hknown; [done|done|congruence]. }
  bind_inv H as u5 i E. apply DCHECK_inv in E as [_ ->].
  bind_inv H as u6 i E. apply DCHECK_inv in E as [_ ->].
  bind_inv H as attempt i_a E.
  assert (Hfailed : forall job i,
            R i_j i -> functions i = functions i_j ->
            (let* iso := get_isolate in
             (if has_pending_exception iso
              then modify clear_pending_exception else ret ());;;
             ret (@None Code, Some job)) i = Ret ((result, dj), iso') ->
            R iso iso' /\
            (result = None ->
             has_pending_exception iso' = false /\
             exists fn sh i_l,
               functions iso !! f = Some fn /\
               functions iso' !! f = Some (set_optimization_marker kNone fn) /\
               R i_l iso' /\ shared_infos i_l = shared_infos iso /\
               shared_infos i_l !! shared fn = Some sh /\
               sfi_is_compiled sh = true)).
  { intros job i HRi Hfi Hrun. unfold bind, get_isolate in Hrun.
    destruct (has_pending_exception i) eqn:Hp; injection Hrun as <- <- <-.
    - apply Hknown; [|done|done]. transitivity i; [done|apply R_pending].
    - by apply Hknown. }
  destruct mode.
  - bind_inv E as [ok job'] i_n E0.
    match type of E0 with
    | GetOptimizedCodeNow _ ?j _ = _ =>
        assert (Hosr : osr_ast_id (compilation_info j) = osr)
          by by destruct (sfi_has_bytecode_array sh)
    end.
    pose proof (GetOptimizedCodeNow_post _ _ _ _ _ Hosr E0) as (HRn & _ & Hok).
    apply GetOptimizedCodeNow_untouched in E0 as (Hfn & _).
    destruct ok.
    + injection E as <- <-. injection H as <- <- <-.
      destruct (Hok eq_refl) as (i_p & Hpp & Hins).
      apply Insert_untouched in Hins as (_ & _ & Hpi).
      split; [by do 2 (etransitivity; [eassumption|])|].
      intros Hnone. destruct (Hknown i_n HRn Hfn ltac:(congruence)) as [_ Hk].
      by apply Hk.
    + injection E as <- <-. by apply (Hfailed job' i_n).
  - bind_inv E as [ok job'] i_q E0.
    pose proof (GetOptimizedCodeLater_post _ _ _ _ _ E0) as (HRq & _).
    apply GetOptimizedCodeLater_untouched in E0 as (Hfq & _).
    destruct ok.
    + bind_inv E as u7 i_m E1.
      apply update_function_inv in E1 as (fn1 & Hf1 & ->).
      bind_inv E as fn2 i E2. apply get_function_inv in E2 as [_ ->].
      assert (result <> None /\ iso' =
                set_functions
                  (<[f := set_optimization_marker kInOptimizationQueue fn1]>
                     (functions i_q)) i_q) as [Hres ->].
      { destruct (is_interpreter_trampoline_builtin ext (fn_code fn2));
          injection E as <- <-; by injection H as <- <- <-. }
      split; [|done].
      transitivity i_q; [by do 2 (etransitivity; [eassumption|])|].
      by apply R_marker.
    + injection E as <- <-. by apply (Hfailed job' i_q).
Qed.

End OptimizingCompile.

(** ** OSR compiles and the cache *)

Section OsrIsolation.

Variable ext : Collaborators.

Lemma preserves_mono {A} (R R' : Isolate -> Isolate -> Prop) (m : M A) :
  (forall a b, R a b -> R' a b) -> preserves R m -> preserves R' m.
Proof.
  intros HR Hp iso. specialize (Hp iso).
  destruct (m iso) as [[a iso']|]; [by apply HR|done].
Qed.

Lemma same_cache_Insert_osr info id :
  osr_ast_id info = Some id ->
  preserves same_cache (InsertCodeIntoOptimizedCodeCache info).
Proof.
  intros Hosr. apply (preserves_mono eq); [by intros a b <-|].
  by apply (Insert_osr_unchanged _ id).
Qed.

Lemma same_cache_lookup_osr f id :
  preserves same_cache (GetCodeFromOptimizedCodeCache f (Some id)).
Proof.
  intros iso. unfold GetCodeFromOptimizedCodeCache, bind. simpl.
  by destruct (get_function f iso) as [[fn i]|] eqn:E;
    [apply get_function_inv in E as [_ ->]|].
Qed.

Lemma same_cache_GetOptimizedCode_osr f mode id frame :
  preserves same_cache (GetOptimizedCode ext f mode (Some id) frame).
Proof.
  intros iso.
  destruct (GetOptimizedCode ext f mode (Some id) frame iso)
    as [[[result dj] iso']|] eqn:H; [|done].
  eapply (GetOptimizedCode_post ext (Some id) same_cache); [..|exact H]; try done.
  - intros f0. apply same_cache_lookup_osr.
  - intros f0. by apply same_cache_update_feedback_vector.
  - intros reason info. by apply frame_CompilationInfo_AbortOptimization; try exact _.
  - intros info Hosr. by apply (same_cache_Insert_osr _ id).
Qed.

Lemma same_cache_Finalize_osr job id :
  osr_ast_id (compilation_info job) = Some id ->
  preserves same_cache (FinalizeOptimizedCompilationJob ext job).
Proof.
  intros Hosr iso.
  destruct (FinalizeOptimizedCompilationJob ext job iso)
    as [[[status job'] iso']|] eqn:H; [|done].
  unfold FinalizeOptimizedCompilationJob in H.
  destruct (closure (compilation_info job)) as [f|]; [|done].
  destruct (shared_info (compilation_info job)) as [s|]; [|done].
  bind_inv H as u i_t E.
  pose proof (preserves_elim _ _ _ _ _
                (same_cache_update_feedback_vector f (set_profiler_ticks 0)
                   ltac:(done)) E) as HRt. clear E.
  bind_inv H as sh i E. apply get_shared_inv in E as [_ ->].
  bind_inv H as u1 i E. apply DCHECK_inv in E as [_ ->].
  bind_inv H as finished i_f E.
  assert (Htail : forall i job0,
            same_cache iso i ->
            (DCHECK (bool_decide (state job0 = kFailed));;;
             let* sh0 := get_shared s in
             JSFunction_ReplaceCode f (sfi_code sh0);;;
             let* fn0 := get_function f in
             (if IsInOptimizationQueue fn0
              then ClearOptimizationMarker f else ret ());;;
             ret (FAILED, job0)) i = Ret ((status, job'), iso') ->
            same_cache iso iso').
  { intros i job0 HRi Hrun. transitivity i; [done|].
    eapply (preserves_elim same_cache); [|exact Hrun].
    unfold JSFunction_ReplaceCode, ClearOptimizationMarker.
    repeat frame_step ltac:(done). }
  destruct (bool_decide (state job = kReadyToFinalize));
    [|injection E as <- <-; by apply (Htail i_t job)].
  destruct (optimization_disabled sh).
  { bind_inv E as [st j] i E0.
    pose proof (preserves_elim _ _ _ _ _ (frame_RetryOptimization eq _ _) E0) as <-.
    injection E as <- <-. by apply (Htail i_t j). }
  destruct (dependencies_HasAborted (compilation_info job)).
  { bind_inv E as [st j] i E0.
    pose proof (preserves_elim _ _ _ _ _ (frame_RetryOptimization eq _ _) E0) as <-.
    injection E as <- <-. by apply (Htail i_t j). }
  bind_inv E as [st j] i E0.
  apply FinalizeJob_inv in E0 as (-> & _ & _ & _ & _ & Ht & _). simpl in *.
  destruct (bool_decide (st = SUCCEEDED));
    [|injection E as <- <-; by apply (Htail i_t j)].
  bind_inv E as u2 i E0. apply DCHECK_inv in E0 as [_ ->].
  bind_inv E as u3 i_i E0.
  destruct Ht as (_ & _ & Hosr' & _).
  pose proof (preserves_elim _ _ _ _ _
                (same_cache_Insert_osr (compilation_info j) id
                   ltac:(congruence)) E0) as HRi.
  destruct (code (compilation_info j)) as [c|]; [|done].
  bind_inv E as u4 i_r E1.
  apply update_function_inv in E1 as (fn & _ & ->).
  injection E as <- <-. injection H as <- <- <-.
  transitivity i_t; [done|]. by transitivity i_i.
Qed.

(** C4.  A compile with an OSR target never writes the optimized code
    cache: whatever GetOptimizedCode (and Compiler::GetOptimizedCodeForOSR,
    and the finalization of a job) returns for an OSR target, every feedback
    vector holds the optimized code it held before;
    InsertCodeIntoOptimizedCodeCache leaves the whole isolate unchanged; so
    an insertion that changes the cache comes from a compile without OSR
    target. *)
Theorem osr_compile_never_writes_cache
  (function id : nat) (mode : ConcurrencyMode) (osr_frame : option JavaScriptFrame) :
  preserves same_cache (GetOptimizedCode ext function mode (Some id) osr_frame) /\
  preserves same_cache (Compiler_GetOptimizedCodeForOSR ext function (Some id) osr_frame) /\
  (forall job,
     osr_ast_id (compilation_info job) = Some id ->
     preserves same_cache (FinalizeOptimizedCompilationJob ext job)) /\
  (forall info,
     osr_ast_id info = Some id ->
     preserves eq (InsertCodeIntoOptimizedCodeCache info)) /\
  (forall info iso iso',
     InsertCodeIntoOptimizedCodeCache info iso = Ret (tt, iso') ->
     optimized_code_cache iso' <> optimized_code_cache iso ->
     osr_ast_id info = None).
Proof.
  split; [apply same_cache_GetOptimizedCode_osr|].
  split.
  { unfold Compiler_GetOptimizedCodeForOSR.
    apply preserves_bind; [exact _|apply preserves_DCHECK; exact _|intros _].
    apply preserves_bind; [exact _|apply preserves_DCHECK; exact _|intros _].
    apply same_cache_GetOptimizedCode_osr. }
  split; [intros job Hosr; by apply (same_cache_Finalize_osr _ id)|].
  split; [intros info Hosr; by apply (Insert_osr_unchanged _ id)|].
  intros info iso iso' Hrun Hchanged.
  destruct (osr_ast_id info) as [id'|] eqn:Hosr; [|done].
  pose proof (Insert_osr_unchanged info id' Hosr iso) as Hp.
  rewrite Hrun in Hp. by subst.
Qed.

End OsrIsolation.

(** An OSR compile for closure 1 on the isolate whose cell 1 caches code: it
    succeeds and produces optimized code, and the cache is as before. *)
Lemma osr_compile_never_writes_cache_witness :
  exists c job iso',
    Compiler_GetOptimizedCodeForOSR Demo.ext 1 (Some 4)
      (Some Demo.interpreted_frame) Demo.iso_cached = Ret ((Some c, Some job), iso') /\
    kind c = OPTIMIZED_FUNCTION /\
    state job = kSucceeded /\
    same_cache Demo.iso_cached iso'.
Proof.
  pose proof (osr_compile_never_writes_cache Demo.ext 1 4 kNotConcurrent
                (Some Demo.interpreted_frame)) as (_ & H & _).
  specialize (H Demo.iso_cached).
  destruct (Compiler_GetOptimizedCodeForOSR Demo.ext 1 (Some 4)
              (Some Demo.interpreted_frame) Demo.iso_cached)
    as [[[r dj] iso']|] eqn:Hrun; [|by vm_compute in Hrun].
  vm_compute in Hrun. injection Hrun as <- <- Hiso.
  eexists _, _, iso'. split; [reflexivity|]. done.
Defined.

(** ** Compiler::CompileOptimized *)

Section CompileOptimized.

Variable ext : Collaborators.

Lemma DCHECK_run b iso : b = true -> DCHECK b iso = Ret (tt, iso).
Proof. by intros ->. Qed.

Lemma same_code_installed_marker iso f fn m :
  functions iso !! f = Some fn ->
  same_code_installed iso
    (set_functions (<[f := set_optimization_marker m fn]> (functions iso)) iso).
Proof.
  intros Hf. split; [|done]. intros g. simpl.
  destruct (decide (f = g)) as [<-|Hne].
  - by rewrite lookup_insert_eq, Hf.
  - by rewrite lookup_insert_ne.
Qed.

Lemma same_code_installed_abort reason info :
  preserves same_code_installed (CompilationInfo_AbortOptimization reason info).
Proof.
  intros iso. unfold CompilationInfo_AbortOptimization.
  destruct (shared_info info) as [s|]; [|simpl; reflexivity].
  unfold bind. destruct (update_shared s _ iso) as [[u i]|] eqn:E; [|done].
  unfold update_shared in E. bind_inv E as sh i0 E0.
  apply get_shared_inv in E0 as [Hs ->]. injection E as <- <-. simpl.
  split; [done|]. intros s'. simpl.
  destruct (decide (s = s')) as [<-|Hne].
  - by rewrite lookup_insert_eq, Hs.
  - by rewrite lookup_insert_ne.
Qed.

(** GetOptimizedCode never changes which code is installed, on closures or
    on descriptors; and when it returns no code it leaves no exception
    pending and no marker on the closure. *)
Lemma GetOptimizedCode_fallback_state f mode osr frame iso dj iso1 fn :
  GetOptimizedCode ext f mode osr frame iso = Ret ((None, dj), iso1) ->
  functions iso !! f = Some fn ->
  same_code_installed iso iso1 /\
  has_pending_exception iso1 = false /\
  functions iso1 !! f = Some (set_optimization_marker kNone fn) /\
  exists sh sh1,
    shared_infos iso !! shared fn = Some sh /\ sfi_is_compiled sh = true /\
    shared_infos iso1 !! shared fn = Some sh1 /\ sfi_code sh1 = sfi_code sh.
Proof.
  intros H Hf.
  eapply (GetOptimizedCode_post ext osr same_code_installed) in H as [Hsame Hpost];
    try done.
  - destruct (Hpost eq_refl) as (Hp & fn' & sh & i_l & Hf' & Hf1 & [_ HR] & Hsl & Hs & Hc).
    rewrite Hf in Hf'. injection Hf' as <-.
    split; [done|]. split; [done|]. split; [done|].
    specialize (HR (shared fn)). rewrite Hs in HR. simpl in HR.
    destruct (shared_infos iso1 !! shared fn) as [sh1|] eqn:Hs1; [|done].
    exists sh, sh1. rewrite <- Hsl. by injection HR as ->.
  - intros. by apply same_code_installed_marker.
  - intros f0. by apply frame_GetCodeFromOptimizedCodeCache; try exact _.
  - intros f0. by apply preserves_update_feedback_vector; try exact _.
  - apply same_code_installed_abort.
  - intros info _. by apply frame_InsertCodeIntoOptimizedCodeCache; try exact _.
Qed.




End CompileOptimized.


(** ** GetOptimizedCode after a cache miss *)

Section CacheMiss.

Variable ext : Collaborators.
Variables (iso : Isolate) (f : nat) (fn : JSFunction) (v : FeedbackVector)
  (sh : SharedFunctionInfo).

Hypothesis Hf : functions iso !! f = Some fn.
Hypothesis Hc : feedback_cells iso !! feedback_vector_cell fn = Some (Some v).
Hypothesis Hmiss :
  match optimized_code v with
  | Some c => code_marked_for_deoptimization iso c = true
  | None => True
  end.
Hypothesis Hs : shared_infos iso !! shared fn = Some sh.
Hypothesis Hcomp : sfi_is_compiled sh = true.
Hypothesis Hpend : has_pending_exception iso = false.
Hypothesis Hscript :
  implb_ (negb (script_IsScript sh)) (sfi_has_bytecode_array sh) = true.











Lemma Pipeline_NewCompilationJob_run i g gn has_script :
  functions i !! g = Some gn ->
  Pipeline_NewCompilationJob g has_script i =
  Ret (constructed_job i g gn None, set_jobs_created (S (jobs_created i)) i).
Proof.
  intros Hg. unfold Pipeline_NewCompilationJob.
  by rewrite (bind_run _ _ _ _ _ (get_function_run _ _ _ Hg)).
Qed.






End CacheMiss.

(** ** Ineligible functions and rejected admissions *)

Section Bailouts.

Variable ext : Collaborators.






End Bailouts.





(** ** Cache coherence *)

Section CacheCoherence.

Variable ext : Collaborators.

Lemma update_feedback_vector_inv f upd iso u iso' :
  update_feedback_vector f upd iso = Ret (u, iso') ->
  exists fn v,
    functions iso !! f = Some fn /\
    feedback_cells iso !! feedback_vector_cell fn = Some (Some v) /\
    iso' = set_feedback_cells
             (<[feedback_vector_cell fn := Some (upd v)]> (feedback_cells iso)) iso.
Proof.
  unfold update_feedback_vector. intros H.
  bind_inv H as fn i E. apply get_function_inv in E as [Hf ->].
  bind_inv H as v i E. unfold feedback_vector in E.
  rewrite (bind_run _ _ _ _ _ (get_function_run _ _ _ Hf)) in E.
  unfold bind, deref in E.
  destruct (feedback_cells iso !! feedback_vector_cell fn) as [[v0|]|] eqn:Hc;
    try discriminate E.
  injection E as <- <-. exists fn, v0. by injection H as <-.
Qed.


(** A non-specialized insert without OSR target stores the code in the slot
    of the closure's feedback vector. *)
Lemma Insert_stores info iso u iso' f c :
  InsertCodeIntoOptimizedCodeCache info iso = Ret (u, iso') ->
  closure info = Some f ->
  osr_ast_id info = None ->
  is_function_context_specializing info = false ->
  code info = Some c ->
  kind c = OPTIMIZED_FUNCTION ->
  optimized_code_slot iso' f = Some c /\ functions iso' = functions iso.
Proof.
  unfold InsertCodeIntoOptimizedCodeCache. intros H Hf Hosr Hspec Hcode Hkind.
  rewrite Hcode, Hspec, Hf, Hosr in H.
  rewrite (bool_decide_eq_true_2 _ Hkind) in H. simpl in H.
  bind_inv H as u1 i E. apply DCHECK_inv in E as [_ ->].
  bind_inv H as fn i E. apply get_function_inv in E as [Hfn ->].
  apply update_feedback_vector_inv in H as (fn' & v & Hfn' & Hc & ->).
  split; [|done].
  unfold optimized_code_slot. simpl. by rewrite Hfn', lookup_insert_eq.
Qed.





End CacheCoherence.



(** * Further properties of the code

    What follows covers the parts of compiler.cc around the functions above:
    the baseline pipeline end to end, the optimizing requests and their
    finalization, the cache as a store, and the entry points of Compiler. *)

(** ** The baseline pipeline *)

Section BaselinePipeline.

Variable ext : Collaborators.

Lemma update_shared_inv s upd iso u iso' :
  update_shared s upd iso = Ret (u, iso') ->
  exists sh, shared_infos iso !! s = Some sh /\
    iso' = set_shared_infos (<[s := upd sh]> (shared_infos iso)) iso.
Proof.
  unfold update_shared. intros H. bind_inv H as sh i E.
  apply get_shared_inv in E as [Hs ->]. exists sh. by injection H as <-.
Qed.

Lemma update_shared_missing s upd iso :
  shared_infos iso !! s = None -> update_shared s upd iso = Fatal.
Proof. intros H. unfold update_shared, bind, get_shared, deref. by rewrite H. Qed.

Lemma InstallUnoptimizedCode_eq info s c lit sh iso :
  shared_info info = Some s -> code info = Some c -> literal info = Some lit ->
  shared_infos iso !! s = Some sh ->
  InstallUnoptimizedCode ext info iso =
  if same_language_mode ext iso s lit && negb (SpecDiffersFrom ext iso s lit) &&
     negb (has_bytecode_array info &&
           ((negb (is_debug info) && sfi_has_bytecode_array sh) ||
            has_asm_wasm_data info)) &&
     implb (has_coverage_info ext info) (is_block_coverage_enabled ext info)
  then Ret (tt, set_shared_infos (<[s := installed info c sh]> (shared_infos iso)) iso)
  else Fatal.
Proof.
  intros Hsi Hcode Hlit Hs.
  unfold InstallUnoptimizedCode, EnsureFeedbackMetadata, CHECK, installed.
  rewrite Hsi, Hcode, Hlit.
  destruct (same_language_mode ext iso s lit) eqn:Hmode,
    (SpecDiffersFrom ext iso s lit) eqn:Hfit,
    (has_bytecode_array info), (is_debug info),
    (sfi_has_bytecode_array sh) eqn:Hb, (has_asm_wasm_data info),
    (has_coverage_info ext info), (is_block_coverage_enabled ext info);
    cbv [bind update_shared get_shared get_isolate deref modify DCHECK ret];
    simpl;
    repeat (first [rewrite Hs | rewrite lookup_insert_eq | rewrite insert_insert_eq
                  | rewrite Hb | rewrite Hfit | rewrite Hmode]; simpl);
    try done.
  all: unfold set_shared_infos; simpl.
  all: do 4 f_equal; unfold set_sfi_has_bytecode_array, set_sfi_code,
         set_sfi_has_asm_wasm_data; simpl; rewrite ?Hb; done.
Qed.

Lemma InstallUnoptimizedCode_inv info iso u iso' :
  InstallUnoptimizedCode ext info iso = Ret (u, iso') ->
  exists s c sh,
    shared_info info = Some s /\ code info = Some c /\
    shared_infos iso !! s = Some sh /\
    iso' = set_shared_infos (<[s := installed info c sh]> (shared_infos iso)) iso /\
    (has_bytecode_array info = true ->
     has_asm_wasm_data info = false /\
     (sfi_has_bytecode_array sh = true -> is_debug info = true)) /\
    exists lit,
      literal info = Some lit /\
      same_language_mode ext iso s lit = true /\
      SpecDiffersFrom ext iso s lit = false /\
      (has_coverage_info ext info = true ->
       is_block_coverage_enabled ext info = true).
Proof.
  intros H. pose proof H as H0. unfold InstallUnoptimizedCode in H.
  bind_inv H as u0 i0 E0.
  destruct (shared_info info) as [s|] eqn:Hsi; [|done].
  destruct (literal info) as [lit|] eqn:Hlit; [|done].
  bind_inv E0 as i1 i2 E1. injection E1 as <- <-.
  apply DCHECK_inv in E0 as [Hmode ->].
  bind_inv H as u1 i1 E1.
  apply EnsureFeedbackMetadata_inv in E1
    as (-> & s' & lit' & sh & Hs' & Hlit' & Hs & Hfit).
  assert (s' = s) as -> by congruence. assert (lit' = lit) as -> by congruence.
  destruct (code info) as [c|] eqn:Hcode; [|done].
  rewrite (InstallUnoptimizedCode_eq _ _ _ _ _ _ Hsi Hcode Hlit Hs) in H0.
  rewrite Hmode, Hfit in H0. simpl in H0.
  assert (has_coverage_info ext info = true ->
          is_block_coverage_enabled ext info = true) as Hcov.
  { intros Hc. rewrite Hc in H0. simpl in H0.
    destruct (is_block_coverage_enabled ext info); [done|].
    by rewrite andb_false_r in H0. }
  destruct (implb (has_coverage_info ext info) (is_block_coverage_enabled ext info));
    [|by rewrite andb_false_r in H0].
  rewrite andb_true_r in H0.
  destruct (has_bytecode_array info) eqn:Hb; simpl in H0.
  - destruct (has_asm_wasm_data info); [by rewrite orb_true_r in H0|].
    rewrite orb_false_r in H0.
    destruct (negb (is_debug info) && sfi_has_bytecode_array sh) eqn:Hdbg; [done|].
    injection H0 as <-. exists s, c, sh.
    split; [done|]. split; [done|]. split; [done|]. split; [done|].
    split; [|by exists lit].
    intros _. split; [done|]. intros Hsb. rewrite Hsb, andb_true_r in Hdbg.
    by apply negb_false_iff in Hdbg.
  - injection H0 as <-. exists s, c, sh.
    split; [done|]. split; [done|]. split; [done|]. split; [done|].
    split; [done|]. by exists lit.
Qed.

Lemma only_descriptors_differ_refl iso : only_descriptors_differ iso iso.
Proof. unfold only_descriptors_differ. by destruct iso. Qed.

Lemma only_descriptors_differ_trans a b c :
  only_descriptors_differ a b -> only_descriptors_differ b c ->
  only_descriptors_differ a c.
Proof. unfold only_descriptors_differ. intros -> ->. done. Qed.

Lemma only_descriptors_differ_set m iso :
  only_descriptors_differ iso (set_shared_infos m iso).
Proof. done. Qed.

Lemma SetSharedFunctionFlagsFromLiteral_inv lit s iso u iso' :
  SetSharedFunctionFlagsFromLiteral lit s iso = Ret (u, iso') ->
  exists sh,
    shared_infos iso !! s = Some sh /\
    shared_infos iso' = <[s := flags_from_literal lit sh]> (shared_infos iso) /\
    only_descriptors_differ iso iso'.
Proof.
  unfold SetSharedFunctionFlagsFromLiteral, flags_from_literal. intros H.
  bind_inv H as sh i E. apply get_shared_inv in E as [Hs ->]. exists sh.
  split; [done|].
  destruct (bool_decide (dont_optimize_reason lit = kNoReason)).
  - unfold ret in H. injection H as _ <-. split; [by rewrite insert_id|].
    apply only_descriptors_differ_refl.
  - apply update_shared_inv in H as (sh' & Hs' & ->).
    rewrite Hs in Hs'. injection Hs' as <-. simpl. done.
Qed.

Lemma flags_from_literal_baseline lit sh :
  sfi_code (flags_from_literal lit sh) = sfi_code sh /\
  sfi_has_bytecode_array (flags_from_literal lit sh) = sfi_has_bytecode_array sh /\
  sfi_has_asm_wasm_data (flags_from_literal lit sh) = sfi_has_asm_wasm_data sh.
Proof. unfold flags_from_literal. by destruct (bool_decide _). Qed.

(** What FinalizeUnoptimizedCompilationJob does to the heap: it writes one
    descriptor, the one of the job it returns. *)
Lemma FinalizeUnoptimizedCompilationJob_inv job iso st job' iso' :
  FinalizeUnoptimizedCompilationJob ext job iso = Ret ((st, job'), iso') ->
  exists lit s sh1,
    literal (compilation_info job) = Some lit /\
    shared_info (compilation_info job') = Some s /\
    (shared_info (compilation_info job) = Some s /\
       shared_infos iso !! s = Some sh1 \/
     shared_info (compilation_info job) = None /\
       is_toplevel (parse_info job) = true /\
       shared_infos iso !! s = None /\ sh1 = fresh_toplevel_descriptor) /\
    state job = kReadyToFinalize /\
    state job' = match st with SUCCEEDED => kSucceeded | FAILED => kFailed end /\
    only_descriptors_differ iso iso' /\
    match st with
    | SUCCEEDED =>
        exists c,
          code (compilation_info job') = Some c /\
          shared_infos iso' =
            <[s := installed (compilation_info job') c (flags_from_literal lit sh1)]>
              (shared_infos iso) /\
          (has_bytecode_array (compilation_info job') = true ->
           has_asm_wasm_data (compilation_info job') = false /\
           (sfi_has_bytecode_array sh1 = true ->
            is_debug (compilation_info job') = true))
    | FAILED =>
        shared_infos iso' = <[s := flags_from_literal lit sh1]> (shared_infos iso)
    end.
Proof.
  unfold FinalizeUnoptimizedCompilationJob.
  destruct (literal (compilation_info job)) as [lit|] eqn:Hlit; [|done]. intros H.
  exists lit.
  bind_inv H as info1 i1 E.
  assert (Hready : exists s sh1,
    shared_info info1 = Some s /\
    (shared_info (compilation_info job) = Some s /\
       shared_infos iso !! s = Some sh1 \/
     shared_info (compilation_info job) = None /\
       is_toplevel (parse_info job) = true /\
       shared_infos iso !! s = None /\ sh1 = fresh_toplevel_descriptor) /\
    only_descriptors_differ iso i1 /\
    shared_infos i1 = <[s := sh1]> (shared_infos iso)).
  { destruct (shared_info info1) as [s|] eqn:Hs1; [|done].
    bind_inv H as u2 i2 E2.
    apply SetSharedFunctionFlagsFromLiteral_inv in E2 as (sh1 & Hsh1 & _).
    exists s, sh1. split; [done|].
    destruct (is_toplevel (parse_info job)) eqn:Htop.
    - destruct (shared_info (compilation_info job)) as [s0|] eqn:Hs0.
      + injection E as <- <-. rewrite Hs0 in Hs1. injection Hs1 as <-.
        split; [by left|]. split; [apply only_descriptors_differ_refl|].
        by rewrite insert_id.
      + bind_inv E as s' i E1.
        unfold NewSharedFunctionInfoForLiteral, bind, get_isolate, modify, ret in E1.
        injection E1 as <- <-.
        bind_inv E as u i E1. apply update_shared_inv in E1 as (sh0 & Hsh0 & ->).
        injection E as <- <-. simpl in *. injection Hs1 as <-.
        rewrite lookup_insert_eq in Hsh0. injection Hsh0 as <-.
        rewrite lookup_insert_eq in Hsh1. injection Hsh1 as <-.
        split.
        * right. split; [done|]. split; [done|]. split; [|done].
          apply not_elem_of_dom, is_fresh.
        * split; [done|]. by rewrite insert_insert_eq.
    - injection E as <- <-. split; [by left|].
      split; [apply only_descriptors_differ_refl|]. by rewrite insert_id. }
  destruct Hready as (s & sh1 & Hs1 & Horigin & Hd1 & Hm1).
  rewrite Hs1 in H. exists s, sh1.
  bind_inv H as u2 i2 E2.
  apply SetSharedFunctionFlagsFromLiteral_inv in E2 as (sh1' & Hsh1 & Hm2 & Hd2).
  rewrite Hm1, lookup_insert_eq in Hsh1. injection Hsh1 as <-.
  rewrite Hm1, insert_insert_eq in Hm2.
  bind_inv H as [status job1] i3 E3.
  apply FinalizeJob_inv in E3 as (-> & _ & _ & Hstate & _ & (_ & Hsi & _) & _ & Hst').
  simpl in *.
  split; [done|].
  pose proof (only_descriptors_differ_trans _ _ _ Hd1 Hd2) as Hd.
  destruct status.
  - bind_inv H as u3 i4 E4. injection H as <- <- <-.
    apply InstallUnoptimizedCode_inv in E4
      as (s' & c & sh' & Hs' & Hc & Hsh' & -> & Honce & _).
    rewrite Hsi, Hs1 in Hs'. injection Hs' as <-.
    rewrite Hm2, lookup_insert_eq in Hsh'. injection Hsh' as <-.
    split; [congruence|]. split; [done|]. split; [done|]. split; [done|].
    split; [by eapply only_descriptors_differ_trans|].
    exists c. split; [done|]. simpl. split; [by rewrite Hm2, insert_insert_eq|].
    intros Hb. destruct (Honce Hb) as [Ha Hdbg]. split; [done|].
    intros Hsb. apply Hdbg.
    by destruct (flags_from_literal_baseline lit sh1) as (_ & -> & _).
  - injection H as <- <- <-.
    split; [congruence|]. done.
Qed.

#[global] Instance same_baseline_preorder : PreOrder same_baseline.
Proof.
  split.
  - intros iso s sh Hs. by exists sh.
  - intros a b c Hab Hbc s sh Hs.
    destruct (Hab s sh Hs) as (sh1 & Hs1 & ? & ? & ?).
    destruct (Hbc s sh1 Hs1) as (sh2 & Hs2 & ? & ? & ?).
    exists sh2. repeat split; congruence.
Qed.

Lemma same_baseline_set_jobs_created n iso :
  same_baseline iso (set_jobs_created n iso).
Proof. intros s sh Hs. by exists sh. Qed.

(** What RunUnoptimizedCompilationJob leaves behind. *)
Lemma RunUnoptimizedCompilationJob_inv job iso ok job' iso' :
  RunUnoptimizedCompilationJob ext job iso = Ret ((ok, job'), iso') ->
  state job = kReadyToPrepare /\
  only_descriptors_differ iso iso' /\
  (forall s', shared_info (compilation_info job') <> Some s' ->
     shared_infos iso' !! s' = shared_infos iso !! s') /\
  (forall s0, shared_info (compilation_info job) = Some s0 ->
     shared_info (compilation_info job') = Some s0) /\
  match ok with
  | true =>
      state job' = kSucceeded /\
      exists lit s c sh,
        literal (compilation_info job') = Some lit /\
        shared_info (compilation_info job') = Some s /\
        code (compilation_info job') = Some c /\
        shared_infos iso' !! s =
          Some (installed (compilation_info job') c (flags_from_literal lit sh)) /\
        (shared_infos iso !! s = Some sh \/
         shared_infos iso !! s = None /\ sh = fresh_toplevel_descriptor) /\
        (has_bytecode_array (compilation_info job') = true ->
         has_asm_wasm_data (compilation_info job') = false /\
         (sfi_has_bytecode_array sh = true ->
          is_debug (compilation_info job') = true))
  | false => state job' = kFailed /\ same_baseline iso iso'
  end.
Proof.
  unfold RunUnoptimizedCompilationJob. intros H.
  bind_inv H as [st1 job1] i1 E.
  apply PrepareJob_inv in E as (-> & _ & Hstate & _ & (_ & Hs1 & _) & Hl1 & Hst1).
  simpl in *. split; [done|].
  destruct st1; simpl in H;
    [|injection H as <- <- <-;
      split; [apply only_descriptors_differ_refl|]; split; [done|];
      split; [congruence|]; by split].
  bind_inv H as [st2 job2] i2 E.
  apply ExecuteJob_inv in E as (-> & _ & _ & (_ & Hs2 & _) & Hl2 & Hst2).
  simpl in *.
  destruct st2; simpl in H;
    [|injection H as <- <- <-;
      split; [apply only_descriptors_differ_refl|]; split; [done|];
      split; [congruence|]; by split].
  bind_inv H as [st3 job3] i3 E. injection H as <- <- <-.
  pose proof (FinalizeUnoptimizedCompilationJob_literal _ _ _ _ _ E) as Hl3.
  simpl in Hl3.
  apply FinalizeUnoptimizedCompilationJob_inv in E
    as (lit & s & sh1 & Hlit & Hs3 & Horigin & _ & Hst3 & Hd & Hfin).
  split; [done|].
  assert (Hother : forall s', s <> s' ->
            shared_infos i3 !! s' = shared_infos iso !! s').
  { intros s' Hne. destruct st3.
    - destruct Hfin as (c & _ & -> & _). by rewrite lookup_insert_ne.
    - rewrite Hfin. by rewrite lookup_insert_ne. }
  split; [intros s' Hne; apply Hother; congruence|].
  split.
  { intros s0 Hs0. destruct Horigin as [[Ho _]|[Ho _]]; congruence. }
  destruct st3; simpl.
  - split; [done|]. destruct Hfin as (c & Hc & Hm & Honce).
    exists lit, s, c, sh1. split; [congruence|]. split; [done|]. split; [done|].
    split; [by rewrite Hm, lookup_insert_eq|]. split; [|done].
    destruct Horigin as [[_ Ho]|(_ & _ & Ho & ->)]; [by left|by right].
  - split; [done|]. intros s' sh' Hs'.
    destruct (decide (s = s')) as [<-|Hne].
    + rewrite Hfin, lookup_insert_eq.
      destruct Horigin as [[_ Ho]|(_ & _ & Ho & _)]; [|congruence].
      rewrite Ho in Hs'. injection Hs' as <-.
      eexists. split; [done|]. apply flags_from_literal_baseline.
    + exists sh'. by rewrite Hother.
Qed.

Lemma GetUnoptimizedCompilationJob_state pi info iso job iso' :
  GetUnoptimizedCompilationJob pi info iso = Ret (job, iso') ->
  iso' = set_jobs_created (S (jobs_created iso)) iso /\
  compilation_info job = info /\ backend job <> AsmJs /\
  state job = kReadyToPrepare.
Proof.
  unfold GetUnoptimizedCompilationJob.
  destruct (literal info) as [lit|]; [|done]. intros H.
  bind_inv H as full i E. apply ShouldUseFullCodegen_inv in E as [-> _].
  destruct full; rewrite NewCompilationJob_run in H; by injection H as <- <-.
Qed.

Lemma UseAsmWasm_eq sc si dbg iso b iso' :
  UseAsmWasm sc si dbg iso = Ret (b, iso') ->
  iso' = iso /\
  b = FLAG_validate_asm (flags iso) &&
      negb (match si with
            | Some s => match shared_infos iso !! s with
                        | Some sh => is_asm_wasm_broken sh
                        | None => false
                        end
            | None => false
            end) &&
      negb dbg && (FLAG_stress_validate_asm (flags iso) || asm_module sc).
Proof.
  unfold UseAsmWasm, bind, get_isolate, ret.
  destruct (FLAG_validate_asm (flags iso)); simpl; [|by intros [= <- <-]].
  destruct si as [s|]; simpl.
  - unfold get_shared, deref. destruct (shared_infos iso !! s) as [sh|]; [|done].
    destruct (is_asm_wasm_broken sh); simpl; [by intros [= <- <-]|].
    destruct dbg; simpl; [by intros [= <- <-]|].
    destruct (FLAG_stress_validate_asm (flags iso)); simpl; by intros [= <- <-].
  - destruct dbg; simpl; [by intros [= <- <-]|].
    destruct (FLAG_stress_validate_asm (flags iso)); simpl; by intros [= <- <-].
Qed.

(** The runs GenerateUnoptimizedCode makes: one job, or the validation job
    that failed followed by the job of the standard tier. *)
Lemma GenerateUnoptimizedCode_runs pi info iso ok job' iso' :
  GenerateUnoptimizedCode ext pi info iso = Ret ((ok, job'), iso') ->
  exists lit use_asm job0 i0,
    literal info = Some lit /\
    UseAsmWasm (scope lit) (shared_info info) (is_debug info) iso = Ret (use_asm, iso) /\
    state job0 = kReadyToPrepare /\
    RunUnoptimizedCompilationJob ext job0 (set_jobs_created (S (jobs_created i0)) i0)
      = Ret ((ok, job'), iso') /\
    ((i0 = iso /\ compilation_info job0 = info /\
      (use_asm = false /\ backend job0 <> AsmJs \/
       use_asm = true /\ backend job0 = AsmJs /\ ok = true))
     \/
     (use_asm = true /\ backend job0 <> AsmJs /\
      exists job_a0 job_a,
        backend job_a0 = AsmJs /\ compilation_info job_a0 = info /\
        RunUnoptimizedCompilationJob ext job_a0
          (set_jobs_created (S (jobs_created iso)) iso) = Ret ((false, job_a), i0) /\
        compilation_info job0 = compilation_info job_a)).
Proof.
  unfold GenerateUnoptimizedCode.
  destruct (literal info) as [lit|]; [|done]. intros H.
  bind_inv H as use_asm i E.
  pose proof (UseAsmWasm_inv _ _ _ _ _ _ E) as ->.
  exists lit, use_asm.
  bind_inv H as asm i1 E1.
  destruct use_asm.
  - rewrite (bind_run _ _ _ _ _ (NewCompilationJob_run AsmJs pi info kReadyToPrepare iso))
      in E1.
    bind_inv E1 as [ok_a job_a] i_a Ea. injection E1 as <- <-.
    destruct ok_a.
    + injection H as <- <- <-. eexists _, iso.
      split; [done|]. split; [done|]. split; [|split; [exact Ea|]]; [done|].
      left. split; [done|]. split; [done|]. by right.
    + bind_inv H as job0 i0 E0.
      apply GetUnoptimizedCompilationJob_state in E0 as (-> & Hinfo & Hb & Hst).
      exists job0, i_a. split; [done|]. split; [done|]. split; [done|].
      split; [exact H|]. right. split; [done|]. split; [done|].
      eexists _, job_a. split; [|split; [|split; [exact Ea|done]]]; done.
  - injection E1 as <- <-.
    bind_inv H as job0 i0 E0.
    apply GetUnoptimizedCompilationJob_state in E0 as (-> & Hinfo & Hb & Hst).
    exists job0, iso. split; [done|]. split; [done|]. split; [done|].
    split; [exact H|]. left. split; [done|]. split; [done|]. by left.
Qed.

Lemma only_descriptors_differ_frame iso iso' :
  only_descriptors_differ iso iso' ->
  functions iso' = functions iso /\ feedback_cells iso' = feedback_cells iso /\
  input_queue iso' = input_queue iso /\ jobs_created iso' = jobs_created iso /\
  has_pending_exception iso' = has_pending_exception iso /\
  marked_for_deoptimization iso' = marked_for_deoptimization iso /\
  flags iso' = flags iso.
Proof. unfold only_descriptors_differ. by intros ->. Qed.

Lemma installed_fields info c sh :
  sfi_code (installed info c sh) = c /\
  (has_bytecode_array info = true ->
   sfi_has_bytecode_array (installed info c sh) = true) /\
  (has_bytecode_array info = false -> has_asm_wasm_data info = true ->
   sfi_has_asm_wasm_data (installed info c sh) = true) /\
  optimization_disabled (installed info c sh) = optimization_disabled sh /\
  disable_optimization_reason (installed info c sh) = disable_optimization_reason sh.
Proof.
  unfold installed. simpl. split; [done|].
  split; [by intros ->|]. split; [by intros -> ->|done].
Qed.

(** X1.  A baseline compile that reports success has installed its result:
    when GenerateUnoptimizedCode returns true, the job it ran last is in
    state kSucceeded, and the descriptor of that job (the one the caller
    gave, when it gave one) holds the code of the job, is flagged as having
    bytecode when the job produced bytecode, and as having asm-wasm data
    when the job produced that instead.  No other descriptor, no closure, no
    feedback vector and no queue entry is written. *)
Theorem baseline_compile_installs_its_code
  (pi : ParseInfo) (info : CompilationInfo) (iso : Isolate)
  (job : CompilationJob) (iso' : Isolate) :
  GenerateUnoptimizedCode ext pi info iso = Ret ((true, job), iso') ->
  state job = kSucceeded /\
  exists s c sh',
    shared_info (compilation_info job) = Some s /\
    code (compilation_info job) = Some c /\
    shared_infos iso' !! s = Some sh' /\
    sfi_code sh' = c /\
    (has_bytecode_array (compilation_info job) = true ->
     sfi_has_bytecode_array sh' = true) /\
    (has_bytecode_array (compilation_info job) = false ->
     has_asm_wasm_data (compilation_info job) = true ->
     sfi_has_asm_wasm_data sh' = true) /\
    (forall s0, shared_info info = Some s0 -> s = s0) /\
    (forall s', s' <> s -> shared_infos iso' !! s' = shared_infos iso !! s') /\
    functions iso' = functions iso /\
    feedback_cells iso' = feedback_cells iso /\
    input_queue iso' = input_queue iso.
Proof.
  intros H.
  apply GenerateUnoptimizedCode_runs in H
    as (lit & use_asm & job0 & i0 & _ & _ & _ & Hrun & Hcase).
  apply RunUnoptimizedCompilationJob_inv in Hrun
    as (_ & Hd & Hother & Hkeep & Hstate & lit' & s & c & sh & _ & Hs & Hc & Hsh & _).
  split; [done|].
  destruct (installed_fields (compilation_info job) c (flags_from_literal lit' sh))
    as (Hf1 & Hf2 & Hf3 & _).
  eexists s, c, _. split; [done|]. split; [done|]. split; [exact Hsh|].
  split; [done|]. split; [done|]. split; [done|].
  apply only_descriptors_differ_frame in Hd as (Hfn & Hcells & Hq & _).
  simpl in *.
  destruct Hcase as [(-> & Hinfo & _)|(_ & _ & job_a0 & job_a & _ & Hinfo_a & Hrun_a & Hinfo)].
  - split.
    { intros s0 Hs0. rewrite <- Hinfo in Hs0. specialize (Hkeep _ Hs0). congruence. }
    split; [intros s' Hne; apply Hother; congruence|]. done.
  - apply RunUnoptimizedCompilationJob_inv in Hrun_a
      as (_ & Hd_a & Hother_a & Hkeep_a & _).
    apply only_descriptors_differ_frame in Hd_a as (Hfn_a & Hcells_a & Hq_a & _).
    simpl in *.
    split.
    { intros s0 Hs0. rewrite <- Hinfo_a in Hs0. specialize (Hkeep_a _ Hs0).
      rewrite <- Hinfo in Hkeep_a. specialize (Hkeep _ Hkeep_a). congruence. }
    split; [|repeat split; congruence].
    intros s' Hne. rewrite Hother by congruence. simpl. apply Hother_a.
    intros Hs'. rewrite <- Hinfo in Hs'. specialize (Hkeep _ Hs'). congruence.
Qed.

(** X2.  A baseline compile that reports failure installs nothing: when
    GenerateUnoptimizedCode returns false, the job it ran last is in state
    kFailed, every descriptor is still there with the code, the bytecode
    flag and the asm-wasm flag it had, and closures, feedback vectors and
    the dispatcher queue are as they were. *)
Theorem failed_baseline_compile_installs_nothing
  (pi : ParseInfo) (info : CompilationInfo) (iso : Isolate)
  (job : CompilationJob) (iso' : Isolate) :
  GenerateUnoptimizedCode ext pi info iso = Ret ((false, job), iso') ->
  state job = kFailed /\
  same_baseline iso iso' /\
  functions iso' = functions iso /\
  feedback_cells iso' = feedback_cells iso /\
  input_queue iso' = input_queue iso.
Proof.
  intros H.
  apply GenerateUnoptimizedCode_runs in H
    as (lit & use_asm & job0 & i0 & _ & _ & _ & Hrun & Hcase).
  apply RunUnoptimizedCompilationJob_inv in Hrun
    as (_ & Hd & _ & _ & Hstate & Hsame).
  split; [done|].
  apply only_descriptors_differ_frame in Hd as (Hfn & Hcells & Hq & _).
  simpl in *.
  destruct Hcase as [(-> & _)|(_ & _ & job_a0 & job_a & _ & _ & Hrun_a & _)].
  - split; [|done].
    transitivity (set_jobs_created (S (jobs_created iso)) iso); [|done].
    apply same_baseline_set_jobs_created.
  - apply RunUnoptimizedCompilationJob_inv in Hrun_a
      as (_ & Hd_a & _ & _ & _ & Hsame_a).
    apply only_descriptors_differ_frame in Hd_a as (Hfn_a & Hcells_a & Hq_a & _).
    simpl in *.
    split; [|repeat split; congruence].
    transitivity (set_jobs_created (S (jobs_created iso)) iso);
      [apply same_baseline_set_jobs_created|].
    transitivity i0; [done|].
    transitivity (set_jobs_created (S (jobs_created i0)) i0); [|done].
    apply same_baseline_set_jobs_created.
Qed.

(** X3.  The literal's dont_optimize_reason reaches the descriptor before
    the finalize phase runs: whenever FinalizeUnoptimizedCompilationJob
    returns, with either status, the descriptor of the job has optimization
    disabled with the literal's reason if the literal carries one; if it
    carries none, a descriptor that existed keeps the flag and the reason it
    had, so a recompile never re-enables optimization. *)
Theorem literal_reason_disables_optimization
  (job : CompilationJob) (iso : Isolate) (st : Status)
  (job' : CompilationJob) (iso' : Isolate) (lit : FunctionLiteral) :
  FinalizeUnoptimizedCompilationJob ext job iso = Ret ((st, job'), iso') ->
  literal (compilation_info job) = Some lit ->
  exists s sh',
    shared_info (compilation_info job') = Some s /\
    shared_infos iso' !! s = Some sh' /\
    (dont_optimize_reason lit <> kNoReason ->
     optimization_disabled sh' = true /\
     disable_optimization_reason sh' = dont_optimize_reason lit) /\
    (dont_optimize_reason lit = kNoReason ->
     forall sh, shared_infos iso !! s = Some sh ->
       optimization_disabled sh' = optimization_disabled sh /\
       disable_optimization_reason sh' = disable_optimization_reason sh).
Proof.
  intros H Hlit.
  apply FinalizeUnoptimizedCompilationJob_inv in H
    as (lit' & s & sh1 & Hlit' & Hs & Horigin & _ & _ & _ & Hfin).
  rewrite Hlit in Hlit'. injection Hlit' as <-.
  assert (Hflags :
    (dont_optimize_reason lit <> kNoReason ->
     optimization_disabled (flags_from_literal lit sh1) = true /\
     disable_optimization_reason (flags_from_literal lit sh1) =
       dont_optimize_reason lit) /\
    (dont_optimize_reason lit = kNoReason -> flags_from_literal lit sh1 = sh1)).
  { unfold flags_from_literal. case_bool_decide; by split. }
  destruct Hflags as [Hset Hkeep].
  assert (Hsh1 : forall sh, shared_infos iso !! s = Some sh -> sh = sh1).
  { intros sh Hsh. destruct Horigin as [[_ Ho]|(_ & _ & Ho & _)]; congruence. }
  destruct st.
  - destruct Hfin as (c & _ & Hm & _).
    destruct (installed_fields (compilation_info job') c (flags_from_literal lit sh1))
      as (_ & _ & _ & Hf4 & Hf5).
    eexists s, _. split; [done|]. split; [by rewrite Hm, lookup_insert_eq|].
    split.
    + intros Hr. rewrite Hf4, Hf5. by apply Hset.
    + intros Hr sh Hsh. rewrite Hf4, Hf5, (Hkeep Hr). by rewrite (Hsh1 _ Hsh).
  - eexists s, _. split; [done|]. split; [by rewrite Hfin, lookup_insert_eq|].
    split; [done|].
    intros Hr sh Hsh. rewrite (Hkeep Hr). by rewrite (Hsh1 _ Hsh).
Qed.

Lemma PrepareJob_is_debug job iso r iso' :
  PrepareJob ext job iso = Ret (r, iso') ->
  is_debug (compilation_info r.2) = is_debug (compilation_info job).
Proof.
  unfold PrepareJob, bind, get_isolate, DCHECK.
  case_bool_decide; [|done]. case_bool_decide; [|done].
  destruct (PrepareJobImpl _ _ _ _ _) as [status out]. unfold ret.
  intros [= <- <-]. by rewrite UpdateState_info.
Qed.

Lemma ExecuteJob_is_debug job iso r iso' :
  ExecuteJob ext job iso = Ret (r, iso') ->
  is_debug (compilation_info r.2) = is_debug (compilation_info job).
Proof.
  unfold ExecuteJob, bind, get_isolate, DCHECK, ret.
  destruct (can_execute_on_background_thread ext (backend job)).
  - simpl. case_bool_decide; [|done].
    destruct (ExecuteJobImpl _ _ _ _ _) as [status out].
    intros [= <- <-]. by rewrite UpdateState_info.
  - case_bool_decide; [|done]. case_bool_decide; [|done].
    destruct (ExecuteJobImpl _ _ _ _ _) as [status out].
    intros [= <- <-]. by rewrite UpdateState_info.
Qed.

Lemma FinalizeJob_is_debug job iso r iso' :
  FinalizeJob ext job iso = Ret (r, iso') ->
  is_debug (compilation_info r.2) = is_debug (compilation_info job).
Proof.
  unfold FinalizeJob, bind, get_isolate, DCHECK, ret.
  case_bool_decide; [|done].
  destruct (dependencies_HasAborted (compilation_info job)); [done|]. simpl.
  case_bool_decide; [|done].
  destruct (FinalizeJobImpl _ _ _ _ _) as [status out].
  intros [= <- <-]. by rewrite UpdateState_info.
Qed.

Lemma FinalizeUnoptimizedCompilationJob_is_debug job iso r iso' :
  FinalizeUnoptimizedCompilationJob ext job iso = Ret (r, iso') ->
  is_debug (compilation_info r.2) = is_debug (compilation_info job).
Proof.
  unfold FinalizeUnoptimizedCompilationJob.
  destruct (literal (compilation_info job)) as [lit|]; [|done]. intros H.
  bind_inv H as info1 i1 E.
  assert (Hd : is_debug info1 = is_debug (compilation_info job)).
  { destruct (is_toplevel (parse_info job)); [|by injection E as <- <-].
    destruct (shared_info (compilation_info job)); [by injection E as <- <-|].
    bind_inv E as s i E1. bind_inv E as u i2 E2. by injection E as <- <-. }
  destruct (shared_info info1) as [s|]; [|done].
  bind_inv H as u i2 E2. bind_inv H as [status job1] i3 E3.
  apply FinalizeJob_is_debug in E3. simpl in E3.
  destruct status.
  - bind_inv H as u1 i4 E4. injection H as <- <-. simpl. congruence.
  - injection H as <- <-. simpl. congruence.
Qed.

Lemma RunUnoptimizedCompilationJob_is_debug job iso r iso' :
  RunUnoptimizedCompilationJob ext job iso = Ret (r, iso') ->
  is_debug (compilation_info r.2) = is_debug (compilation_info job).
Proof.
  unfold RunUnoptimizedCompilationJob. intros H.
  bind_inv H as [st1 job1] i1 E1. apply PrepareJob_is_debug in E1. simpl in E1.
  destruct (negb (bool_decide (st1 = SUCCEEDED))); [by injection H as <- <-|].
  bind_inv H as [st2 job2] i2 E2. apply ExecuteJob_is_debug in E2. simpl in E2.
  destruct (negb (bool_decide (st2 = SUCCEEDED)));
    [injection H as <- <-; simpl; congruence|].
  bind_inv H as [st3 job3] i3 E3.
  apply FinalizeUnoptimizedCompilationJob_is_debug in E3. simpl in E3.
  injection H as <- <-. simpl. congruence.
Qed.

(** X4.  The bytecode of a descriptor is replaced only by a debug compile.
    When GenerateUnoptimizedCode returns true with a job that produced
    bytecode, for a descriptor that already had bytecode, the compile was a
    debug compile: for any other compile the "only compiled once" assertion
    of InstallUnoptimizedCode trips after the three phases have run.  The
    job has succeeded and has produced no asm-wasm data, and the descriptor
    holds the job's code and has bytecode again. *)
Theorem bytecode_is_reinstalled_only_for_debug
  (pi : ParseInfo) (info : CompilationInfo) (s : nat) (sh : SharedFunctionInfo)
  (iso : Isolate) (job : CompilationJob) (iso' : Isolate) :
  shared_info info = Some s ->
  shared_infos iso !! s = Some sh ->
  sfi_has_bytecode_array sh = true ->
  GenerateUnoptimizedCode ext pi info iso = Ret ((true, job), iso') ->
  has_bytecode_array (compilation_info job) = true ->
  is_debug info = true /\
  state job = kSucceeded /\
  has_asm_wasm_data (compilation_info job) = false /\
  exists sh',
    shared_infos iso' !! s = Some sh' /\
    sfi_has_bytecode_array sh' = true /\
    Some (sfi_code sh') = code (compilation_info job).
Proof.
  intros Hsi Hs Hsb H Hb.
  apply GenerateUnoptimizedCode_runs in H
    as (lit & use_asm & job0 & i0 & _ & _ & _ & Hrun & Hcase).
  pose proof (RunUnoptimizedCompilationJob_is_debug _ _ _ _ Hrun) as Hdbg.
  simpl in Hdbg.
  apply RunUnoptimizedCompilationJob_inv in Hrun
    as (_ & _ & _ & Hkeep & Hstate & lit' & s' & c & sh0 & _ & Hs' & Hc & Hsh & Ho
        & Honce).
  destruct (Honce Hb) as [Ha Hd].
  destruct (installed_fields (compilation_info job) c (flags_from_literal lit' sh0))
    as (Hf1 & Hf2 & _).
  assert (Hstart : shared_info (compilation_info job0) = Some s /\
                   is_debug (compilation_info job0) = is_debug info /\
                   exists sh1, shared_infos i0 !! s = Some sh1 /\
                     sfi_has_bytecode_array sh1 = true).
  { destruct Hcase as [(-> & Hinfo & _)
                      |(_ & _ & job_a0 & job_a & _ & Hinfo_a & Hrun_a & Hinfo)].
    - rewrite Hinfo. split; [done|]. split; [done|]. by exists sh.
    - pose proof (RunUnoptimizedCompilationJob_is_debug _ _ _ _ Hrun_a) as Hdbg_a.
      simpl in Hdbg_a.
      apply RunUnoptimizedCompilationJob_inv in Hrun_a
        as (_ & _ & _ & Hkeep_a & _ & Hsame).
      rewrite Hinfo. split; [apply Hkeep_a; by rewrite Hinfo_a|].
      split; [by rewrite Hdbg_a, Hinfo_a|].
      destruct (Hsame s sh Hs) as (sh1 & Hs1 & _ & Hb1 & _).
      exists sh1. split; [done|]. by rewrite Hb1. }
  destruct Hstart as (Hs0 & Hdbg0 & sh1 & Hs1 & Hsb1).
  specialize (Hkeep _ Hs0). rewrite Hs' in Hkeep. injection Hkeep as ->.
  simpl in Ho. destruct Ho as [Ho|[Ho _]]; [|congruence].
  rewrite Hs1 in Ho. injection Ho as <-.
  split; [by rewrite <- Hdbg0, <- Hdbg; apply Hd|].
  split; [done|]. split; [done|].
  eexists. split; [exact Hsh|]. split; [by apply Hf2|]. by rewrite Hf1, Hc.
Qed.

(** X5.  The asm.js validator runs only when UseAsmWasm allows it, and a
    failed validation costs one extra job.  Whenever GenerateUnoptimizedCode
    returns: if the job it ran last is a validation job, the compile
    succeeded, validation is enabled, the compile is not for debugging, the
    descriptor is not marked as a broken asm module, and the stress flag is
    set or the scope is an asm module; and it constructed one job, or two
    when the last job is not a validation job although validation was
    allowed.  In particular a debug compile never runs the validator. *)
Theorem asm_validation_runs_only_when_allowed
  (pi : ParseInfo) (info : CompilationInfo) (lit : FunctionLiteral)
  (iso : Isolate) (ok : bool) (job : CompilationJob) (iso' : Isolate) :
  literal info = Some lit ->
  GenerateUnoptimizedCode ext pi info iso = Ret ((ok, job), iso') ->
  let allowed :=
    FLAG_validate_asm (flags iso) &&
    negb (match shared_info info with
          | Some s => match shared_infos iso !! s with
                      | Some sh => is_asm_wasm_broken sh
                      | None => false
                      end
          | None => false
          end) &&
    negb (is_debug info) &&
    (FLAG_stress_validate_asm (flags iso) || asm_module (scope lit)) in
  (backend job = AsmJs -> ok = true /\ allowed = true) /\
  jobs_created iso' =
    (if allowed && negb (bool_decide (backend job = AsmJs))
     then S (S (jobs_created iso)) else S (jobs_created iso)) /\
  (is_debug info = true -> backend job <> AsmJs).
Proof.
  intros Hlit H allowed.
  apply GenerateUnoptimizedCode_runs in H
    as (lit' & use_asm & job0 & i0 & Hlit' & Huse & _ & Hrun & Hcase).
  rewrite Hlit in Hlit'. injection Hlit' as <-.
  apply UseAsmWasm_eq in Huse as [_ Huse]. fold allowed in Huse. subst use_asm.
  pose proof (RunUnoptimizedCompilationJob_backend _ _ _ _ _ Hrun) as Hb.
  simpl in Hb.
  apply RunUnoptimizedCompilationJob_inv in Hrun as (_ & Hd & _).
  apply only_descriptors_differ_frame in Hd as (_ & _ & _ & Hjobs & _).
  simpl in Hjobs.
  assert (Hdebug : is_debug info = true -> allowed = false).
  { intros Hdbg. subst allowed. rewrite Hdbg. simpl. by rewrite !andb_false_r. }
  destruct Hcase as [(-> & _ & [[Hall Hne]|(Hall & Heq & ->)])
                    |(Hall & Hne & job_a0 & job_a & _ & _ & Hrun_a & _)].
  - rewrite Hb, Hall. simpl. split; [done|]. split; [done|]. done.
  - rewrite Hb, Hall, Heq. simpl. split; [done|]. split; [done|].
    intros Hdbg. rewrite (Hdebug Hdbg) in Hall. done.
  - rewrite Hb, Hall. simpl.
    rewrite bool_decide_eq_false_2 by done. simpl.
    apply RunUnoptimizedCompilationJob_inv in Hrun_a as (_ & Hd_a & _).
    apply only_descriptors_differ_frame in Hd_a as (_ & _ & _ & Hjobs_a & _).
    simpl in Hjobs_a.
    split; [done|]. split; [congruence|]. done.
Qed.

End BaselinePipeline.

(** On the concrete isolate the interpreter compiles the plain literal: the
    descriptor at address 1 holds the baseline code afterwards. *)
Lemma baseline_compile_installs_its_code_witness :
  exists job iso' sh',
    GenerateUnoptimizedCode Demo.ext (Demo.function_parse_info Demo.plain_literal)
      (Demo.baseline_info Demo.plain_literal) Demo.iso = Ret ((true, job), iso') /\
    state job = kSucceeded /\
    shared_infos iso' !! 1 = Some sh' /\
    Some (sfi_code sh') = code (compilation_info job).
Proof.
  destruct (GenerateUnoptimizedCode Demo.ext
              (Demo.function_parse_info Demo.plain_literal)
              (Demo.baseline_info Demo.plain_literal) Demo.iso)
    as [[[ok job] iso']|] eqn:Hrun; [|by vm_compute in Hrun].
  destruct ok; [|by vm_compute in Hrun].
  destruct (baseline_compile_installs_its_code Demo.ext _ _ _ _ _ Hrun)
    as (Hst & s & c & sh' & _ & Hc & Hsh & Hcode & _ & _ & Hs & _).
  rewrite (Hs 1 eq_refl) in Hsh.
  exists job, iso', sh'. split; [done|]. split; [done|]. split; [done|].
  by rewrite Hc, Hcode.
Defined.

(** With back ends whose finalize phase fails, the compile of the plain
    literal reports failure and the descriptor keeps its code. *)
Lemma failed_baseline_compile_installs_nothing_witness :
  exists job iso',
    GenerateUnoptimizedCode DemoFailure.ext
      (Demo.function_parse_info Demo.plain_literal)
      (Demo.baseline_info Demo.plain_literal) Demo.iso = Ret ((false, job), iso') /\
    state job = kFailed /\
    same_baseline Demo.iso iso'.
Proof.
  destruct (GenerateUnoptimizedCode DemoFailure.ext
              (Demo.function_parse_info Demo.plain_literal)
              (Demo.baseline_info Demo.plain_literal) Demo.iso)
    as [[[ok job] iso']|] eqn:Hrun; [|by vm_compute in Hrun].
  destruct ok; [by vm_compute in Hrun|].
  destruct (failed_baseline_compile_installs_nothing DemoFailure.ext _ _ _ _ _ Hrun)
    as (Hst & Hsame & _).
  by exists job, iso'.
Defined.

(** The finalize phase fails for a literal that carries a reason: the
    descriptor has optimization disabled with that reason all the same. *)
Lemma literal_reason_disables_optimization_witness :
  exists job' iso' sh',
    FinalizeUnoptimizedCompilationJob DemoFailure.ext
      (DemoFailure.baseline_job DemoFailure.reasoned_literal) Demo.iso =
      Ret ((FAILED, job'), iso') /\
    shared_infos iso' !! 1 = Some sh' /\
    optimization_disabled sh' = true /\
    disable_optimization_reason sh' = kOptimizationDisabledForTest.
Proof.
  destruct (FinalizeUnoptimizedCompilationJob DemoFailure.ext
              (DemoFailure.baseline_job DemoFailure.reasoned_literal) Demo.iso)
    as [[[st job'] iso']|] eqn:Hrun; [|by vm_compute in Hrun].
  destruct st; [by vm_compute in Hrun|].
  destruct (literal_reason_disables_optimization DemoFailure.ext _ _ _ _ _
              DemoFailure.reasoned_literal Hrun eq_refl)
    as (s & sh' & Hs & Hsh & Hset & _).
  assert (s = 1) as ->.
  { vm_compute in Hrun. injection Hrun as <- <-. by injection Hs as <-. }
  destruct (Hset ltac:(done)) as [H1 H2].
  by exists job', iso', sh'.
Defined.

(** The descriptor at address 1 has bytecode and the debugger asks for a
    compile that produces bytecode: the compile goes through and the
    descriptor has the new code and bytecode. *)
Lemma bytecode_is_reinstalled_only_for_debug_witness :
  exists job iso' sh',
    GenerateUnoptimizedCode Demo.ext (Demo.function_parse_info Demo.plain_literal)
      (DemoFailure.bytecode_info true) DemoFailure.iso_with_bytecode =
      Ret ((true, job), iso') /\
    shared_infos iso' !! 1 = Some sh' /\
    sfi_has_bytecode_array sh' = true /\
    sfi_code sh' = Demo.baseline_code.
Proof.
  destruct (GenerateUnoptimizedCode Demo.ext
              (Demo.function_parse_info Demo.plain_literal)
              (DemoFailure.bytecode_info true) DemoFailure.iso_with_bytecode)
    as [[[ok job] iso']|] eqn:Hrun; [|by vm_compute in Hrun].
  destruct ok; [|by vm_compute in Hrun].
  assert (Hb : has_bytecode_array (compilation_info job) = true /\
               code (compilation_info job) = Some Demo.baseline_code).
  { vm_compute in Hrun. by injection Hrun as <- <-. }
  destruct Hb as [Hb Hc].
  destruct (bytecode_is_reinstalled_only_for_debug Demo.ext
              (Demo.function_parse_info Demo.plain_literal)
              (DemoFailure.bytecode_info true) 1 DemoFailure.with_bytecode
              DemoFailure.iso_with_bytecode job iso' eq_refl eq_refl eq_refl
              Hrun Hb)
    as (_ & _ & _ & sh' & Hsh & Hsb & Hcode).
  exists job, iso', sh'. split; [done|]. split; [done|]. split; [done|].
  rewrite Hc in Hcode. by injection Hcode.
Defined.

(** For the function that opens an asm module the validator runs, fails in
    the concrete back end, and the interpreter compiles it: two jobs. *)
Lemma asm_validation_runs_only_when_allowed_witness :
  exists job iso',
    GenerateUnoptimizedCode Demo.ext
      (Demo.function_parse_info Demo.asm_module_literal)
      (Demo.baseline_info Demo.asm_module_literal) Demo.iso =
      Ret ((true, job), iso') /\
    backend job = Interpreter /\
    jobs_created iso' = 2.
Proof.
  destruct (GenerateUnoptimizedCode Demo.ext
              (Demo.function_parse_info Demo.asm_module_literal)
              (Demo.baseline_info Demo.asm_module_literal) Demo.iso)
    as [[[ok job] iso']|] eqn:Hrun; [|by vm_compute in Hrun].
  destruct ok; [|by vm_compute in Hrun].
  destruct (asm_validation_runs_only_when_allowed Demo.ext
              (Demo.function_parse_info Demo.asm_module_literal)
              (Demo.baseline_info Demo.asm_module_literal)
              Demo.asm_module_literal Demo.iso true job iso' eq_refl Hrun)
    as (_ & Hjobs & _).
  assert (Hb : backend job = Interpreter).
  { vm_compute in Hrun. by injection Hrun as <- <-. }
  exists job, iso'. split; [done|]. split; [done|].
  by rewrite Hjobs, Hb.
Defined.

(** ** Requests for optimized code *)

Section OptimizingRequests.

Variable ext : Collaborators.

Lemma marker_cleared_run iso f fn :
  functions iso !! f = Some fn ->
  (if HasOptimizationMarker fn then ClearOptimizationMarker f else ret tt) iso =
  Ret (tt, marker_cleared f fn iso).
Proof.
  intros Hf. unfold marker_cleared, ClearOptimizationMarker.
  destruct (HasOptimizationMarker fn); [|done].
  by rewrite (update_function_run _ _ _ _ Hf).
Qed.

Lemma marker_cleared_function iso f fn :
  functions iso !! f = Some fn ->
  functions (marker_cleared f fn iso) !! f = Some (set_optimization_marker kNone fn).
Proof.
  intros Hf. unfold marker_cleared.
  destruct (HasOptimizationMarker fn) eqn:Hm; simpl.
  - by rewrite lookup_insert_eq.
  - by rewrite (marker_none_eta _ Hm).
Qed.

(** The outcomes of GetOptimizedCode, step by step: the marker is cleared,
    the cache is consulted; on a miss a job is constructed, and either the
    function is refused and the job aborted, or the job is run now
    (kNotConcurrent) or handed to GetOptimizedCodeLater (kConcurrent). *)
Lemma GetOptimizedCode_inv f mode osr frame iso r dj iso' :
  GetOptimizedCode ext f mode osr frame iso = Ret ((r, dj), iso') ->
  exists fn cached i_l,
    functions iso !! f = Some fn /\
    GetCodeFromOptimizedCodeCache f osr (marker_cleared f fn iso) = Ret (cached, i_l) /\
    match cached with
    | Some c => r = Some c /\ dj = None /\ iso' = i_l
    | None =>
        exists sh i_t,
          shared_infos i_l !! shared fn = Some sh /\
          sfi_is_compiled sh = true /\
          update_feedback_vector f (set_profiler_ticks 0) i_l = Ret (tt, i_t) /\
          has_pending_exception i_t = false /\
          let i_j := set_jobs_created (S (jobs_created i_t)) i_t in
          let job0 := constructed_job i_t f fn osr in
          if HasBreakInfo sh
             || (optimization_disabled sh &&
                 bool_decide (disable_optimization_reason sh =
                              kOptimizationDisabledForTest))
             || (negb (FLAG_opt (flags i_t))
                 || negb (PassesFilter ext sh (FLAG_turbo_filter (flags i_t))))
          then
            r = None /\
            exists reason info,
              CompilationInfo_AbortOptimization reason (compilation_info job0) i_j
                = Ret (info, iso') /\
              dj = Some (set_compilation_info info job0)
          else
            match mode with
            | kNotConcurrent =>
                exists ok job' i_n,
                  GetOptimizedCodeNow ext (job_to_run i_t f fn osr sh) i_j
                    = Ret ((ok, job'), i_n) /\
                  dj = Some job' /\
                  if ok then r = code (compilation_info job') /\ iso' = i_n
                  else r = None /\
                       iso' = (if has_pending_exception i_n
                               then clear_pending_exception i_n else i_n)
            | kConcurrent =>
                exists ok job' i_q,
                  GetOptimizedCodeLater ext (job_to_run i_t f fn osr sh) i_j
                    = Ret ((ok, job'), i_q) /\
                  if ok then
                    dj = None /\
                    r = Some (if is_interpreter_trampoline_builtin ext (fn_code fn)
                              then InterpreterEntryTrampoline
                              else CheckOptimizationMarker) /\
                    iso' = set_functions
                             (<[f := set_optimization_marker kInOptimizationQueue
                                       (set_optimization_marker kNone fn)]>
                                (functions i_q)) i_q
                  else dj = Some job' /\ r = None /\
                       iso' = (if has_pending_exception i_q
                               then clear_pending_exception i_q else i_q)
            end
    end.
Proof.
  unfold GetOptimizedCode. intros H.
  bind_inv H as fn i E. apply get_function_inv in E as [Hf ->].
  bind_inv H as i0 i E. injection E as <- <-.
  bind_inv H as u i E. apply DCHECK_inv in E as [_ ->].
  bind_inv H as u' i E. apply DCHECK_inv in E as [_ ->].
  rewrite (bind_run _ _ _ _ _ (marker_cleared_run _ _ _ Hf)) in H.
  pose proof (marker_cleared_function _ _ _ Hf) as Hfc.
  set (i_c := marker_cleared f fn iso) in *.
  bind_inv H as cached i_l E.
  exists fn, cached, i_l. split; [done|]. split; [exact E|].
  apply lookup_untouched in E as (Hfl & Hsl & Hpl).
  destruct cached as [c|]; [by injection H as <- <- <-|].
  bind_inv H as sh i E. apply get_shared_inv in E as [Hs ->].
  bind_inv H as u1 i E. apply DCHECK_inv in E as [Hcomp ->].
  bind_inv H as u2 i_t E. destruct u2.
  exists sh, i_t. split; [done|]. split; [done|]. split; [done|].
  apply update_feedback_vector_untouched in E as (Hft & Hst & Hpt).
  bind_inv H as i1 i E. injection E as <- <-.
  bind_inv H as u3 i E. apply DCHECK_inv in E as [Hpend ->].
  split; [by destruct (has_pending_exception i_t)|].
  bind_inv H as u4 i E. apply DCHECK_inv in E as [_ ->].
  assert (Hft' : functions i_t !! f = Some (set_optimization_marker kNone fn))
    by by rewrite Hft, Hfl.
  rewrite (bind_run _ _ _ _ _
             (Pipeline_NewCompilationJob_run i_t f _ _ Hft')) in H.
  cbv zeta.
  set (i_j := set_jobs_created (S (jobs_created i_t)) i_t) in *.
  change (set_compilation_info
            (SetOptimizingForOsr osr
               (compilation_info
                  (constructed_job i_t f (set_optimization_marker kNone fn) None)))
            (constructed_job i_t f (set_optimization_marker kNone fn) None))
    with (constructed_job i_t f fn osr) in H.
  change (SetOptimizingForOsr osr
            (compilation_info
               (constructed_job i_t f (set_optimization_marker kNone fn) None)))
    with (compilation_info (constructed_job i_t f fn osr)) in H.
  change (shared_info (compilation_info (constructed_job i_t f fn osr)))
    with (Some (shared fn)) in H.
  assert (Hsj : shared_infos i_j !! shared fn = Some sh)
    by (subst i_j; simpl; by rewrite Hst).
  rewrite (bind_run _ _ _ _ _ (get_shared_run _ _ _ Hsj)) in H.
  destruct (HasBreakInfo sh); simpl.
  { bind_inv H as info' i E. injection H as <- <- <-. split; [done|].
    by exists kFunctionBeingDebugged, info'. }
  destruct (optimization_disabled sh && _); simpl.
  { bind_inv H as info' i E. injection H as <- <- <-. split; [done|].
    by exists kOptimizationDisabledForTest, info'. }
  destruct (negb (FLAG_opt (flags i_t)) || _); simpl.
  { bind_inv H as info' i E. injection H as <- <- <-. split; [done|].
    by exists kOptimizationDisabled, info'. }
  bind_inv H as u5 i E. apply DCHECK_inv in E as [_ ->].
  bind_inv H as u6 i E. apply DCHECK_inv in E as [_ ->].
  fold (job_to_run i_t f fn osr sh) in H.
  bind_inv H as attempt i_a E.
  destruct mode.
  - bind_inv E as [ok job'] i_n E0. exists ok, job', i_n.
    split; [done|].
    destruct ok.
    + injection E as <- <-. by injection H as <- <- <-.
    + injection E as <- <-. unfold bind, get_isolate in H.
      destruct (has_pending_exception i_n); by injection H as <- <- <-.
  - bind_inv E as [ok job'] i_q E0. exists ok, job', i_q.
    split; [done|].
    apply GetOptimizedCodeLater_untouched in E0 as (Hfq & _).
    destruct ok.
    + bind_inv E as u7 i_m E1.
      apply update_function_inv in E1 as (fn1 & Hf1 & ->).
      rewrite Hfq in Hf1. simpl in Hf1. rewrite Hft' in Hf1. injection Hf1 as <-.
      bind_inv E as fn2 i E2. apply get_function_inv in E2 as [Hf2 ->].
      simpl in Hf2. rewrite lookup_insert_eq in Hf2. injection Hf2 as <-. simpl in E.
      destruct (is_interpreter_trampoline_builtin ext (fn_code fn));
        injection E as <- <-; by injection H as <- <- <-.
    + injection E as <- <-. unfold bind, get_isolate in H.
      destruct (has_pending_exception i_q); by injection H as <- <- <-.
Qed.

Lemma lookup_hit_inv f osr iso c iso' :
  GetCodeFromOptimizedCodeCache f osr iso = Ret (Some c, iso') ->
  iso' = iso /\ osr = None /\
  optimized_code_slot iso f = Some c /\
  code_marked_for_deoptimization iso c = false.
Proof.
  unfold GetCodeFromOptimizedCodeCache. intros H.
  bind_inv H as fn i E. apply get_function_inv in E as [Hf ->].
  destruct osr as [id|]; [done|]. simpl in H.
  bind_inv H as cell i E. unfold deref in E.
  destruct (feedback_cells iso !! feedback_vector_cell fn) as [cell'|] eqn:Hc; [|done].
  injection E as <- <-. destruct cell' as [v|]; [|done].
  destruct (optimized_code v) as [c0|] eqn:Hv.
  - destruct (code_marked_for_deoptimization iso c0) eqn:Hm.
    + rewrite (bind_run _ _ _ _ _ (Evict_marked _ _ _ _ _ Hf Hc Hv Hm)) in H.
      rewrite (bind_run _ _ _ _ _
                 (feedback_vector_run (evicted iso (feedback_vector_cell fn) v) f fn
                    (ClearOptimizedCode v) Hf
                    ltac:(unfold evicted; simpl; by rewrite lookup_insert_eq))) in H.
      done.
    + rewrite (bind_run _ _ _ _ _
                 (Evict_unmarked _ _ _ _ Hf Hc ltac:(by rewrite Hv))) in H.
      rewrite (bind_run _ _ _ _ _ (feedback_vector_run _ _ _ _ Hf Hc)), Hv in H.
      bind_inv H as i0 i E. injection E as <- <-.
      bind_inv H as u i E. apply DCHECK_inv in E as [_ ->].
      bind_inv H as sh i E. apply get_shared_inv in E as [_ ->].
      bind_inv H as u1 i E. apply DCHECK_inv in E as [_ ->].
      injection H as <- <-. split; [done|]. split; [done|].
      split; [|done]. unfold optimized_code_slot. by rewrite Hf, Hc.
  - rewrite (bind_run _ _ _ _ _
               (Evict_unmarked _ _ _ _ Hf Hc ltac:(by rewrite Hv))) in H.
    by rewrite (bind_run _ _ _ _ _ (feedback_vector_run _ _ _ _ Hf Hc)), Hv in H.
Qed.

(** A job GetOptimizedCodeLater has queued went through PrepareJob first. *)
Lemma GetOptimizedCodeLater_queued job iso job' iso' :
  GetOptimizedCodeLater ext job iso = Ret ((true, job'), iso') ->
  state job' = kReadyToExecute /\
  same_target (compilation_info job) (compilation_info job') /\
  input_queue iso' = input_queue iso ++ [job'] /\
  jobs_created iso' = jobs_created iso /\
  feedback_cells iso' = feedback_cells iso /\
  marked_for_deoptimization iso' = marked_for_deoptimization iso /\
  IsQueueAvailable iso = true /\ HighMemoryPressure iso = false.
Proof.
  unfold GetOptimizedCodeLater. intros H.
  bind_inv H as i0 i E. injection E as <- <-.
  destruct (IsQueueAvailable iso); [|done]. simpl in H.
  destruct (HighMemoryPressure iso); [done|].
  bind_inv H as parsed i1 E.
  pose proof (parse_for_optimization_post ext (same_on input_queue) ltac:(done)
                _ _ _ _ E) as [Hq _].
  pose proof (parse_for_optimization_post ext (same_on jobs_created) ltac:(done)
                _ _ _ _ E) as [Hj _].
  pose proof (parse_for_optimization_post ext (same_on feedback_cells) ltac:(done)
                _ _ _ _ E) as [Hc _].
  pose proof (parse_for_optimization_post ext (same_on marked_for_deoptimization)
                ltac:(done) _ _ _ _ E) as [Hm Hp].
  clear E. destruct parsed as [job1|]; [|done]. destruct Hp as [Ht1 _].
  bind_inv H as [st1 job2] i2 E.
  apply PrepareJob_inv in E as (-> & _ & _ & _ & Ht2 & _ & Hstate).
  simpl in *. destruct st1; [|done]. simpl in H.
  unfold QueueForOptimization, bind, modify, ret in H.
  injection H as <- <-. simpl. unfold same_on in *.
  split; [done|]. split; [by eapply same_target_trans|].
  split; [by rewrite Hq|]. done.
Qed.

#[global] Instance only_pending_differs_preorder : PreOrder only_pending_differs.
Proof.
  split.
  - intros iso. unfold only_pending_differs. by destruct iso.
  - intros a b c. unfold only_pending_differs. by intros -> ->.
Qed.

(** What a synchronous compile leaves behind, by its result. *)
Lemma GetOptimizedCodeNow_inv job iso ok job' iso' :
  GetOptimizedCodeNow ext job iso = Ret ((ok, job'), iso') ->
  same_target (compilation_info job) (compilation_info job') /\
  if ok then
    state job' = kSucceeded /\
    exists i,
      i = set_has_pending_exception false iso /\
      InsertCodeIntoOptimizedCodeCache (compilation_info job') i = Ret (tt, iso')
  else only_pending_differs iso iso' /\ (job' = job \/ state job' = kFailed).
Proof.
  unfold GetOptimizedCodeNow. intros H.
  bind_inv H as parsed i1 E.
  apply (parse_for_optimization_post ext only_pending_differs ltac:(done)) in E
    as [Hi1 Hp].
  destruct parsed as [job1|]; [|injection H as <- <- <-; split; [done|]; by split; [|left]].
  destruct Hp as [Ht1 _].
  bind_inv H as [st1 job2] i2 E.
  apply PrepareJob_inv in E as (-> & _ & _ & _ & Ht2 & _ & Hst1). simpl in *.
  pose proof (same_target_trans _ _ _ Ht1 Ht2) as Ht12.
  destruct st1; simpl in H;
    [|injection H as <- <- <-; split; [done|]; by split; [|right]].
  bind_inv H as [st2 job3] i3 E.
  apply ExecuteJob_inv in E as (-> & _ & _ & Ht3 & _ & Hst2). simpl in *.
  pose proof (same_target_trans _ _ _ Ht12 Ht3) as Ht13.
  destruct st2; simpl in H;
    [|injection H as <- <- <-; split; [done|]; by split; [|right]].
  bind_inv H as [st3 job4] i4 E.
  apply FinalizeJob_inv in E as (-> & _ & _ & _ & _ & Ht4 & _ & Hst). simpl in *.
  pose proof (same_target_trans _ _ _ Ht13 Ht4) as Ht14.
  destruct st3; simpl in H;
    [|injection H as <- <- <-; split; [done|]; by split; [|right]].
  bind_inv H as u1 i5 E. apply DCHECK_inv in E as [_ ->].
  bind_inv H as i6 i7 E. injection E as <- <-.
  bind_inv H as u2 i8 E. apply DCHECK_inv in E as [Hpend ->].
  bind_inv H as u3 i9 E. injection H as <- <- <-. destruct u3.
  split; [done|]. split; [done|]. exists i1. split; [|done].
  rewrite Hi1. by destruct (has_pending_exception i1).
Qed.

Lemma GetOptimizedCodeLater_refused job iso job' iso' :
  GetOptimizedCodeLater ext job iso = Ret ((false, job'), iso') ->
  input_queue iso' = input_queue iso /\ jobs_created iso' = jobs_created iso /\
  same_target (compilation_info job) (compilation_info job').
Proof.
  unfold GetOptimizedCodeLater. intros H.
  bind_inv H as i0 i E. injection E as <- <-.
  destruct (negb (IsQueueAvailable iso)); [by injection H as <- <-|].
  destruct (HighMemoryPressure iso); [by injection H as <- <-|].
  bind_inv H as parsed i1 E.
  pose proof (parse_for_optimization_post ext (same_on input_queue) ltac:(done)
                _ _ _ _ E) as [Hq _].
  pose proof (parse_for_optimization_post ext (same_on jobs_created) ltac:(done)
                _ _ _ _ E) as [Hj Hp].
  clear E. destruct parsed as [job1|]; [|by injection H as <- <-].
  destruct Hp as [Ht1 _].
  bind_inv H as [st1 job2] i2 E.
  apply PrepareJob_inv in E as (-> & _ & _ & _ & Ht2 & _).
  simpl in *. destruct st1; simpl in H.
  - unfold QueueForOptimization, bind, modify, ret in H. done.
  - injection H as <- <-. split; [done|]. split; [done|].
    by eapply same_target_trans.
Qed.

(** The steps every request goes through before a job exists leave the
    queue and the job count alone. *)
Lemma before_the_job f fn osr iso cached i_l i_t :
  functions iso !! f = Some fn ->
  GetCodeFromOptimizedCodeCache f osr (marker_cleared f fn iso) = Ret (cached, i_l) ->
  update_feedback_vector f (set_profiler_ticks 0) i_l = Ret (tt, i_t) ->
  input_queue i_t = input_queue iso /\ jobs_created i_t = jobs_created iso /\
  functions i_t !! f = Some (set_optimization_marker kNone fn) /\
  thread_id i_t = thread_id iso.
Proof.
  intros Hf Hl Ht.
  pose proof (marker_cleared_function _ _ _ Hf) as Hfc.
  assert (Hc : input_queue (marker_cleared f fn iso) = input_queue iso /\
               jobs_created (marker_cleared f fn iso) = jobs_created iso /\
               thread_id (marker_cleared f fn iso) = thread_id iso).
  { unfold marker_cleared. by destruct (HasOptimizationMarker fn). }
  destruct Hc as (Hc1 & Hc2 & Hc3).
  pose proof (preserves_elim _ _ _ _ _
                (frame_GetCodeFromOptimizedCodeCache (same_on input_queue)
                   ltac:(done) f osr) Hl) as Hl1.
  pose proof (preserves_elim _ _ _ _ _
                (frame_GetCodeFromOptimizedCodeCache (same_on jobs_created)
                   ltac:(done) f osr) Hl) as Hl2.
  pose proof (preserves_elim _ _ _ _ _
                (frame_GetCodeFromOptimizedCodeCache (same_on thread_id)
                   ltac:(done) f osr) Hl) as Hl3.
  pose proof (preserves_elim _ _ _ _ _
                (frame_GetCodeFromOptimizedCodeCache (same_on functions)
                   ltac:(done) f osr) Hl) as Hl4.
  pose proof (preserves_elim (same_on input_queue) _ _ _ _
                (preserves_update_feedback_vector (same_on input_queue) f _ ltac:(done)) Ht) as Ht1.
  pose proof (preserves_elim (same_on jobs_created) _ _ _ _
                (preserves_update_feedback_vector (same_on jobs_created) f _ ltac:(done)) Ht) as Ht2.
  pose proof (preserves_elim (same_on thread_id) _ _ _ _
                (preserves_update_feedback_vector (same_on thread_id) f _ ltac:(done)) Ht) as Ht3.
  pose proof (preserves_elim (same_on functions) _ _ _ _
                (preserves_update_feedback_vector (same_on functions) f _ ltac:(done)) Ht) as Ht4.
  unfold same_on in *. repeat split; congruence.
Qed.

Lemma optimized_code_slot_marker_cleared iso f fn g :
  functions iso !! f = Some fn ->
  optimized_code_slot (marker_cleared f fn iso) g = optimized_code_slot iso g.
Proof.
  intros Hf. unfold marker_cleared.
  destruct (HasOptimizationMarker fn); [|done].
  unfold optimized_code_slot. simpl.
  destruct (decide (g = f)) as [->|Hne].
  - by rewrite lookup_insert_eq, Hf.
  - by rewrite lookup_insert_ne.
Qed.

(** X6.  In concurrent mode GetOptimizedCode never hands back freshly
    optimized code.  When it returns code for a request without OSR target,
    no job is left to destroy, and either the code is the one cached in the
    closure's feedback vector, not marked for deoptimization, and only the
    closure's optimization marker was cleared; or one job was constructed,
    prepared (state kReadyToExecute) and appended to the dispatcher's queue,
    the closure is marked kInOptimizationQueue, and the code returned is the
    InterpreterEntryTrampoline builtin for an interpreted closure and the
    CheckOptimizationMarker builtin otherwise. *)
Theorem concurrent_request_queues_or_serves_cache
  (f : nat) (iso : Isolate) (c : Code) (dj : option CompilationJob)
  (iso' : Isolate) :
  GetOptimizedCode ext f kConcurrent None None iso = Ret ((Some c, dj), iso') ->
  dj = None /\
  exists fn,
    functions iso !! f = Some fn /\
    ((optimized_code_slot iso f = Some c /\
      code_marked_for_deoptimization iso c = false /\
      iso' = marker_cleared f fn iso)
     \/
     (exists job,
        input_queue iso' = input_queue iso ++ [job] /\
        state job = kReadyToExecute /\
        closure (compilation_info job) = Some f /\
        osr_ast_id (compilation_info job) = None /\
        functions iso' !! f =
          Some (set_optimization_marker kInOptimizationQueue fn) /\
        c = (if is_interpreter_trampoline_builtin ext (fn_code fn)
             then InterpreterEntryTrampoline else CheckOptimizationMarker) /\
        jobs_created iso' = S (jobs_created iso))).
Proof.
  intros H.
  apply GetOptimizedCode_inv in H as (fn & cached & i_l & Hf & Hl & Hrest).
  destruct cached as [c0|].
  - destruct Hrest as ([= ->] & -> & ->). split; [done|]. exists fn. split; [done|].
    left. apply lookup_hit_inv in Hl as (-> & _ & Hslot & Hm).
    rewrite (optimized_code_slot_marker_cleared _ _ _ _ Hf) in Hslot.
    split; [done|]. split; [|done].
    unfold code_marked_for_deoptimization, marker_cleared in *.
    by destruct (HasOptimizationMarker fn).
  - destruct Hrest as (sh & i_t & Hs & Hcomp & Ht & Hp & Hrest). cbv zeta in Hrest.
    destruct (before_the_job _ _ _ _ _ _ _ Hf Hl Ht) as (Hq & Hj & Hft & _).
    destruct (_ || _); [by destruct Hrest as [? _]|].
    destruct Hrest as (ok & job' & i_q & Hlater & Hrest).
    destruct ok; [|by destruct Hrest as (_ & ? & _)].
    destruct Hrest as (-> & [= ->] & ->). split; [done|]. exists fn. split; [done|].
    right. exists job'.
    apply GetOptimizedCodeLater_queued in Hlater
      as (Hstate & (Hcl & _ & Hosr & _) & Hqueue & Hjobs & _).
    simpl in *. split; [by rewrite Hqueue, Hq|]. split; [done|].
    split; [by rewrite Hcl; destruct (sfi_has_bytecode_array sh)|].
    split; [by rewrite Hosr; destruct (sfi_has_bytecode_array sh)|].
    split; [by rewrite lookup_insert_eq|]. split; [done|]. by rewrite Hjobs, Hj.
Qed.

(** X7.  When GetOptimizedCode returns no code, in either mode and with
    or without an OSR target, the cache was missed and exactly one job was
    constructed, and that job is destroyed at return; nothing was queued, no
    exception is left pending, the closure carries no optimization marker,
    and every closure and descriptor still has the code it had. *)
Theorem failed_optimization_is_cleaned_up
  (f : nat) (mode : ConcurrencyMode) (osr : BailoutId)
  (frame : option JavaScriptFrame) (iso : Isolate)
  (dj : option CompilationJob) (iso' : Isolate) (fn : JSFunction) :
  functions iso !! f = Some fn ->
  GetOptimizedCode ext f mode osr frame iso = Ret ((None, dj), iso') ->
  is_Some dj /\
  jobs_created iso' = S (jobs_created iso) /\
  input_queue iso' = input_queue iso /\
  has_pending_exception iso' = false /\
  functions iso' !! f = Some (set_optimization_marker kNone fn) /\
  same_code_installed iso iso'.
Proof.
  intros Hf H.
  destruct (GetOptimizedCode_fallback_state ext _ _ _ _ _ _ _ _ H Hf)
    as (Hsame & Hpend & Hfn & _).
  apply GetOptimizedCode_inv in H as (fn' & cached & i_l & Hf' & Hl & Hrest).
  rewrite Hf in Hf'. injection Hf' as <-.
  destruct cached as [c0|]; [by destruct Hrest as [? _]|].
  destruct Hrest as (sh & i_t & Hs & Hcomp & Ht & Hp & Hrest). cbv zeta in Hrest.
  destruct (before_the_job _ _ _ _ _ _ _ Hf Hl Ht) as (Hq & Hj & Hft & _).
  assert (is_Some dj /\ jobs_created iso' = S (jobs_created iso) /\
          input_queue iso' = input_queue iso) as (? & ? & ?); [|done].
  destruct (_ || _).
  - destruct Hrest as (_ & reason & info & Habort & ->). split; [done|].
    pose proof (preserves_elim _ _ _ _ _
                  (frame_CompilationInfo_AbortOptimization (same_on jobs_created)
                     ltac:(done) reason _) Habort) as Hj1.
    apply AbortOptimization_untouched in Habort as (_ & _ & Hq1 & _).
    unfold same_on in *. simpl in *. split; congruence.
  - destruct mode.
    + destruct Hrest as (ok & job' & i_n & Hnow & -> & Hrest). split; [done|].
      apply GetOptimizedCodeNow_untouched in Hnow as (_ & _ & Hq1 & Hj1).
      simpl in *.
      destruct ok; [destruct Hrest as [_ ->]|destruct Hrest as [_ ->]].
      * split; congruence.
      * destruct (has_pending_exception i_n); simpl; split; congruence.
    + destruct Hrest as (ok & job' & i_q & Hlater & Hrest).
      destruct ok; [by destruct Hrest as (_ & ? & _)|].
      destruct Hrest as (-> & _ & ->). split; [done|].
      apply GetOptimizedCodeLater_refused in Hlater as (Hq1 & Hj1 & _).
      simpl in *.
      destruct (has_pending_exception i_q); simpl; split; congruence.
Qed.

(** X8.  An OSR request never consults the cache: whenever
    Compiler::GetOptimizedCodeForOSR returns, an OSR target and a frame were
    given (anything else trips an assertion), exactly one job was
    constructed for the closure and that OSR target, even if the closure's
    feedback vector holds valid optimized code, nothing was queued, and the
    job is destroyed at return.  If code is returned, it is the code of that
    job and the job went through all three phases; if none is returned, no
    exception is pending. *)
Theorem osr_request_always_compiles
  (f : nat) (osr : BailoutId) (frame : option JavaScriptFrame) (iso : Isolate)
  (r : option Code) (dj : option CompilationJob) (iso' : Isolate) :
  Compiler_GetOptimizedCodeForOSR ext f osr frame iso = Ret ((r, dj), iso') ->
  is_Some osr /\ is_Some frame /\
  jobs_created iso' = S (jobs_created iso) /\
  input_queue iso' = input_queue iso /\
  exists job,
    dj = Some job /\
    closure (compilation_info job) = Some f /\
    osr_ast_id (compilation_info job) = osr /\
    match r with
    | Some c => state job = kSucceeded /\ code (compilation_info job) = Some c
    | None => has_pending_exception iso' = false
    end.
Proof.
  unfold Compiler_GetOptimizedCodeForOSR. intros H.
  bind_inv H as u i E. apply DCHECK_inv in E as [Hosr ->].
  bind_inv H as u' i E. apply DCHECK_inv in E as [Hframe ->].
  destruct osr as [id|]; [|done]. split; [done|].
  split; [by apply bool_decide_eq_true_1 in Hframe|].
  pose proof H as Hrun.
  apply GetOptimizedCode_inv in H as (fn & cached & i_l & Hf & Hl & Hrest).
  rewrite (lookup_osr _ _ _ id (marker_cleared_function _ _ _ Hf)) in Hl.
  injection Hl as <- <-.
  destruct Hrest as (sh & i_t & Hs & Hcomp & Ht & Hp & Hrest). cbv zeta in Hrest.
  destruct (before_the_job _ _ (Some id) _ _ _ _ Hf
              (lookup_osr _ _ _ id (marker_cleared_function _ _ _ Hf)) Ht)
    as (Hq & Hj & Hft & _).
  destruct (_ || _).
  - destruct Hrest as (-> & reason & info & Habort & ->).
    destruct (GetOptimizedCode_fallback_state ext _ _ _ _ _ _ _ _ Hrun Hf)
      as (_ & Hpend & _).
    pose proof (preserves_elim _ _ _ _ _
                  (frame_CompilationInfo_AbortOptimization (same_on jobs_created)
                     ltac:(done) reason _) Habort) as Hj1.
    apply AbortOptimization_untouched in Habort as (_ & _ & Hq1 & ->).
    unfold same_on in *. simpl in *.
    split; [congruence|]. split; [congruence|]. by eexists.
  - destruct Hrest as (ok & job' & i_n & Hnow & -> & Hrest).
    pose proof (GetOptimizedCodeNow_untouched _ _ _ _ _ Hnow) as (_ & _ & Hq1 & Hj1).
    apply GetOptimizedCodeNow_inv in Hnow as ((Hcl & _ & Hosr' & _) & Hnow).
    simpl in *.
    assert (Htarget : closure (compilation_info job') = Some f /\
                      osr_ast_id (compilation_info job') = Some id).
    { rewrite Hcl, Hosr'. by destruct (sfi_has_bytecode_array sh). }
    destruct Htarget as [Hc1 Hc2].
    destruct ok.
    + destruct Hrest as [-> ->]. destruct Hnow as (Hstate & i & _ & Hins).
      split; [congruence|]. split; [congruence|]. exists job'.
      split; [done|]. split; [done|]. split; [done|].
      unfold InsertCodeIntoOptimizedCodeCache in Hins.
      by destruct (code (compilation_info job')).
    + destruct Hrest as [-> ->].
      destruct (GetOptimizedCode_fallback_state ext _ _ _ _ _ _ _ _ Hrun Hf)
        as (_ & Hpend & _).
      split; [destruct (has_pending_exception i_n); simpl; congruence|].
      split; [destruct (has_pending_exception i_n); simpl; congruence|].
      by exists job'.
Qed.

(** X9.  A synchronous optimizing compile that fails, because parsing or
    analysis failed or because a phase reported FAILED, changes nothing but
    the pending-exception flag: closures, descriptors, feedback vectors, the
    optimized code cache, the queue and the job count are as they were.  The
    job comes back untouched (parsing failed) or in state kFailed. *)
Theorem failed_synchronous_compile_changes_nothing
  (job : CompilationJob) (iso : Isolate) (job' : CompilationJob) (iso' : Isolate) :
  GetOptimizedCodeNow ext job iso = Ret ((false, job'), iso') ->
  functions iso' = functions iso /\
  shared_infos iso' = shared_infos iso /\
  feedback_cells iso' = feedback_cells iso /\
  same_cache iso iso' /\
  input_queue iso' = input_queue iso /\
  jobs_created iso' = jobs_created iso /\
  (job' = job \/ state job' = kFailed).
Proof.
  intros H. apply GetOptimizedCodeNow_inv in H as (_ & Hd & Hjob).
  unfold only_pending_differs in Hd.
  rewrite Hd. unfold same_cache, optimized_code_cache. simpl. done.
Qed.

End OptimizingRequests.

(** The concurrent request for closure 1 on the concrete isolate queues one
    job and marks the closure. *)
Lemma concurrent_request_queues_or_serves_cache_witness :
  exists c iso' job,
    GetOptimizedCode Demo.ext 1 kConcurrent None None Demo.iso =
      Ret ((Some c, None), iso') /\
    input_queue iso' = [job] /\
    state job = kReadyToExecute.
Proof.
  destruct (GetOptimizedCode Demo.ext 1 kConcurrent None None Demo.iso)
    as [[[r dj] iso']|] eqn:Hrun; [|by vm_compute in Hrun].
  destruct r as [c|]; [|by vm_compute in Hrun].
  destruct (concurrent_request_queues_or_serves_cache Demo.ext _ _ _ _ _ Hrun)
    as (-> & fn & Hf & [(Hslot & _)|(job & Hq & Hst & _)]).
  - by vm_compute in Hslot.
  - by exists c, iso', job.
Defined.

(** The queue is full: the concurrent request for closure 1 returns no
    code, its one job is dropped and the closure is as it was. *)
Lemma failed_optimization_is_cleaned_up_witness :
  exists dj iso',
    GetOptimizedCode Demo.ext 1 kConcurrent None None Demo.iso_queue_full =
      Ret ((None, dj), iso') /\
    is_Some dj /\
    jobs_created iso' = 1 /\
    functions iso' !! 1 = Some (Demo.closure_on 1).
Proof.
  destruct (GetOptimizedCode Demo.ext 1 kConcurrent None None Demo.iso_queue_full)
    as [[[r dj] iso']|] eqn:Hrun; [|by vm_compute in Hrun].
  destruct r as [c|]; [by vm_compute in Hrun|].
  destruct (failed_optimization_is_cleaned_up Demo.ext 1 kConcurrent None None
              Demo.iso_queue_full dj iso' (Demo.closure_on 1) eq_refl Hrun)
    as (Hdj & Hj & _ & _ & Hf & _).
  by exists dj, iso'.
Defined.

(** An OSR request for closure 1, whose vector caches valid code: a job is
    constructed and run all the same. *)
Lemma osr_request_always_compiles_witness :
  exists c job iso',
    Compiler_GetOptimizedCodeForOSR Demo.ext 1 (Some 4)
      (Some Demo.interpreted_frame) Demo.iso_cached =
      Ret ((Some c, Some job), iso') /\
    jobs_created iso' = 1 /\
    state job = kSucceeded.
Proof.
  destruct (Compiler_GetOptimizedCodeForOSR Demo.ext 1 (Some 4)
              (Some Demo.interpreted_frame) Demo.iso_cached)
    as [[[r dj] iso']|] eqn:Hrun; [|by vm_compute in Hrun].
  destruct r as [c|]; [|by vm_compute in Hrun].
  destruct (osr_request_always_compiles Demo.ext _ _ _ _ _ _ _ Hrun)
    as (_ & _ & Hj & _ & job & -> & _ & _ & Hst & _).
  by exists c, job, iso'.
Defined.

(** With back ends whose finalize phase fails, the synchronous compile of
    closure 1 fails and the heap is as it was. *)
Lemma failed_synchronous_compile_changes_nothing_witness :
  exists job' iso',
    GetOptimizedCodeNow DemoFailure.ext (Demo.job_in kReadyToPrepare) Demo.iso =
      Ret ((false, job'), iso') /\
    functions iso' = functions Demo.iso /\
    state job' = kFailed.
Proof.
  destruct (GetOptimizedCodeNow DemoFailure.ext (Demo.job_in kReadyToPrepare)
              Demo.iso)
    as [[[ok job'] iso']|] eqn:Hrun; [|by vm_compute in Hrun].
  destruct ok; [by vm_compute in Hrun|].
  destruct (failed_synchronous_compile_changes_nothing DemoFailure.ext _ _ _ _ Hrun)
    as (Hf & _ & _ & _ & _ & _ & Hjob).
  exists job', iso'. split; [done|]. split; [done|].
  destruct Hjob as [->|?]; [|done].
  vm_compute in Hrun. congruence.
Defined.

(** ** The queue, finalization and the cache *)

Section DispatcherQueue.

Variable ext : Collaborators.

Lemma marker_cleared_queue iso f fn :
  input_queue (marker_cleared f fn iso) = input_queue iso.
Proof. unfold marker_cleared. by destruct (HasOptimizationMarker fn). Qed.

Lemma sync_GetOptimizedCode_queue f osr frame :
  preserves (same_on input_queue) (GetOptimizedCode ext f kNotConcurrent osr frame).
Proof.
  intros iso.
  destruct (GetOptimizedCode ext f kNotConcurrent osr frame iso)
    as [[[r dj] iso']|] eqn:H; [|done].
  unfold same_on.
  apply GetOptimizedCode_inv in H as (fn & cached & i_l & Hf & Hl & Hrest).
  destruct cached as [c0|].
  - destruct Hrest as (_ & _ & ->).
    pose proof (preserves_elim _ _ _ _ _
                  (frame_GetCodeFromOptimizedCodeCache (same_on input_queue)
                     ltac:(done) f osr) Hl) as Hq.
    unfold same_on in Hq. by rewrite Hq, marker_cleared_queue.
  - destruct Hrest as (sh & i_t & Hs & Hcomp & Ht & Hp & Hrest). cbv zeta in Hrest.
    destruct (before_the_job _ _ _ _ _ _ _ Hf Hl Ht) as (Hq & _).
    destruct (_ || _).
    + destruct Hrest as (_ & reason & info & Habort & _).
      apply AbortOptimization_untouched in Habort as (_ & _ & Hq1 & _).
      simpl in *. congruence.
    + destruct Hrest as (ok & job' & i_n & Hnow & _ & Hrest).
      apply GetOptimizedCodeNow_untouched in Hnow as (_ & _ & Hq1 & _).
      simpl in *.
      destruct ok; destruct Hrest as [_ ->]; [congruence|].
      destruct (has_pending_exception i_n); simpl; congruence.
Qed.

(** X10.  Only a concurrent request reaches the dispatcher's queue, and
    it appends at most one job, already prepared.  A synchronous
    GetOptimizedCode, an OSR request, a synchronous CompileOptimized, the
    finalization of any job and the whole baseline pipeline leave the queue
    exactly as it was; a concurrent GetOptimizedCode leaves it as it was or
    with one job in state kReadyToExecute added at its end. *)
Theorem only_concurrent_requests_reach_the_queue :
  (forall f osr frame,
     preserves (same_on input_queue)
       (GetOptimizedCode ext f kNotConcurrent osr frame)) /\
  (forall f osr frame,
     preserves (same_on input_queue)
       (Compiler_GetOptimizedCodeForOSR ext f osr frame)) /\
  (forall f,
     preserves (same_on input_queue)
       (Compiler_CompileOptimized ext f kNotConcurrent)) /\
  (forall job,
     preserves (same_on input_queue) (Compiler_FinalizeCompilationJob ext job)) /\
  (forall pi info,
     preserves (same_on input_queue) (GenerateUnoptimizedCode ext pi info)) /\
  (forall f osr frame iso r iso',
     GetOptimizedCode ext f kConcurrent osr frame iso = Ret (r, iso') ->
     input_queue iso' = input_queue iso \/
     exists job,
       input_queue iso' = input_queue iso ++ [job] /\
       state job = kReadyToExecute).
Proof.
  split; [apply sync_GetOptimizedCode_queue|].
  split.
  { intros f osr frame. unfold Compiler_GetOptimizedCodeForOSR.
    apply preserves_bind; [exact _|apply preserves_DCHECK; exact _|intros _].
    apply preserves_bind; [exact _|apply preserves_DCHECK; exact _|intros _].
    apply sync_GetOptimizedCode_queue. }
  split.
  { intros f. pose proof (sync_GetOptimizedCode_queue f None None).
    unfold Compiler_CompileOptimized, JSFunction_ReplaceCode.
    repeat frame_step ltac:(done). }
  split.
  { intros job. unfold Compiler_FinalizeCompilationJob.
    pose proof (frame_FinalizeOptimizedCompilationJob ext (same_on input_queue)
                  ltac:(done) ltac:(done)).
    pose proof (frame_FinalizeUnoptimizedCompilationJob ext (same_on input_queue)
                  ltac:(done)).
    repeat frame_step ltac:(done). }
  split.
  { intros pi info.
    by apply (frame_GenerateUnoptimizedCode ext (same_on input_queue)). }
  intros f osr frame iso [r dj] iso' H.
  apply GetOptimizedCode_inv in H as (fn & cached & i_l & Hf & Hl & Hrest).
  destruct cached as [c0|].
  - left. destruct Hrest as (_ & _ & ->).
    pose proof (preserves_elim _ _ _ _ _
                  (frame_GetCodeFromOptimizedCodeCache (same_on input_queue)
                     ltac:(done) f osr) Hl) as Hq.
    unfold same_on in Hq. by rewrite Hq, marker_cleared_queue.
  - destruct Hrest as (sh & i_t & Hs & Hcomp & Ht & Hp & Hrest). cbv zeta in Hrest.
    destruct (before_the_job _ _ _ _ _ _ _ Hf Hl Ht) as (Hq & _).
    destruct (_ || _).
    + left. destruct Hrest as (_ & reason & info & Habort & _).
      apply AbortOptimization_untouched in Habort as (_ & _ & Hq1 & _).
      simpl in *. congruence.
    + destruct Hrest as (ok & job' & i_q & Hlater & Hrest). destruct ok.
      * right. destruct Hrest as (_ & _ & ->). exists job'.
        apply GetOptimizedCodeLater_queued in Hlater as (Hstate & _ & Hqueue & _).
        simpl in *. split; [congruence|done].
      * left. destruct Hrest as (_ & _ & ->).
        apply GetOptimizedCodeLater_refused in Hlater as (Hq1 & _).
        simpl in *. destruct (has_pending_exception i_q); simpl; congruence.
Qed.

End DispatcherQueue.

Section FinalizeOptimized.

Variable ext : Collaborators.

(** The outcomes of FinalizeOptimizedCompilationJob. *)
Lemma FinalizeOptimizedCompilationJob_inv job iso st job' iso' :
  FinalizeOptimizedCompilationJob ext job iso = Ret ((st, job'), iso') ->
  exists f s fn sh i_t,
    closure (compilation_info job) = Some f /\
    shared_info (compilation_info job) = Some s /\
    functions iso !! f = Some fn /\
    update_feedback_vector f (set_profiler_ticks 0) iso = Ret (tt, i_t) /\
    shared_infos iso !! s = Some sh /\ HasBreakInfo sh = false /\
    match st with
    | SUCCEEDED =>
        state job = kReadyToFinalize /\
        optimization_disabled sh = false /\
        dependencies_HasAborted (compilation_info job) = false /\
        state job' = kSucceeded /\
        same_target (compilation_info job) (compilation_info job') /\
        IsOptimizing (compilation_info job') = true /\
        exists c i_c,
          code (compilation_info job') = Some c /\
          InsertCodeIntoOptimizedCodeCache (compilation_info job') i_t
            = Ret (tt, i_c) /\
          iso' = set_functions
                   (<[f := {| shared := shared fn; fn_code := c;
                              feedback_vector_cell := feedback_vector_cell fn;
                              optimization_marker := optimization_marker fn |}]>
                      (functions i_c)) i_c
    | FAILED =>
        state job' = kFailed /\
        (state job = kFailed \/
         state job = kReadyToFinalize /\
         (optimization_disabled sh = true \/
          dependencies_HasAborted (compilation_info job) = true \/
          exists job1, FinalizeJob ext job i_t = Ret ((FAILED, job1), i_t))) /\
        iso' = set_functions
                 (<[f := {| shared := shared fn; fn_code := sfi_code sh;
                            feedback_vector_cell := feedback_vector_cell fn;
                            optimization_marker :=
                              if IsInOptimizationQueue fn then kNone
                              else optimization_marker fn |}]>
                    (functions i_t)) i_t
    end.
Proof.
  unfold FinalizeOptimizedCompilationJob. intros H.
  destruct (closure (compilation_info job)) as [f|]; [|done].
  destruct (shared_info (compilation_info job)) as [s|]; [|done].
  bind_inv H as u1 i_t E. destruct u1.
  pose proof (update_feedback_vector_untouched _ _ _ _ _ E) as (Hft & Hst & Hpt).
  pose proof E as Hticks.
  apply update_feedback_vector_inv in E as (fn & v & Hf & Hc & _).
  bind_inv H as sh i E. apply get_shared_inv in E as [Hs ->].
  bind_inv H as u2 i E. apply DCHECK_inv in E as [Hbreak ->].
  exists f, s, fn, sh, i_t. split; [done|]. split; [done|]. split; [done|].
  split; [done|]. split; [by rewrite <- Hst|].
  split; [by destruct (HasBreakInfo sh)|].
  bind_inv H as finished i2 E.
  assert (Hfail : forall job1,
    state job1 = kFailed ->
    (DCHECK (bool_decide (state job1 = kFailed));;;
     let* sh0 := get_shared s in
     JSFunction_ReplaceCode f (sfi_code sh0);;;
     let* fn0 := get_function f in
     (if IsInOptimizationQueue fn0 then ClearOptimizationMarker f else ret ());;;
     ret (FAILED, job1)) i_t =
    Ret ((FAILED, job1),
         set_functions
           (<[f := {| shared := shared fn; fn_code := sfi_code sh;
                      feedback_vector_cell := feedback_vector_cell fn;
                      optimization_marker :=
                        if IsInOptimizationQueue fn then kNone
                        else optimization_marker fn |}]>
              (functions i_t)) i_t)).
  { intros job1 Hstate.
    rewrite (bind_run _ _ _ _ _
               (DCHECK_run _ i_t (bool_decide_eq_true_2 _ Hstate))).
    rewrite (bind_run _ _ _ _ _ (get_shared_run _ _ _ Hs)).
    unfold JSFunction_ReplaceCode.
    rewrite (bind_run _ _ _ _ _
               (update_function_run i_t f fn _ ltac:(by rewrite Hft))).
    set (fn_r := {| shared := shared fn; fn_code := sfi_code sh;
                    feedback_vector_cell := feedback_vector_cell fn;
                    optimization_marker := optimization_marker fn |}).
    set (i_r := set_functions (<[f := fn_r]> (functions i_t)) i_t).
    assert (Hfr : functions i_r !! f = Some fn_r)
      by (subst i_r; simpl; apply lookup_insert_eq).
    rewrite (bind_run _ _ _ _ _ (get_function_run i_r f fn_r Hfr)).
    change (IsInOptimizationQueue fn_r) with (IsInOptimizationQueue fn).
    destruct (IsInOptimizationQueue fn).
    - unfold ClearOptimizationMarker.
      rewrite (bind_run _ _ _ _ _ (update_function_run i_r f fn_r _ Hfr)).
      unfold ret. subst i_r. simpl. by rewrite insert_insert_eq.
    - done. }
  assert (Hfailed : forall job1,
    finished = inr job1 -> i2 = i_t -> st = FAILED /\ job' = job1 /\
    (state job1 = kFailed ->
     iso' = set_functions
              (<[f := {| shared := shared fn; fn_code := sfi_code sh;
                         feedback_vector_cell := feedback_vector_cell fn;
                         optimization_marker :=
                           if IsInOptimizationQueue fn then kNone
                           else optimization_marker fn |}]>
                 (functions i_t)) i_t) /\
    state job1 = kFailed).
  { intros job1 -> ->.
    destruct (decide (state job1 = kFailed)) as [Hk|Hk].
    - rewrite (Hfail _ Hk) in H. injection H as <- <- <-. done.
    - unfold bind at 1 in H. unfold DCHECK in H.
      by rewrite (bool_decide_eq_false_2 _ Hk) in H. }
  case_bool_decide as Hstate.
  - destruct (optimization_disabled sh) eqn:Hdis.
    { bind_inv E as [st1 job1] i E1. injection E as <- <-.
      unfold RetryOptimization in E1. bind_inv E1 as u i0 E0.
      apply DCHECK_inv in E0 as [_ ->]. injection E1 as <- <- <-.
      destruct (Hfailed _ eq_refl eq_refl) as (-> & -> & Hiso & Hk).
      split; [done|]. split; [right; split; [done|by left]|]. by apply Hiso. }
    destruct (dependencies_HasAborted (compilation_info job)) eqn:Hdeps.
    { bind_inv E as [st1 job1] i E1. injection E as <- <-.
      unfold RetryOptimization in E1. bind_inv E1 as u i0 E0.
      apply DCHECK_inv in E0 as [_ ->]. injection E1 as <- <- <-.
      destruct (Hfailed _ eq_refl eq_refl) as (-> & -> & Hiso & Hk).
      split; [done|]. split; [right; split; [done|right; by left]|]. by apply Hiso. }
    bind_inv E as [st1 job1] i E1.
    pose proof E1 as Hfin.
    apply FinalizeJob_inv in E1 as (-> & _ & _ & _ & _ & Ht & _ & Hst1).
    simpl in *. destruct st1; simpl in E.
    + bind_inv E as u3 i E0. apply DCHECK_inv in E0 as [Hopt ->].
      bind_inv E as u4 i_c Hins. destruct u4.
      destruct (code (compilation_info job1)) as [c|] eqn:Hcode; [|done].
      bind_inv E as u5 i4 Hrep. injection E as <- <-. injection H as <- <- <-.
      split; [done|]. split; [done|]. split; [done|]. split; [done|].
      split; [done|]. split; [done|]. exists c, i_c. split; [done|]. split; [done|].
      apply Insert_untouched in Hins as (Hfi & _).
      apply update_function_inv in Hrep as (fn' & Hf' & ->).
      rewrite Hfi, Hft, Hf in Hf'. by injection Hf' as <-.
    + injection E as <- <-.
      destruct (Hfailed _ eq_refl eq_refl) as (-> & -> & Hiso & Hk).
      split; [done|]. split; [|by apply Hiso].
      right. split; [done|]. right. right. by exists job1.
  - injection E as <- <-.
    destruct (Hfailed _ eq_refl eq_refl) as (-> & -> & Hiso & Hk).
    split; [done|]. split; [by left|]. by apply Hiso.
Qed.

Lemma ticks_reset_frame f iso i_t :
  update_feedback_vector f (set_profiler_ticks 0) iso = Ret (tt, i_t) ->
  functions i_t = functions iso /\ shared_infos i_t = shared_infos iso /\
  same_cache iso i_t /\ input_queue i_t = input_queue iso /\
  jobs_created i_t = jobs_created iso /\
  has_pending_exception i_t = has_pending_exception iso /\
  marked_for_deoptimization i_t = marked_for_deoptimization iso.
Proof.
  intros H.
  pose proof (preserves_elim _ _ _ _ _
                (same_cache_update_feedback_vector f (set_profiler_ticks 0)
                   ltac:(done)) H) as Hcache.
  apply update_feedback_vector_inv in H as (fn & v & _ & _ & ->). done.
Qed.

(** X11.  Whenever the finalization of an optimizing job reports FAILED,
    whatever the cause (the background phase had failed, optimization was
    disabled meanwhile, the dependency set aborted, or the finalize phase
    itself failed), the job ends in state kFailed, the closure is back on the
    code of the job's descriptor with its kInOptimizationQueue marker
    cleared, and descriptors, the optimized code cache, the queue and the
    job count are untouched.  A job in any state other than kReadyToFinalize
    or kFailed trips the assertion instead of returning. *)
Theorem failed_finalization_restores_baseline
  (job : CompilationJob) (iso : Isolate) (job' : CompilationJob) (iso' : Isolate) :
  FinalizeOptimizedCompilationJob ext job iso = Ret ((FAILED, job'), iso') ->
  state job' = kFailed /\
  (state job = kFailed \/ state job = kReadyToFinalize) /\
  exists f fn s sh,
    closure (compilation_info job) = Some f /\
    functions iso !! f = Some fn /\
    shared_info (compilation_info job) = Some s /\
    shared_infos iso !! s = Some sh /\
    functions iso' =
      <[f := {| shared := shared fn; fn_code := sfi_code sh;
                feedback_vector_cell := feedback_vector_cell fn;
                optimization_marker :=
                  if IsInOptimizationQueue fn then kNone
                  else optimization_marker fn |}]> (functions iso) /\
    shared_infos iso' = shared_infos iso /\
    same_cache iso iso' /\
    input_queue iso' = input_queue iso /\
    jobs_created iso' = jobs_created iso.
Proof.
  intros H.
  apply FinalizeOptimizedCompilationJob_inv in H
    as (f & s & fn & sh & i_t & Hcl & Hsi & Hf & Ht & Hs & Hbreak & Hstate & Hwhy & ->).
  apply ticks_reset_frame in Ht as (Hft & Hst & Hcache & Hq & Hj & _).
  split; [done|]. split; [destruct Hwhy as [?|[? _]]; [by left|by right]|].
  exists f, fn, s, sh. simpl. rewrite Hft.
  repeat split; done.
Qed.

(** X12.  The finalization of an optimizing job reports SUCCEEDED only
    for a job that was in state kReadyToFinalize, whose descriptor has no
    break info and has optimization enabled and whose dependency set has not
    aborted.  The job ends in state kSucceeded with code, that code replaces
    the code of the job's closure and of no other closure, descriptors and
    the queue are untouched, and Compiler::FinalizeCompilationJob reports
    true. *)
Theorem successful_finalization_installs_optimized_code
  (job : CompilationJob) (iso : Isolate) (job' : CompilationJob) (iso' : Isolate) :
  FinalizeOptimizedCompilationJob ext job iso = Ret ((SUCCEEDED, job'), iso') ->
  state job = kReadyToFinalize /\
  state job' = kSucceeded /\
  dependencies_HasAborted (compilation_info job) = false /\
  Compiler_FinalizeCompilationJob ext job iso = Ret ((true, job'), iso') /\
  exists f fn s sh c fn',
    closure (compilation_info job) = Some f /\
    functions iso !! f = Some fn /\
    shared_info (compilation_info job) = Some s /\
    shared_infos iso !! s = Some sh /\
    optimization_disabled sh = false /\ HasBreakInfo sh = false /\
    code (compilation_info job') = Some c /\
    functions iso' !! f = Some fn' /\
    fn_code fn' = c /\ shared fn' = shared fn /\
    (forall g, g <> f -> functions iso' !! g = functions iso !! g) /\
    shared_infos iso' = shared_infos iso /\
    input_queue iso' = input_queue iso /\
    jobs_created iso' = jobs_created iso.
Proof.
  intros H. pose proof H as Hrun.
  apply FinalizeOptimizedCompilationJob_inv in H
    as (f & s & fn & sh & i_t & Hcl & Hsi & Hf & Ht & Hs & Hbreak & Hstate & Hdis &
        Hdeps & Hstate' & (_ & _ & _ & Hopt) & Hopt' & c & i_c & Hcode & Hins & ->).
  apply ticks_reset_frame in Ht as (Hft & Hst & _ & Hq & Hj & _).
  pose proof (preserves_elim _ _ _ _ _
                (frame_InsertCodeIntoOptimizedCodeCache (same_on input_queue)
                   ltac:(done) _) Hins) as Hq1.
  pose proof (preserves_elim _ _ _ _ _
                (frame_InsertCodeIntoOptimizedCodeCache (same_on jobs_created)
                   ltac:(done) _) Hins) as Hj1.
  apply Insert_untouched in Hins as (Hfi & Hsi' & _).
  unfold same_on in *.
  split; [done|]. split; [done|]. split; [done|].
  split.
  { unfold Compiler_FinalizeCompilationJob.
    rewrite <- Hopt, Hopt'. by rewrite (bind_run _ _ _ _ _ Hrun). }
  eexists f, fn, s, sh, c, _. simpl. rewrite Hfi, Hft.
  split; [done|]. split; [done|]. split; [done|]. split; [done|].
  split; [done|]. split; [done|]. split; [done|].
  split; [by rewrite lookup_insert_eq|]. split; [done|]. split; [done|].
  split; [by intros g Hg; rewrite lookup_insert_ne|].
  repeat split; congruence.
Qed.

End FinalizeOptimized.

Section CacheRoundTrips.

Lemma lookup_inv f osr iso r iso' :
  GetCodeFromOptimizedCodeCache f osr iso = Ret (r, iso') ->
  iso' = iso \/
  exists fn v c,
    osr = None /\ r = None /\
    functions iso !! f = Some fn /\
    feedback_cells iso !! feedback_vector_cell fn = Some (Some v) /\
    optimized_code v = Some c /\
    code_marked_for_deoptimization iso c = true /\
    iso' = evicted iso (feedback_vector_cell fn) v.
Proof.
  intros H.
  destruct r as [c|]; [left; by apply lookup_hit_inv in H as [? _]|].
  pose proof H as H0.
  unfold GetCodeFromOptimizedCodeCache in H.
  bind_inv H as fn i E. apply get_function_inv in E as [Hf ->].
  destruct osr as [id|]; [left; by injection H as <-|]. simpl in H.
  bind_inv H as cell i E. unfold deref in E.
  destruct (feedback_cells iso !! feedback_vector_cell fn) as [cell'|] eqn:Hc; [|done].
  injection E as <- <-. destruct cell' as [v|]; [|left; by injection H as <-].
  destruct (optimized_code v) as [c0|] eqn:Hv.
  - destruct (code_marked_for_deoptimization iso c0) eqn:Hm.
    + right. exists fn, v, c0.
      rewrite (lookup_marked _ _ _ _ _ Hf Hc Hv Hm) in H0. by injection H0 as <-.
    + rewrite (bind_run _ _ _ _ _
                 (Evict_unmarked _ _ _ _ Hf Hc ltac:(by rewrite Hv))) in H.
      rewrite (bind_run _ _ _ _ _ (feedback_vector_run _ _ _ _ Hf Hc)), Hv in H.
      bind_inv H as i0 i E. injection E as <- <-.
      bind_inv H as u i E. apply DCHECK_inv in E as [_ ->].
      bind_inv H as sh i E. apply get_shared_inv in E as [_ ->].
      bind_inv H as u1 i E. done.
  - left. rewrite (lookup_empty_slot _ _ _ _ Hf Hc Hv) in H0. by injection H0 as <-.
Qed.

Lemma live_entry_evicted iso cell v c cell' :
  feedback_cells iso !! cell = Some (Some v) ->
  optimized_code v = Some c ->
  code_marked_for_deoptimization iso c = true ->
  live_entry (evicted iso cell v) cell' = live_entry iso cell'.
Proof.
  intros Hc Hv Hm. unfold live_entry, optimized_code_cache, evicted. simpl.
  rewrite fmap_insert. destruct (decide (cell' = cell)) as [->|Hne].
  - rewrite lookup_insert_eq, lookup_fmap, Hc. simpl. rewrite Hv.
    unfold code_marked_for_deoptimization in *. simpl. by rewrite Hm.
  - by rewrite lookup_insert_ne.
Qed.

(** X13.  Insert and lookup round-trip on the optimized code cache.
    Code inserted by a compile without OSR target and without context
    specialization is what the next lookup for that closure returns, as long
    as it has not been marked for deoptimization; after
    ClearOptimizedCodeCache for such a compile the lookup misses.  A lookup
    is idempotent: repeating it returns the same answer and changes nothing
    more; and a lookup never loses code that could still be served, since
    the only entry it drops is one marked for deoptimization. *)
Theorem cache_insert_lookup_round_trip :
  (forall info iso iso1 f fn sh c,
     InsertCodeIntoOptimizedCodeCache info iso = Ret (tt, iso1) ->
     closure info = Some f ->
     osr_ast_id info = None ->
     is_function_context_specializing info = false ->
     code info = Some c ->
     kind c = OPTIMIZED_FUNCTION ->
     code_marked_for_deoptimization iso1 c = false ->
     functions iso1 !! f = Some fn ->
     shared_infos iso1 !! shared fn = Some sh ->
     sfi_is_compiled sh = true ->
     GetCodeFromOptimizedCodeCache f None iso1 = Ret (Some c, iso1)) /\
  (forall info iso iso1 f,
     ClearOptimizedCodeCache info iso = Ret (tt, iso1) ->
     closure info = Some f ->
     osr_ast_id info = None ->
     GetCodeFromOptimizedCodeCache f None iso1 = Ret (None, iso1)) /\
  (forall f osr iso r iso',
     GetCodeFromOptimizedCodeCache f osr iso = Ret (r, iso') ->
     GetCodeFromOptimizedCodeCache f osr iso' = Ret (r, iso') /\
     forall cell, live_entry iso' cell = live_entry iso cell).
Proof.
  split; [|split].
  - intros info iso iso1 f fn sh c Hins Hcl Hosr Hspec Hcode Hkind Hm Hf Hs Hcomp.
    destruct (Insert_stores _ _ _ _ _ _ Hins Hcl Hosr Hspec Hcode Hkind)
      as [Hslot _].
    unfold optimized_code_slot in Hslot. rewrite Hf in Hslot.
    destruct (feedback_cells iso1 !! feedback_vector_cell fn) as [[v|]|] eqn:Hc;
      try discriminate Hslot.
    by apply (lookup_hit _ _ fn v c sh).
  - intros info iso iso1 f Hclear Hcl Hosr.
    unfold ClearOptimizedCodeCache in Hclear. rewrite Hcl, Hosr in Hclear.
    simpl in Hclear.
    apply update_feedback_vector_inv in Hclear as (fn & v & Hf & Hc & ->).
    apply (lookup_empty_slot _ _ fn (ClearOptimizedCode v)); [done| |done].
    simpl. by rewrite lookup_insert_eq.
  - intros f osr iso r iso' H.
    destruct (lookup_inv _ _ _ _ _ H)
      as [->|(fn & v & c & -> & -> & Hf & Hc & Hv & Hm & ->)]; [done|].
    split.
    + apply (lookup_empty_slot _ _ fn (ClearOptimizedCode v)); [done| |done].
      unfold evicted. simpl. by rewrite lookup_insert_eq.
    + intros cell. by apply (live_entry_evicted _ _ _ c).
Qed.

End CacheRoundTrips.

(** The concurrent request on the concrete isolate appends one prepared job
    to the empty queue. *)
Lemma only_concurrent_requests_reach_the_queue_witness :
  exists r iso' job,
    GetOptimizedCode Demo.ext 1 kConcurrent None None Demo.iso = Ret (r, iso') /\
    input_queue iso' = [job] /\ state job = kReadyToExecute.
Proof.
  destruct (GetOptimizedCode Demo.ext 1 kConcurrent None None Demo.iso)
    as [[r iso']|] eqn:Hrun; [|by vm_compute in Hrun].
  destruct (only_concurrent_requests_reach_the_queue Demo.ext)
    as (_ & _ & _ & _ & _ & H).
  destruct (H _ _ _ _ _ _ Hrun) as [Hq|(job & Hq & Hst)].
  - vm_compute in Hrun. injection Hrun as _ <-. by vm_compute in Hq.
  - by exists r, iso', job.
Defined.

(** The finalize phase of the optimizing back end fails: closure 1 is on the
    descriptor's baseline code afterwards. *)
Lemma failed_finalization_restores_baseline_witness :
  exists job' iso',
    FinalizeOptimizedCompilationJob DemoFailure.ext (Demo.job_in kReadyToFinalize)
      Demo.iso = Ret ((FAILED, job'), iso') /\
    state job' = kFailed /\
    functions iso' !! 1 = Some (Demo.closure_on 1).
Proof.
  destruct (FinalizeOptimizedCompilationJob DemoFailure.ext
              (Demo.job_in kReadyToFinalize) Demo.iso)
    as [[[st job'] iso']|] eqn:Hrun; [|by vm_compute in Hrun].
  destruct st; [by vm_compute in Hrun|].
  destruct (failed_finalization_restores_baseline DemoFailure.ext _ _ _ _ Hrun)
    as (Hst & _).
  exists job', iso'. split; [done|]. split; [done|].
  vm_compute in Hrun. by injection Hrun as _ <-.
Defined.

(** The finalize phase succeeds: closure 1 runs the optimized code. *)
Lemma successful_finalization_installs_optimized_code_witness :
  exists job' iso',
    Compiler_FinalizeCompilationJob Demo.ext (Demo.job_in kReadyToFinalize)
      Demo.iso = Ret ((true, job'), iso') /\
    state job' = kSucceeded.
Proof.
  destruct (FinalizeOptimizedCompilationJob Demo.ext
              (Demo.job_in kReadyToFinalize) Demo.iso)
    as [[[st job'] iso']|] eqn:Hrun; [|by vm_compute in Hrun].
  destruct st; [|by vm_compute in Hrun].
  destruct (successful_finalization_installs_optimized_code Demo.ext _ _ _ _ Hrun)
    as (_ & Hst & _ & Hfin & _).
  by exists job', iso'.
Defined.

(** The lookup for closure 1 evicts the stale entry of its vector; a second
    lookup misses again and changes nothing. *)
Lemma cache_insert_lookup_round_trip_witness :
  exists iso',
    GetCodeFromOptimizedCodeCache 1 None Demo.iso_stale = Ret (None, iso') /\
    GetCodeFromOptimizedCodeCache 1 None iso' = Ret (None, iso').
Proof.
  destruct (GetCodeFromOptimizedCodeCache 1 None Demo.iso_stale)
    as [[r iso']|] eqn:Hrun; [|by vm_compute in Hrun].
  destruct r as [c|]; [by vm_compute in Hrun|].
  destruct cache_insert_lookup_round_trip as (_ & _ & H).
  destruct (H _ _ _ _ _ Hrun) as [Hagain _].
  by exists iso'.
Defined.

(** ** Inner functions and the split pipeline *)

Section InnerFunctions.

Variable ext : Collaborators.
Variable env : Environment.

Lemma InnerFunctionShouldUseFullCodegen_inv lits iso b iso' :
  InnerFunctionShouldUseFullCodegen lits iso = Ret (b, iso') ->
  iso' = iso /\
  (b = true <->
   exists lit, lit ∈ lits /\ ShouldUseFullCodegen lit iso = Ret (true, iso)).
Proof.
  revert iso b iso'. induction lits as [|lit rest IH]; intros iso b iso' H; simpl in H.
  - injection H as <- <-. split; [done|]. split; [done|].
    intros (lit & Hin & _). by apply elem_of_nil in Hin.
  - bind_inv H as full i E.
    pose proof E as E'. apply ShouldUseFullCodegen_inv in E' as [-> _].
    destruct full.
    + injection H as <- <-. split; [done|]. split; [|done].
      intros _. exists lit. split; [left|done].
    + apply IH in H as [-> Hb]. split; [done|].
      rewrite Hb. split.
      * intros (x & Hin & Hx). exists x. split; [by right|done].
      * intros (x & Hin & Hx). apply elem_of_cons in Hin as [->|Hin].
        -- rewrite E in Hx. done.
        -- by exists x.
Qed.

(** X14.  InnerFunctionShouldUseFullCodegen answers true exactly when one
    of the literals is picked for full-codegen, changes nothing, and stops
    at the first such literal: the literals behind it are not examined, so
    the answer is true whatever they are. *)
Theorem inner_full_codegen_test_stops_at_first_hit :
  (forall lits iso b iso',
     InnerFunctionShouldUseFullCodegen lits iso = Ret (b, iso') ->
     iso' = iso /\
     (b = true <->
      exists lit, lit ∈ lits /\ ShouldUseFullCodegen lit iso = Ret (true, iso))) /\
  (forall before lit behind iso,
     Forall (fun x => ShouldUseFullCodegen x iso = Ret (false, iso)) before ->
     ShouldUseFullCodegen lit iso = Ret (true, iso) ->
     InnerFunctionShouldUseFullCodegen (before ++ lit :: behind) iso =
       Ret (true, iso)).
Proof.
  split; [apply InnerFunctionShouldUseFullCodegen_inv|].
  intros before lit behind iso Hbefore Hlit.
  induction Hbefore as [|x before Hx _ IH]; simpl.
  - by rewrite (bind_run _ _ _ _ _ Hlit).
  - by rewrite (bind_run _ _ _ _ _ Hx).
Qed.

Lemma StackOverflow_unless_pending_inv iso (u : unit) iso' :
  StackOverflow_unless_pending iso = Ret (u, iso') ->
  iso' = set_has_pending_exception true iso /\ has_pending_exception iso' = true.
Proof.
  unfold StackOverflow_unless_pending, Isolate_StackOverflow, bind, get_isolate,
    modify, ret.
  destruct (has_pending_exception iso) eqn:Hp; simpl; intros H;
    injection H as <- <-; [|done].
  split; [|done]. destruct iso. simpl in *. by rewrite Hp.
Qed.

Lemma CompileUnoptimizedInnerFunctions_failed lits outer iso iso' :
  CompileUnoptimizedInnerFunctions ext env lits outer iso = Ret (false, iso') ->
  has_pending_exception iso' = true.
Proof.
  revert iso. induction lits as [|lit rest IH]; intros iso H; simpl in H; [done|].
  bind_inv H as s i E. bind_inv H as sh i1 E1.
  destruct (sfi_is_compiled sh); [by apply IH in H|].
  bind_inv H as [ok job] i2 E2. destruct ok; simpl in H; [by apply IH in H|].
  bind_inv H as u i3 E3. injection H as <-.
  by apply StackOverflow_unless_pending_inv in E3 as [_ ?].
Qed.

Lemma bind_assoc {A B C} (m : M A) (k1 : A -> M B) (k2 : B -> M C) iso :
  bind (bind m k1) k2 iso = bind m (fun a => bind (k1 a) k2) iso.
Proof. unfold bind. by destruct (m iso) as [[a i]|]. Qed.

Lemma bind_ext {A B} (m : M A) (k k' : A -> M B) iso :
  (forall a i, k a i = k' a i) -> bind m k iso = bind m k' iso.
Proof. intros H. unfold bind. by destruct (m iso) as [[a i]|]. Qed.

Lemma CompileUnoptimizedInnerFunctions_app l1 l2 outer iso :
  CompileUnoptimizedInnerFunctions ext env (l1 ++ l2) outer iso =
  (let* ok := CompileUnoptimizedInnerFunctions ext env l1 outer in
   if ok then CompileUnoptimizedInnerFunctions ext env l2 outer else ret false) iso.
Proof.
  revert iso. induction l1 as [|lit rest IH]; intros iso; simpl; [done|].
  rewrite bind_assoc. apply bind_ext. intros s i.
  rewrite bind_assoc. apply bind_ext. intros sh i1.
  destruct (sfi_is_compiled sh); [apply IH|].
  rewrite bind_assoc. apply bind_ext. intros [ok job] i2.
  destruct ok; simpl; [apply IH|].
  rewrite bind_assoc. apply bind_ext. by intros [] i3.
Qed.

(** X15.  Inner functions are compiled in order and the first failure ends
    the loop: when CompileUnoptimizedInnerFunctions returns false for a
    list, it returns false in the same isolate for that list followed by any
    other literals, none of which is looked at; and an exception is pending
    at that point. *)
Theorem inner_functions_stop_at_first_failure
  (lits behind : list FunctionLiteral) (outer : CompilationInfo)
  (iso iso1 : Isolate) :
  CompileUnoptimizedInnerFunctions ext env lits outer iso = Ret (false, iso1) ->
  CompileUnoptimizedInnerFunctions ext env (lits ++ behind) outer iso =
    Ret (false, iso1) /\
  has_pending_exception iso1 = true.
Proof.
  intros H. split; [|by apply CompileUnoptimizedInnerFunctions_failed in H].
  rewrite CompileUnoptimizedInnerFunctions_app. by rewrite (bind_run _ _ _ _ _ H).
Qed.

(** X16.  An inner function that is already compiled is skipped, wherever
    it stands in the list: if the literals before it compile, and the
    script's table then has a descriptor for the literal that is compiled
    (and not a top-level one, which would trip the assertion), the loop goes
    on with the literals behind it in the isolate it had reached; no job is
    constructed for the literal and its descriptor is not written. *)
Theorem compiled_inner_function_is_skipped
  (before behind : list FunctionLiteral) (lit : FunctionLiteral)
  (outer : CompilationInfo) (iso iso1 : Isolate) (s : nat)
  (sh : SharedFunctionInfo) :
  CompileUnoptimizedInnerFunctions ext env before outer iso = Ret (true, iso1) ->
  FindSharedFunctionInfo env iso1 lit = Some s ->
  shared_infos iso1 !! s = Some sh ->
  sfi_is_toplevel sh = false ->
  sfi_is_compiled sh = true ->
  CompileUnoptimizedInnerFunctions ext env (before ++ lit :: behind) outer iso =
    CompileUnoptimizedInnerFunctions ext env behind outer iso1.
Proof.
  intros H Hfind Hs Htop Hcomp.
  rewrite CompileUnoptimizedInnerFunctions_app, (bind_run _ _ _ _ _ H). simpl.
  assert (Hget : Compiler_GetSharedFunctionInfo env lit iso1 = Ret (s, iso1)).
  { unfold Compiler_GetSharedFunctionInfo, bind, get_isolate. rewrite Hfind.
    by rewrite (get_shared_run _ _ _ Hs), Htop. }
  rewrite (bind_run _ _ _ _ _ Hget).
  by rewrite (bind_run _ _ _ _ _ (get_shared_run _ _ _ Hs)), Hcomp.
Qed.

End InnerFunctions.

Section SplitPipeline.

Variable ext : Collaborators.

(** X17.  The baseline pipeline can be run in three separate calls, as the
    compiler dispatcher does.  When Compiler::PrepareUnoptimizedCompilationJob
    returns a job, that job is in state kReadyToExecute and is the only job
    constructed; and running ExecuteJob on it and, if that succeeds,
    Compiler::FinalizeCompilationJob on the result gives exactly the outcome
    of RunUnoptimizedCompilationJob on a job for the same literal: the same
    boolean, the same job and the same isolate, or the same assertion
    failure. *)
Theorem split_baseline_pipeline_agrees_with_run
  (pi : ParseInfo) (info : CompilationInfo) (iso : Isolate)
  (job1 : CompilationJob) (iso1 : Isolate) (st : Status)
  (job2 : CompilationJob) (iso2 : Isolate) :
  IsOptimizing info = false ->
  Compiler_PrepareUnoptimizedCompilationJob ext pi info iso = Ret (Some job1, iso1) ->
  ExecuteJob ext job1 iso1 = Ret ((st, job2), iso2) ->
  state job1 = kReadyToExecute /\
  jobs_created iso1 = S (jobs_created iso) /\
  (let* job := GetUnoptimizedCompilationJob pi info in
   RunUnoptimizedCompilationJob ext job) iso =
  match st with
  | SUCCEEDED => Compiler_FinalizeCompilationJob ext job2 iso2
  | FAILED => Ret ((false, job2), iso2)
  end.
Proof.
  intros Hopt Hprep Hexec.
  unfold Compiler_PrepareUnoptimizedCompilationJob in Hprep.
  bind_inv Hprep as job0 i0 E0. bind_inv Hprep as [st1 job1'] i1 E1.
  destruct st1; simpl in Hprep; [|done]. injection Hprep as <- <-.
  pose proof (PrepareJob_inv _ _ _ _ _ E1) as (-> & _ & _ & _ & Htarget & _ & Hst).
  simpl in *.
  pose proof (ExecuteJob_inv _ _ _ _ _ Hexec) as (_ & _ & _ & Htarget2 & _).
  simpl in Htarget2.
  pose proof (GetUnoptimizedCompilationJob_state _ _ _ _ _ E0) as (-> & Hinfo & _).
  split; [done|]. split; [done|].
  rewrite (bind_run _ _ _ _ _ E0). unfold RunUnoptimizedCompilationJob.
  rewrite (bind_run _ _ _ _ _ E1). simpl.
  rewrite (bind_run _ _ _ _ _ Hexec).
  destruct st; simpl; [|done].
  unfold Compiler_FinalizeCompilationJob.
  assert (IsOptimizing (compilation_info job2) = false) as ->; [|done].
  destruct Htarget2 as (_ & _ & _ & ->). destruct Htarget as (_ & _ & _ & ->).
  by rewrite Hinfo.
Qed.

End SplitPipeline.

(** The second of three literals belongs to an asm module: the test answers
    true without looking at the third. *)
Lemma inner_full_codegen_test_stops_at_first_hit_witness :
  InnerFunctionShouldUseFullCodegen
    ([Demo.plain_literal] ++ Demo.asm_literal :: [Demo.plain_literal]) Demo.iso =
  Ret (true, Demo.iso).
Proof.
  destruct inner_full_codegen_test_stops_at_first_hit as [_ H].
  apply H; [|done]. by apply Forall_singleton.
Defined.

(** Descriptor 1 is not compiled and the back ends fail: the compile of the
    inner function fails, a stack overflow is recorded, and a second literal
    behind it changes nothing. *)
Lemma inner_functions_stop_at_first_failure_witness :
  exists iso1,
    CompileUnoptimizedInnerFunctions DemoFailure.ext DemoEntry.env
      ([Demo.plain_literal] ++ [Demo.asm_literal])
      (Demo.baseline_info Demo.plain_literal) Demo.iso_uncompiled =
      Ret (false, iso1) /\
    has_pending_exception iso1 = true.
Proof.
  destruct (CompileUnoptimizedInnerFunctions DemoFailure.ext DemoEntry.env
              [Demo.plain_literal] (Demo.baseline_info Demo.plain_literal)
              Demo.iso_uncompiled)
    as [[ok iso1]|] eqn:Hrun; [|by vm_compute in Hrun].
  destruct ok; [by vm_compute in Hrun|].
  exists iso1.
  exact (inner_functions_stop_at_first_failure DemoFailure.ext DemoEntry.env
           _ [Demo.asm_literal] _ _ _ Hrun).
Defined.

(** Descriptor 1 is compiled: the inner literal that resolves to it is
    skipped and the isolate stays as it is. *)
Lemma compiled_inner_function_is_skipped_witness :
  CompileUnoptimizedInnerFunctions Demo.ext DemoEntry.env
    ([] ++ Demo.plain_literal :: []) (Demo.baseline_info Demo.plain_literal)
    Demo.iso = Ret (true, Demo.iso).
Proof.
  by rewrite (compiled_inner_function_is_skipped Demo.ext DemoEntry.env [] []
                Demo.plain_literal (Demo.baseline_info Demo.plain_literal)
                Demo.iso Demo.iso 1 Demo.descriptor eq_refl eq_refl eq_refl
                eq_refl eq_refl).
Defined.

(** The three calls on the concrete isolate: prepare, execute, finalize. *)
Lemma split_baseline_pipeline_agrees_with_run_witness :
  exists job1 iso1 job2 iso2,
    Compiler_PrepareUnoptimizedCompilationJob Demo.ext
      (Demo.function_parse_info Demo.plain_literal)
      (Demo.baseline_info Demo.plain_literal) Demo.iso = Ret (Some job1, iso1) /\
    ExecuteJob Demo.ext job1 iso1 = Ret ((SUCCEEDED, job2), iso2) /\
    (let* job := GetUnoptimizedCompilationJob
                   (Demo.function_parse_info Demo.plain_literal)
                   (Demo.baseline_info Demo.plain_literal) in
     RunUnoptimizedCompilationJob Demo.ext job) Demo.iso =
    Compiler_FinalizeCompilationJob Demo.ext job2 iso2.
Proof.
  destruct (Compiler_PrepareUnoptimizedCompilationJob Demo.ext
              (Demo.function_parse_info Demo.plain_literal)
              (Demo.baseline_info Demo.plain_literal) Demo.iso)
    as [[[job1|] iso1]|] eqn:Hprep; [|by vm_compute in Hprep..].
  destruct (ExecuteJob Demo.ext job1 iso1) as [[[st job2] iso2]|] eqn:Hexec;
    [|vm_compute in Hprep; injection Hprep as <- <-; by vm_compute in Hexec].
  destruct st;
    [|vm_compute in Hprep; injection Hprep as <- <-; by vm_compute in Hexec].
  exists job1, iso1, job2, iso2. split; [done|]. split; [done|].
  by destruct (split_baseline_pipeline_agrees_with_run Demo.ext
                 (Demo.function_parse_info Demo.plain_literal)
                 (Demo.baseline_info Demo.plain_literal) Demo.iso job1 iso1
                 SUCCEEDED job2 iso2 eq_refl Hprep Hexec) as (_ & _ & H).
Defined.

(** ** The entry points of Compiler *)

Section LazyCompile.

Variable ext : Collaborators.
Variable env : Environment.

Lemma live_entry_slot iso cell v :
  feedback_cells iso !! cell = Some (Some v) ->
  live_entry iso cell =
    match optimized_code v with
    | Some c => if code_marked_for_deoptimization iso c then None else Some c
    | None => None
    end.
Proof.
  intros Hc. unfold live_entry, optimized_code_cache.
  rewrite lookup_fmap, Hc. simpl. by destruct (optimized_code v).
Qed.

Lemma live_entry_no_vector iso cell :
  feedback_cells iso !! cell = Some None -> live_entry iso cell = None.
Proof.
  intros Hc. unfold live_entry, optimized_code_cache. by rewrite lookup_fmap, Hc.
Qed.

(** What a lookup without OSR target returns is the live entry of the
    closure's cell. *)
Lemma lookup_live_entry f fn iso r iso' :
  functions iso !! f = Some fn ->
  GetCodeFromOptimizedCodeCache f None iso = Ret (r, iso') ->
  r = live_entry iso (feedback_vector_cell fn).
Proof.
  intros Hf H.
  destruct r as [c|].
  - apply lookup_hit_inv in H as (_ & _ & Hslot & Hm).
    unfold optimized_code_slot in Hslot. rewrite Hf in Hslot.
    destruct (feedback_cells iso !! feedback_vector_cell fn) as [[v|]|] eqn:Hc;
      [|done|done].
    by rewrite (live_entry_slot _ _ _ Hc), Hslot, Hm.
  - pose proof H as H0. unfold GetCodeFromOptimizedCodeCache in H.
    rewrite (bind_run _ _ _ _ _ (get_function_run _ _ _ Hf)) in H. simpl in H.
    bind_inv H as cell i E. unfold deref in E.
    destruct (feedback_cells iso !! feedback_vector_cell fn) as [cell'|] eqn:Hc;
      [|done].
    injection E as <- <-.
    destruct cell' as [v|]; [|by rewrite (live_entry_no_vector _ _ Hc)].
    rewrite (live_entry_slot _ _ _ Hc).
    destruct (optimized_code v) as [c0|] eqn:Hv; [|done].
    destruct (code_marked_for_deoptimization iso c0) eqn:Hm; [done|].
    rewrite (bind_run _ _ _ _ _
               (Evict_unmarked _ _ _ _ Hf Hc ltac:(by rewrite Hv))) in H.
    rewrite (bind_run _ _ _ _ _ (feedback_vector_run _ _ _ _ Hf Hc)), Hv in H.
    bind_inv H as i0 i E. injection E as <- <-.
    bind_inv H as u i E. apply DCHECK_inv in E as [_ ->].
    bind_inv H as sh i E. apply get_shared_inv in E as [_ ->].
    bind_inv H as u1 i E. done.
Qed.

Lemma lookup_jobs_created f o iso r iso' :
  GetCodeFromOptimizedCodeCache f o iso = Ret (r, iso') ->
  jobs_created iso' = jobs_created iso /\ input_queue iso' = input_queue iso.
Proof.
  intros H. split.
  - eapply (preserves_elim (same_on jobs_created)); [|exact H].
    by apply frame_GetCodeFromOptimizedCodeCache; try exact _.
  - eapply (preserves_elim (same_on input_queue)); [|exact H].
    by apply frame_GetCodeFromOptimizedCodeCache; try exact _.
Qed.

(** What GetLazyCode does for a closure whose descriptor is compiled. *)
Lemma GetLazyCode_compiled f fn sh iso r iso' :
  functions iso !! f = Some fn ->
  shared_infos iso !! shared fn = Some sh ->
  sfi_is_compiled sh = true ->
  GetLazyCode ext env f iso = Ret (r, iso') ->
  has_pending_exception iso = false /\ fn_is_compiled fn = false /\
  GetCodeFromOptimizedCodeCache f None iso =
    Ret (live_entry iso (feedback_vector_cell fn), iso') /\
  r = Some (default (sfi_code sh) (live_entry iso (feedback_vector_cell fn))).
Proof.
  intros Hf Hs Hcomp H. unfold GetLazyCode in H.
  bind_inv H as i0 i E. injection E as <- <-.
  bind_inv H as u i E. apply DCHECK_inv in E as [Hpend ->].
  rewrite (bind_run _ _ _ _ _ (get_function_run _ _ _ Hf)) in H.
  bind_inv H as u' i E. apply DCHECK_inv in E as [Hfc ->].
  rewrite (bind_run _ _ _ _ _ (get_shared_run _ _ _ Hs)), Hcomp in H.
  bind_inv H as cached i E.
  pose proof (lookup_live_entry _ _ _ _ _ Hf E) as Hlive.
  pose proof (lookup_untouched _ _ _ _ _ E) as (Hfn & Hsh & _).
  split; [by destruct (has_pending_exception iso)|].
  split; [by destruct (fn_is_compiled fn)|].
  rewrite <- Hlive.
  destruct cached as [c|].
  - by injection H as <- <-.
  - assert (Hf' : functions i !! f = Some fn) by by rewrite Hfn.
    assert (Hs' : shared_infos i !! shared fn = Some sh) by by rewrite Hsh.
    rewrite (bind_run _ _ _ _ _ (get_function_run _ _ _ Hf')) in H.
    rewrite (bind_run _ _ _ _ _ (get_shared_run _ _ _ Hs')) in H.
    by injection H as <- <-.
Qed.

(** X18.  GetLazyCode compiles nothing for a closure whose descriptor is
    already compiled: it hands back the optimized code cached in the
    closure's feedback vector if that code is not marked for
    deoptimization, and the descriptor's baseline code otherwise.  No job is
    constructed, no closure and no descriptor is written, nothing is queued,
    and the only entry the cache can lose is one marked for deoptimization.
    The call asserts that no exception is pending and that the closure
    itself is not compiled. *)
Theorem lazy_compile_reuses_compiled_code
  (f : nat) (fn : JSFunction) (sh : SharedFunctionInfo) (iso : Isolate)
  (r : option Code) (iso' : Isolate) :
  functions iso !! f = Some fn ->
  shared_infos iso !! shared fn = Some sh ->
  sfi_is_compiled sh = true ->
  GetLazyCode ext env f iso = Ret (r, iso') ->
  r = Some (default (sfi_code sh) (live_entry iso (feedback_vector_cell fn))) /\
  has_pending_exception iso = false /\ fn_is_compiled fn = false /\
  jobs_created iso' = jobs_created iso /\
  functions iso' = functions iso /\
  shared_infos iso' = shared_infos iso /\
  input_queue iso' = input_queue iso /\
  forall cell, live_entry iso' cell = live_entry iso cell.
Proof.
  intros Hf Hs Hcomp H.
  apply (GetLazyCode_compiled _ _ _ _ _ _ Hf Hs Hcomp) in H
    as (Hpend & Hfc & Hlook & ->).
  pose proof (lookup_untouched _ _ _ _ _ Hlook) as (Hfn & Hsh & _).
  pose proof (lookup_jobs_created _ _ _ _ _ Hlook) as (Hj & Hq).
  repeat (split; [done|]).
  intros cell. apply lookup_inv in Hlook as [->|Hev]; [done|].
  destruct Hev as (fn' & v & c & _ & _ & Hf' & Hc & Hv & Hm & ->).
  by apply (live_entry_evicted _ _ _ c).
Qed.

End LazyCompile.

Section EntryPointProperties.

Variable ext : Collaborators.
Variable env : Environment.

Lemma feedback_vector_inv f iso v iso' :
  feedback_vector f iso = Ret (v, iso') ->
  exists fn, functions iso !! f = Some fn /\
    feedback_cells iso !! feedback_vector_cell fn = Some (Some v) /\ iso' = iso.
Proof.
  unfold feedback_vector. intros H.
  bind_inv H as fn i E. apply get_function_inv in E as [Hf ->].
  bind_inv H as cell i E. unfold deref in E.
  destruct (feedback_cells iso !! feedback_vector_cell fn) as [cell'|] eqn:Hc; [|done].
  injection E as <- <-. destruct cell' as [v'|]; [|done].
  injection H as <- <-. by exists fn.
Qed.

Lemma Compile_tail f c iso ok iso' :
  (JSFunction_ReplaceCode f c ;;;
   modify (EnsureLiterals env f) ;;;
   let* iso := get_isolate in
   DCHECK (negb (has_pending_exception iso)) ;;;
   let* fn := get_function f in
   let* sh := get_shared (shared fn) in
   DCHECK (sfi_is_compiled sh) ;;;
   DCHECK (fn_is_compiled fn) ;;;
   ret true) iso = Ret (ok, iso') ->
  ok = true /\
  has_pending_exception iso' = false /\
  (exists fn, functions iso !! f = Some fn /\
     iso' = EnsureLiterals env f
              (set_functions (<[f := with_code c fn]> (functions iso)) iso)) /\
  exists fn' sh',
    functions iso' !! f = Some fn' /\ fn_is_compiled fn' = true /\
    shared_infos iso' !! shared fn' = Some sh' /\ sfi_is_compiled sh' = true.
Proof.
  intros H.
  bind_inv H as u i E. apply update_function_inv in E as (fn & Hf & ->).
  bind_inv H as u1 i E. injection E as <- <-.
  bind_inv H as i0 i E. injection E as <- <-.
  bind_inv H as u2 i E. apply DCHECK_inv in E as [Hp ->].
  bind_inv H as fn' i E. apply get_function_inv in E as [Hf' ->].
  bind_inv H as sh' i E. apply get_shared_inv in E as [Hs' ->].
  bind_inv H as u3 i E. apply DCHECK_inv in E as [Hc ->].
  bind_inv H as u4 i E. apply DCHECK_inv in E as [Hfc ->].
  injection H as <- <-.
  split; [done|]. split; [by apply negb_true_iff in Hp|].
  split; [by exists fn|]. by exists fn', sh'.
Qed.

(** X19.  Compiler::Compile called with CLEAR_EXCEPTION leaves no exception
    pending, with one exception.  For a closure that is not compiled: when
    it returns false, whether the dispatcher or the lazy compile failed, the
    pending exception has been cleared; when it returns true, no exception
    is pending and the closure and its descriptor are compiled.  For a
    closure that is already compiled it returns true at once and touches
    nothing, a pending exception included. *)
Theorem compile_clears_exception_on_request
  (f : nat) (fn : JSFunction) (iso : Isolate) (ok : bool) (iso' : Isolate) :
  functions iso !! f = Some fn ->
  Compiler_Compile ext env f CLEAR_EXCEPTION iso = Ret (ok, iso') ->
  (fn_is_compiled fn = true /\ ok = true /\ iso' = iso) \/
  (fn_is_compiled fn = false /\
   has_pending_exception iso' = false /\
   (ok = true ->
    exists fn' sh',
      functions iso' !! f = Some fn' /\ fn_is_compiled fn' = true /\
      shared_infos iso' !! shared fn' = Some sh' /\ sfi_is_compiled sh' = true)).
Proof.
  intros Hf H. unfold Compiler_Compile in H.
  rewrite (bind_run _ _ _ _ _ (get_function_run _ _ _ Hf)) in H.
  destruct (fn_is_compiled fn) eqn:Hfc; [left; by injection H as <- <-|].
  right. split; [done|].
  bind_inv H as i0 i E. injection E as <- <-.
  bind_inv H as code i1 E.
  destruct code as [c|].
  - apply Compile_tail in H as (-> & Hp & _ & Hpost). by split.
  - injection H as <- <-. split; [|done].
    destruct (IsEnqueued env iso (shared fn)).
    + bind_inv E as finished i2 E2. destruct finished; simpl in E.
      * bind_inv E as sh i3 E3. done.
      * bind_inv E as u i3 E3. injection E as <-. by injection E3 as <- <-.
    + bind_inv E as lazy i2 E2. destruct lazy as [c|]; [done|].
      bind_inv E as u i3 E3. injection E as <-. by injection E3 as <- <-.
Qed.

(** X20.  Compiler::Compile gives a lazy closure of an already compiled
    function its code without compiling.  For a closure that is not
    compiled, whose descriptor is compiled and not enqueued in the compiler
    dispatcher: the call returns true; the closure receives the optimized
    code cached in its feedback vector if that is not marked for
    deoptimization and the descriptor's code otherwise; no job is
    constructed, no descriptor is written and nothing is queued before
    EnsureLiterals runs as the last step. *)
Theorem lazy_closure_gets_code_without_compiling
  (f : nat) (fn : JSFunction) (sh : SharedFunctionInfo)
  (flag : ClearExceptionFlag) (iso : Isolate) (ok : bool) (iso' : Isolate) :
  functions iso !! f = Some fn ->
  fn_is_compiled fn = false ->
  shared_infos iso !! shared fn = Some sh ->
  sfi_is_compiled sh = true ->
  IsEnqueued env iso (shared fn) = false ->
  Compiler_Compile ext env f flag iso = Ret (ok, iso') ->
  ok = true /\
  exists i1,
    iso' = EnsureLiterals env f i1 /\
    functions i1 =
      <[f := with_code
               (default (sfi_code sh) (live_entry iso (feedback_vector_cell fn)))
               fn]> (functions iso) /\
    shared_infos i1 = shared_infos iso /\
    jobs_created i1 = jobs_created iso /\
    input_queue i1 = input_queue iso /\
    has_pending_exception i1 = false.
Proof.
  intros Hf Hfc Hs Hcomp Henq H. unfold Compiler_Compile in H.
  rewrite (bind_run _ _ _ _ _ (get_function_run _ _ _ Hf)), Hfc in H.
  bind_inv H as i0 i E. injection E as <- <-.
  rewrite Henq in H.
  bind_inv H as code i1 E. bind_inv E as lazy i2 E2.
  pose proof (GetLazyCode_compiled _ _ _ _ _ _ _ _ Hf Hs Hcomp E2)
    as (Hpend & _ & Hlook & ->).
  injection E as <- <-.
  pose proof (lookup_untouched _ _ _ _ _ Hlook) as (Hfn & Hsh & Hp).
  pose proof (lookup_jobs_created _ _ _ _ _ Hlook) as (Hj & Hq).
  apply Compile_tail in H as (-> & _ & (fn' & Hf' & ->) & _).
  rewrite Hfn, Hf in Hf'. injection Hf' as <-.
  split; [done|]. eexists. split; [done|]. simpl.
  rewrite Hfn. repeat split; congruence.
Qed.

End EntryPointProperties.

Section Instantiation.

Variable ext : Collaborators.
Variable env : Environment.

(** X21.  Compiler::PostInstantiation installs on a new closure the
    optimized code its feedback vector holds, and unlike the cache lookup it
    evicts nothing.  For a descriptor that is not compiled the call changes
    nothing at all.  For a compiled one, without --always-opt: after
    EnsureLiterals the closure has a feedback vector; if that vector holds
    no code the call ends there; if it holds code, the code is not marked
    for deoptimization (a marked entry trips the assertion instead of being
    dropped) and it replaces the code of this closure, nothing else being
    written. *)
Theorem post_instantiation_installs_cached_code
  (f : nat) (fn : JSFunction) (sh : SharedFunctionInfo) (iso iso' : Isolate) :
  functions iso !! f = Some fn ->
  shared_infos iso !! shared fn = Some sh ->
  Compiler_PostInstantiation env f iso = Ret (tt, iso') ->
  (sfi_is_compiled sh = false -> iso' = iso) /\
  (sfi_is_compiled sh = true -> FLAG_always_opt env = false ->
   exists fn1 v,
     functions (EnsureLiterals env f iso) !! f = Some fn1 /\
     feedback_cells (EnsureLiterals env f iso) !! feedback_vector_cell fn1 =
       Some (Some v) /\
     match optimized_code v with
     | None => iso' = EnsureLiterals env f iso
     | Some c =>
         code_marked_for_deoptimization (EnsureLiterals env f iso) c = false /\
         iso' = set_functions
                  (<[f := with_code c fn1]> (functions (EnsureLiterals env f iso)))
                  (EnsureLiterals env f iso)
     end).
Proof.
  intros Hf Hs H. unfold Compiler_PostInstantiation in H.
  rewrite (bind_run _ _ _ _ _ (get_function_run _ _ _ Hf)) in H.
  rewrite (bind_run _ _ _ _ _ (get_shared_run _ _ _ Hs)) in H.
  destruct (sfi_is_compiled sh) eqn:Hcomp.
  - split; [done|]. intros _ Hflag. rewrite Hflag in H. simpl in H.
    rewrite (bind_run _ _ _ _ _ (eq_refl : ret tt iso = Ret (tt, iso))) in H.
    rewrite (bind_run _ _ _ _ _ (get_shared_run _ _ _ Hs)), Hcomp in H.
    bind_inv H as u i E. injection E as <- <-.
    bind_inv H as v i E. apply feedback_vector_inv in E as (fn1 & Hf1 & Hc1 & ->).
    exists fn1, v. split; [done|]. split; [done|].
    destruct (optimized_code v) as [c|]; [|by injection H as <-].
    bind_inv H as i0 i E. injection E as <- <-.
    bind_inv H as u1 i E. apply DCHECK_inv in E as [Hm ->].
    bind_inv H as fn2 i E. apply get_function_inv in E as [Hf2 ->].
    bind_inv H as sh2 i E. apply get_shared_inv in E as [Hs2 ->].
    bind_inv H as u2 i E. apply DCHECK_inv in E as [_ ->].
    unfold JSFunction_ReplaceCode in H.
    rewrite (update_function_run _ _ _ _ Hf1) in H. injection H as <-.
    split; [by apply negb_true_iff in Hm|done].
  - split; [|done]. intros _.
    rewrite !andb_false_r in H. simpl in H.
    rewrite (bind_run _ _ _ _ _ (eq_refl : ret tt iso = Ret (tt, iso))) in H.
    rewrite (bind_run _ _ _ _ _ (get_shared_run _ _ _ Hs)), Hcomp in H.
    by injection H as <-.
Qed.

(** X22.  Compiler::EnsureBytecode answers true only for a descriptor that
    ends up compiled, with bytecode and without asm-wasm data.  For a
    descriptor that is already compiled it neither parses nor compiles: the
    isolate is unchanged and the answer is read off the descriptor.  A
    descriptor that is not compiled must not belong to a top-level
    function. *)
Theorem ensure_bytecode_answers_for_the_descriptor
  (pi : ParseInfo) (info : CompilationInfo) (s : nat) (sh : SharedFunctionInfo)
  (iso : Isolate) (b : bool) (iso' : Isolate) :
  shared_info info = Some s ->
  shared_infos iso !! s = Some sh ->
  Compiler_EnsureBytecode ext env pi info iso = Ret (b, iso') ->
  (sfi_is_compiled sh = true ->
   iso' = iso /\
   b = negb (sfi_has_asm_wasm_data sh) && sfi_has_bytecode_array sh) /\
  (sfi_is_compiled sh = false -> is_toplevel pi = false) /\
  (b = true ->
   exists sh',
     shared_infos iso' !! s = Some sh' /\ sfi_is_compiled sh' = true /\
     sfi_has_bytecode_array sh' = true /\ sfi_has_asm_wasm_data sh' = false).
Proof.
  intros Hsi Hs H. unfold Compiler_EnsureBytecode in H. rewrite Hsi in H.
  rewrite (bind_run _ _ _ _ _ (get_shared_run _ _ _ Hs)) in H.
  bind_inv H as ok i E.
  assert (Htail : b = true ->
    exists sh', shared_infos iso' !! s = Some sh' /\ sfi_is_compiled sh' = true /\
      sfi_has_bytecode_array sh' = true /\ sfi_has_asm_wasm_data sh' = false).
  { intros ->. destruct ok; simpl in H; [|done].
    bind_inv H as sh' i1 E1. apply get_shared_inv in E1 as [Hs' ->].
    bind_inv H as u i1 E1. apply DCHECK_inv in E1 as [Hc ->].
    destruct (sfi_has_asm_wasm_data sh') eqn:Ha; [done|].
    injection H as Hb <-. by exists sh'. }
  destruct (sfi_is_compiled sh) eqn:Hcomp; simpl in E.
  - injection E as <- <-. simpl in H.
    rewrite (bind_run _ _ _ _ _ (get_shared_run _ _ _ Hs)), Hcomp in H.
    simpl in H. split; [|done]. intros _.
    destruct (sfi_has_asm_wasm_data sh); by injection H as <- <-.
  - split; [done|]. split; [|done]. intros _.
    bind_inv E as u i1 E1. apply DCHECK_inv in E1 as [Ht _].
    by apply negb_true_iff in Ht.
Qed.

End Instantiation.

Section FailureReporting.

Variable ext : Collaborators.
Variable env : Environment.

Lemma GenerateUnoptimizedCode_result pi info iso job iso' :
  GenerateUnoptimizedCode ext pi info iso = Ret ((true, job), iso') ->
  exists s c,
    shared_info (compilation_info job) = Some s /\
    code (compilation_info job) = Some c.
Proof.
  intros H.
  apply GenerateUnoptimizedCode_runs in H
    as (lit & use_asm & job0 & i0 & _ & _ & _ & Hrun & _).
  apply RunUnoptimizedCompilationJob_inv in Hrun
    as (_ & _ & _ & _ & _ & lit' & s & c & sh & _ & Hs & Hc & _).
  by exists s, c.
Qed.

Lemma CompileUnoptimizedCode_inv pi info iso ok info' iso' :
  CompileUnoptimizedCode ext env pi info iso = Ret ((ok, info'), iso') ->
  if ok
  then exists s c, shared_info info' = Some s /\ code info' = Some c
  else has_pending_exception iso' = true.
Proof.
  unfold CompileUnoptimizedCode. intros H.
  bind_inv H as analyzed i E. destruct analyzed; simpl in H.
  - destruct (literal info) as [lit|]; [|done].
    bind_inv H as full i1 E1. bind_inv H as any i2 E2.
    bind_inv H as [generated job] i3 E3.
    bind_inv H as ok' i4 E4.
    destruct ok'; simpl in H.
    + injection H as <- <- <-.
      destruct generated; [|done]. by apply GenerateUnoptimizedCode_result in E3.
    + bind_inv H as u i5 E5. injection H as <- <- <-.
      by apply StackOverflow_unless_pending_inv in E5 as [_ ?].
  - bind_inv H as u i5 E5. injection H as <- <- <-.
    by apply StackOverflow_unless_pending_inv in E5 as [_ ?].
Qed.

(** X23.  A baseline compile reports failure through a pending exception.
    When CompileUnoptimizedCode returns false, whether the analysis, the
    compile of the function or the compile of an inner function failed, an
    exception is pending: a failure that raised none is turned into a stack
    overflow.  The same holds for the empty result of CompileToplevel on a
    script that is already parsed, and for the empty result of
    CompileUnoptimizedFunction once the parser has delivered a literal,
    because a successful compile always yields a descriptor and code. *)
Theorem failed_baseline_compile_leaves_exception_pending :
  (forall pi info iso info' iso',
     CompileUnoptimizedCode ext env pi info iso = Ret ((false, info'), iso') ->
     has_pending_exception iso' = true) /\
  (forall pi info iso iso',
     is_Some (pi_literal pi) ->
     CompileToplevel ext env pi info iso = Ret (None, iso') ->
     has_pending_exception iso' = true) /\
  (forall pi info s iso info' iso' pi' thrown,
     ParseFunction env iso pi s = (Some pi', thrown) ->
     CompileUnoptimizedFunction ext env pi info s iso = Ret ((None, info'), iso') ->
     has_pending_exception iso' = true).
Proof.
  split; [intros pi info iso info' iso' H; by apply CompileUnoptimizedCode_inv in H|].
  split.
  - intros pi info iso iso' [lit Hlit] H. unfold CompileToplevel in H.
    rewrite Hlit in H.
    rewrite (bind_run _ _ _ _ _ (eq_refl : ret (Some pi) iso = Ret (Some pi, iso))) in H.
    bind_inv H as [ok info1] i E. apply CompileUnoptimizedCode_inv in E.
    destruct ok; simpl in H; [|by injection H as <-].
    injection H as Hr <-. destruct E as (s & c & Hs & _). congruence.
  - intros pi info s iso info' iso' pi' thrown Hparse H.
    unfold CompileUnoptimizedFunction in H.
    bind_inv H as i0 i E. injection E as <- <-. rewrite Hparse in H.
    bind_inv H as u i E. injection E as <- <-.
    bind_inv H as [ok info1] i E. apply CompileUnoptimizedCode_inv in E.
    destruct ok; simpl in H; [|by injection H as <- <-].
    injection H as Hr <- <-. destruct E as (s' & c & _ & Hc). congruence.
Qed.

End FailureReporting.

(** Closure 4 is lazy, its descriptor is compiled and cell 1 caches code
    that is not marked: the lazy compile hands back the cached code. *)
Lemma lazy_compile_reuses_compiled_code_witness :
  exists iso',
    GetLazyCode Demo.ext DemoEntry.env 4
      (DemoEntry.with_lazy_closure Demo.iso_cached) =
      Ret (Some Demo.stale_code, iso') /\
    jobs_created iso' = 0.
Proof.
  destruct (GetLazyCode Demo.ext DemoEntry.env 4
              (DemoEntry.with_lazy_closure Demo.iso_cached))
    as [[r iso']|] eqn:Hrun; [|by vm_compute in Hrun].
  destruct (lazy_compile_reuses_compiled_code Demo.ext DemoEntry.env 4
              DemoEntry.lazy_closure Demo.descriptor
              (DemoEntry.with_lazy_closure Demo.iso_cached) r iso'
              eq_refl eq_refl eq_refl Hrun)
    as (-> & _ & _ & Hj & _).
  by exists iso'.
Defined.

(** Closure 4 is lazy, descriptor 1 is not compiled and the back ends fail:
    the compile fails with a stack overflow, and Compile clears it. *)
Lemma compile_clears_exception_on_request_witness :
  exists iso',
    Compiler_Compile DemoFailure.ext DemoEntry.env 4 CLEAR_EXCEPTION
      (DemoEntry.with_lazy_closure Demo.iso_uncompiled) = Ret (false, iso') /\
    has_pending_exception iso' = false.
Proof.
  destruct (Compiler_Compile DemoFailure.ext DemoEntry.env 4 CLEAR_EXCEPTION
              (DemoEntry.with_lazy_closure Demo.iso_uncompiled))
    as [[ok iso']|] eqn:Hrun; [|by vm_compute in Hrun].
  destruct ok; [by vm_compute in Hrun|].
  destruct (compile_clears_exception_on_request DemoFailure.ext DemoEntry.env 4
              DemoEntry.lazy_closure
              (DemoEntry.with_lazy_closure Demo.iso_uncompiled) false iso'
              eq_refl Hrun)
    as [(Hc & _)|(_ & Hp & _)]; [done|].
  by exists iso'.
Defined.

(** Closure 4 on the concrete isolate receives the baseline code of
    descriptor 1; no job is constructed. *)
Lemma lazy_closure_gets_code_without_compiling_witness :
  exists iso',
    Compiler_Compile Demo.ext DemoEntry.env 4 KEEP_EXCEPTION
      (DemoEntry.with_lazy_closure Demo.iso) = Ret (true, iso') /\
    jobs_created iso' = 0 /\
    functions iso' !! 4 = Some (with_code Demo.baseline_code DemoEntry.lazy_closure).
Proof.
  destruct (Compiler_Compile Demo.ext DemoEntry.env 4 KEEP_EXCEPTION
              (DemoEntry.with_lazy_closure Demo.iso))
    as [[ok iso']|] eqn:Hrun; [|by vm_compute in Hrun].
  destruct (lazy_closure_gets_code_without_compiling Demo.ext DemoEntry.env 4
              DemoEntry.lazy_closure Demo.descriptor KEEP_EXCEPTION
              (DemoEntry.with_lazy_closure Demo.iso) ok iso'
              eq_refl eq_refl eq_refl eq_refl eq_refl Hrun)
    as (-> & i1 & -> & Hf & _ & Hj & _).
  eexists. split; [done|]. split; [exact Hj|].
  simpl. rewrite Hf. by vm_compute.
Defined.

(** Closure 1 is instantiated while cell 1 caches code that is not marked:
    the closure runs that code afterwards. *)
Lemma post_instantiation_installs_cached_code_witness :
  exists iso',
    Compiler_PostInstantiation DemoEntry.env 1 Demo.iso_cached = Ret (tt, iso') /\
    functions iso' !! 1 = Some (with_code Demo.stale_code (Demo.closure_on 1)).
Proof.
  destruct (Compiler_PostInstantiation DemoEntry.env 1 Demo.iso_cached)
    as [[[] iso']|] eqn:Hrun; [|by vm_compute in Hrun].
  destruct (post_instantiation_installs_cached_code DemoEntry.env 1
              (Demo.closure_on 1) Demo.descriptor Demo.iso_cached iso'
              eq_refl eq_refl Hrun) as [_ H].
  destruct (H eq_refl eq_refl) as (fn1 & v & Hf & Hc & Hv).
  injection Hf as <-. injection Hc as <-. destruct Hv as [_ ->].
  exists (set_functions
            (<[1 := with_code Demo.stale_code (Demo.closure_on 1)]>
               (functions Demo.iso_cached)) Demo.iso_cached).
  split; [done|]. by vm_compute.
Defined.

(** Descriptor 1 is compiled and has bytecode: the answer is true and the
    isolate is untouched. *)
Lemma ensure_bytecode_answers_for_the_descriptor_witness :
  Compiler_EnsureBytecode Demo.ext DemoEntry.env
    (Demo.function_parse_info Demo.plain_literal)
    (Demo.baseline_info Demo.plain_literal) DemoFailure.iso_with_bytecode =
  Ret (true, DemoFailure.iso_with_bytecode).
Proof.
  destruct (Compiler_EnsureBytecode Demo.ext DemoEntry.env
              (Demo.function_parse_info Demo.plain_literal)
              (Demo.baseline_info Demo.plain_literal)
              DemoFailure.iso_with_bytecode)
    as [[b iso']|] eqn:Hrun; [|by vm_compute in Hrun].
  destruct (ensure_bytecode_answers_for_the_descriptor Demo.ext DemoEntry.env
              (Demo.function_parse_info Demo.plain_literal)
              (Demo.baseline_info Demo.plain_literal) 1
              DemoFailure.with_bytecode DemoFailure.iso_with_bytecode b iso'
              eq_refl eq_refl Hrun)
    as [H _].
  by destruct (H eq_refl) as [-> ->].
Defined.

(** The back ends fail: the compile of the plain literal reports false and
    a stack overflow is pending. *)
Lemma failed_baseline_compile_leaves_exception_pending_witness :
  exists info' iso',
    CompileUnoptimizedCode DemoFailure.ext DemoEntry.env
      (Demo.function_parse_info Demo.plain_literal)
      (Demo.baseline_info Demo.plain_literal) Demo.iso =
      Ret ((false, info'), iso') /\
    has_pending_exception iso' = true.
Proof.
  destruct (CompileUnoptimizedCode DemoFailure.ext DemoEntry.env
              (Demo.function_parse_info Demo.plain_literal)
              (Demo.baseline_info Demo.plain_literal) Demo.iso)
    as [[[ok info'] iso']|] eqn:Hrun; [|by vm_compute in Hrun].
  destruct ok; [by vm_compute in Hrun|].
  destruct (failed_baseline_compile_leaves_exception_pending DemoFailure.ext
              DemoEntry.env) as [H _].
  exists info', iso'. split; [done|]. by apply H in Hrun.
Defined.

(** ** What the baseline entry points leave alone *)

#[global] Instance closures_untouched_preorder : PreOrder closures_untouched.
Proof.
  split; [done|]. intros a b c (H1 & H2 & H3) (H4 & H5 & H6).
  repeat split; congruence.
Qed.

Section FrameEntryPoints.

Variable ext : Collaborators.
Variable env : Environment.
Context (R : Isolate -> Isolate -> Prop) `{!PreOrder R}.

Hypothesis R_shared_infos : forall iso m, R iso (set_shared_infos m iso).
Hypothesis R_pending : forall iso b, R iso (set_has_pending_exception b iso).
Hypothesis R_created : forall iso n, R iso (set_jobs_created n iso).

Ltac frame :=
  repeat frame_step
    ltac:(first [ apply R_shared_infos | apply R_pending | apply R_created ]).

Lemma frame_StackOverflow_unless_pending : preserves R StackOverflow_unless_pending.
Proof. unfold StackOverflow_unless_pending, Isolate_StackOverflow. frame. Qed.

Lemma frame_Compiler_GetSharedFunctionInfo lit :
  preserves R (Compiler_GetSharedFunctionInfo env lit).
Proof.
  pose proof (frame_NewSharedFunctionInfoForLiteral R R_shared_infos).
  unfold Compiler_GetSharedFunctionInfo. frame.
Qed.

Lemma frame_CompileUnoptimizedInnerFunctions lits outer :
  preserves R (CompileUnoptimizedInnerFunctions ext env lits outer).
Proof.
  pose proof frame_Compiler_GetSharedFunctionInfo.
  pose proof frame_StackOverflow_unless_pending.
  pose proof (frame_GenerateUnoptimizedCode ext R R_shared_infos R_created).
  induction lits as [|lit rest IH]; simpl; frame.
Qed.

Lemma frame_InnerFunctionShouldUseFullCodegen lits :
  preserves R (InnerFunctionShouldUseFullCodegen lits).
Proof.
  pose proof (frame_ShouldUseFullCodegen R).
  induction lits as [|lit rest IH]; simpl; frame.
Qed.

Lemma frame_Compiler_Analyze pi : preserves R (Compiler_Analyze ext pi).
Proof. unfold Compiler_Analyze. frame. Qed.

Lemma frame_CompileUnoptimizedCode pi info :
  preserves R (CompileUnoptimizedCode ext env pi info).
Proof.
  pose proof frame_Compiler_Analyze.
  pose proof frame_StackOverflow_unless_pending.
  pose proof (frame_ShouldUseFullCodegen R).
  pose proof frame_InnerFunctionShouldUseFullCodegen.
  pose proof (frame_GenerateUnoptimizedCode ext R R_shared_infos R_created).
  pose proof frame_CompileUnoptimizedInnerFunctions.
  unfold CompileUnoptimizedCode. frame.
Qed.

Lemma frame_CompileUnoptimizedFunction pi info s :
  preserves R (CompileUnoptimizedFunction ext env pi info s).
Proof.
  pose proof frame_CompileUnoptimizedCode.
  unfold CompileUnoptimizedFunction. frame.
Qed.

Lemma frame_CompileToplevel pi info :
  preserves R (CompileToplevel ext env pi info).
Proof.
  pose proof frame_CompileUnoptimizedCode.
  unfold CompileToplevel. frame.
Qed.

End FrameEntryPoints.

Section BaselineFrame.

Variable ext : Collaborators.
Variable env : Environment.

Lemma GetLazyCode_closures f :
  FLAG_always_opt env = false ->
  preserves (same_on functions) (GetLazyCode ext env f).
Proof.
  intros Hflag.
  pose proof (frame_GetCodeFromOptimizedCodeCache (same_on functions)
                ltac:(done)).
  pose proof (frame_CompileUnoptimizedFunction ext env (same_on functions)
                ltac:(done) ltac:(done) ltac:(done)).
  unfold GetLazyCode. rewrite Hflag. simpl.
  repeat frame_step ltac:(done).
Qed.

(** X24.  The baseline entry points write descriptors, the job count and
    the pending-exception flag, and nothing else: whenever
    CompileUnoptimizedCode, CompileUnoptimizedFunction or CompileToplevel
    returns, with success or failure, every closure, every feedback vector
    (the optimized code cache with them) and the dispatcher's queue are as
    they were.  Without --always-opt GetLazyCode writes no closure either:
    installing the code it returns is left to its caller. *)
Theorem baseline_entry_points_leave_closures_alone :
  (forall pi info,
     preserves closures_untouched (CompileUnoptimizedCode ext env pi info)) /\
  (forall pi info s,
     preserves closures_untouched (CompileUnoptimizedFunction ext env pi info s)) /\
  (forall pi info,
     preserves closures_untouched (CompileToplevel ext env pi info)) /\
  (forall f,
     FLAG_always_opt env = false ->
     preserves (same_on functions) (GetLazyCode ext env f)).
Proof.
  split; [|split; [|split]]; intros.
  - by apply frame_CompileUnoptimizedCode; try exact _.
  - by apply frame_CompileUnoptimizedFunction; try exact _.
  - by apply frame_CompileToplevel; try exact _.
  - by apply GetLazyCode_closures.
Qed.

End BaselineFrame.

(** The compile of the plain literal on the concrete isolate leaves the
    three closures where they were. *)
Lemma baseline_entry_points_leave_closures_alone_witness :
  exists r iso',
    CompileUnoptimizedCode Demo.ext DemoEntry.env
      (Demo.function_parse_info Demo.plain_literal)
      (Demo.baseline_info Demo.plain_literal) Demo.iso = Ret (r, iso') /\
    functions iso' = functions Demo.iso.
Proof.
  destruct (CompileUnoptimizedCode Demo.ext DemoEntry.env
              (Demo.function_parse_info Demo.plain_literal)
              (Demo.baseline_info Demo.plain_literal) Demo.iso)
    as [[r iso']|] eqn:Hrun; [|by vm_compute in Hrun].
  destruct (baseline_entry_points_leave_closures_alone Demo.ext DemoEntry.env)
    as [H _].
  exists r, iso'. split; [done|].
  by destruct (preserves_elim _ _ _ _ _ (H _ _) Hrun) as [? _].
Defined.
